(** * typed-screeps: the declared API surface, embedded and checked

    The repository consists of ambient TypeScript declarations
    ([dist/index.d.ts], of which [src/structure.ts] is the structure part).
    There is nothing to run: what the declarations fix is a set of literal
    types, unions, conditional types and interfaces.  This development
    embeds that fragment of the type language, transcribes the declarations
    that the checked properties talk about, and proves the properties on the
    transcription.

    Conventions:
    - a [type X = ...] alias is a Rocq [Definition X : ty];
    - a union is kept in source order, a union of unions flattens;
    - strict null checking is assumed, as the declarations themselves do
      (they spell out [| undefined] and [| null] where they mean it). *)

From Stdlib Require Import ZArith QArith.
From stdpp Require Import base decidable option list strings.

#[local] Open Scope Z_scope.
#[local] Open Scope string_scope.
#[local] Open Scope list_scope.

(** ** Unit, primitive and named types *)

Module TS.

(** The atomic types that occur as members of the unions of the
    declarations: literal types, primitives, and references to object
    types, which are compared by name. *)
Inductive atom : Type :=
  | ANum (z : Z)            (* a numeric literal type such as [-6] *)
  | AStr (s : string)       (* a string literal type such as ["rampart"] *)
  | ANumber
  | AString
  | ATrue
  | AFalse
  | ANull
  | AUndefined
  | AVoid
  | ARef (name : string).   (* an object type, by the name the source gives it *)

#[global] Instance atom_eq_dec : EqDecision atom.
Proof. solve_decision. Defined.

(** Type expressions.  [TCond c e s t] is [c extends e ? s : t]. *)
Inductive ty : Type :=
  | TAtom (a : atom)
  | TNever
  | TOr (s t : ty)
  | TAnd (s t : ty)
  | TVar (x : string)
  | TCond (c e s t : ty).

#[global] Instance ty_eq_dec : EqDecision ty.
Proof. solve_decision. Defined.

Definition TNum (z : Z) : ty := TAtom (ANum z).
Definition TStr (s : string) : ty := TAtom (AStr s).
Definition number : ty := TAtom ANumber.
Definition string_ : ty := TAtom AString.
Definition true_ : ty := TAtom ATrue.
Definition false_ : ty := TAtom AFalse.
Definition null : ty := TAtom ANull.
Definition undefined : ty := TAtom AUndefined.
Definition void : ty := TAtom AVoid.
Definition TRef (n : string) : ty := TAtom (ARef n).
(** [boolean] is the union [true | false]; conditional types distribute
    over it. *)
Definition boolean : ty := TOr true_ false_.

Declare Scope ts_scope.
Delimit Scope ts_scope with ts.
Bind Scope ts_scope with ty.
Infix "∣" := TOr (at level 50, left associativity) : ts_scope.
Infix "&&&" := TAnd (at level 40, left associativity) : ts_scope.

(** Assignability between atoms: a literal is assignable to itself and to
    its primitive. *)
Definition atom_sub (a b : atom) : bool :=
  match a, b with
  | ANum _, ANumber => true
  | AStr _, AString => true
  | _, _ => bool_decide (a = b)
  end.

(** The literal types. *)
Definition literal (a : atom) : Prop :=
  match a with ANum _ | AStr _ => True | _ => False end.

(** A union is assignable to a union when each of its members is assignable
    to some member of the target. *)
Definition assignable (A B : list atom) : bool :=
  forallb (fun a => existsb (atom_sub a) B) A.

(** Intersection of two atoms, for the unit and primitive types (object
    types are never intersected through [TAnd] in the declarations
    embedded here; the one intersection of object types, [Store], is
    handled property by property below). *)
Definition atom_meet (a b : atom) : list atom :=
  if atom_sub a b then [a] else if atom_sub b a then [b] else [].

(** Type variables are bound to unions already evaluated. *)
Definition env := list (string * list atom).

Definition env_get (ρ : env) (x : string) : list atom :=
  match list_find (fun p => p.1 = x) ρ with
  | Some (_, (_, A)) => A
  | None => []
  end.

(** Evaluation of a type expression to the list of the members of the
    union it denotes.  A conditional type whose checked type is a naked
    type variable distributes over the members of the variable's union,
    binding the variable to each member in the branches. *)
Fixpoint members (ρ : env) (t : ty) : list atom :=
  match t with
  | TAtom a => [a]
  | TNever => []
  | TOr s t => members ρ s ++ members ρ t
  | TAnd s t =>
      flat_map (fun a => flat_map (atom_meet a) (members ρ t)) (members ρ s)
  | TVar x => env_get ρ x
  | TCond c e s t =>
      match c with
      | TVar x =>
          flat_map
            (fun a =>
               let ρ' := (x, [a]) :: ρ in
               if assignable [a] (members ρ' e)
               then members ρ' s else members ρ' t)
            (env_get ρ x)
      | _ =>
          if assignable (members ρ c) (members ρ e)
          then members ρ s else members ρ t
      end
  end.

(** Members of a closed type. *)
Definition union_of (t : ty) : list atom := members [] t.

(** [t] allows [undefined] / is assignable to [number]. *)
Definition allows_undefined (A : list atom) : bool :=
  bool_decide (AUndefined ∈ A).
Definition is_numeric (A : list atom) : bool :=
  negb (bool_decide (A = [])) && assignable A [ANumber].

(** Run-time values, as far as the declarations distinguish them.  Finite
    JavaScript numbers are rationals. *)
Inductive value : Type :=
  | VNum (q : Q)
  | VStr (s : string)
  | VBool (b : bool)
  | VNull
  | VUndefined
  | VObj (name : string).

Definition inhabits (v : value) (a : atom) : bool :=
  match a, v with
  | ANum z, VNum q => Qeq_bool q (inject_Z z)
  | AStr s, VStr s' => bool_decide (s = s')
  | ANumber, VNum _ => true
  | AString, VStr _ => true
  | ATrue, VBool b => b
  | AFalse, VBool b => negb b
  | ANull, VNull => true
  | AUndefined, VUndefined => true
  | AVoid, VUndefined => true
  | ARef n, VObj n' => bool_decide (n = n')
  | _, _ => false
  end.

Definition has_type (v : value) (A : list atom) : bool :=
  existsb (inhabits v) A.

End TS.

Import TS.
#[local] Open Scope ts_scope.

(** ** Return codes ([dist/index.d.ts], lines 2376-2417) *)

Definition OK : ty := TNum 0.
Definition ERR_NOT_OWNER : ty := TNum (-1).
Definition ERR_NO_PATH : ty := TNum (-2).
Definition ERR_NAME_EXISTS : ty := TNum (-3).
Definition ERR_BUSY : ty := TNum (-4).
Definition ERR_NOT_FOUND : ty := TNum (-5).
Definition ERR_NOT_ENOUGH_RESOURCES : ty := TNum (-6).
Definition ERR_NOT_ENOUGH_ENERGY : ty := TNum (-6).
Definition ERR_INVALID_TARGET : ty := TNum (-7).
Definition ERR_FULL : ty := TNum (-8).
Definition ERR_NOT_IN_RANGE : ty := TNum (-9).
Definition ERR_INVALID_ARGS : ty := TNum (-10).
Definition ERR_TIRED : ty := TNum (-11).
Definition ERR_NO_BODYPART : ty := TNum (-12).
Definition ERR_NOT_ENOUGH_EXTENSIONS : ty := TNum (-6).
Definition ERR_RCL_NOT_ENOUGH : ty := TNum (-14).
Definition ERR_GCL_NOT_ENOUGH : ty := TNum (-15).

Definition ScreepsReturnCode : ty :=
    OK
  ∣ ERR_NOT_OWNER
  ∣ ERR_NO_PATH
  ∣ ERR_BUSY
  ∣ ERR_NAME_EXISTS
  ∣ ERR_NOT_FOUND
  ∣ ERR_NOT_ENOUGH_RESOURCES
  ∣ ERR_NOT_ENOUGH_ENERGY
  ∣ ERR_INVALID_TARGET
  ∣ ERR_FULL
  ∣ ERR_NOT_IN_RANGE
  ∣ ERR_INVALID_ARGS
  ∣ ERR_TIRED
  ∣ ERR_NO_BODYPART
  ∣ ERR_NOT_ENOUGH_EXTENSIONS
  ∣ ERR_RCL_NOT_ENOUGH
  ∣ ERR_GCL_NOT_ENOUGH.

Definition CreepActionReturnCode : ty :=
  OK ∣ ERR_NOT_OWNER ∣ ERR_BUSY ∣ ERR_INVALID_TARGET ∣ ERR_NOT_IN_RANGE
  ∣ ERR_NO_BODYPART ∣ ERR_TIRED.

Definition CreepMoveReturnCode : ty :=
  OK ∣ ERR_NOT_OWNER ∣ ERR_BUSY ∣ ERR_TIRED ∣ ERR_NO_BODYPART.

(** The return-code names the declarations introduce, each with the type
    it aliases. *)
Definition return_code_names : list (string * ty) :=
  [ ("OK", OK);
    ("ERR_NOT_OWNER", ERR_NOT_OWNER);
    ("ERR_NO_PATH", ERR_NO_PATH);
    ("ERR_NAME_EXISTS", ERR_NAME_EXISTS);
    ("ERR_BUSY", ERR_BUSY);
    ("ERR_NOT_FOUND", ERR_NOT_FOUND);
    ("ERR_NOT_ENOUGH_RESOURCES", ERR_NOT_ENOUGH_RESOURCES);
    ("ERR_NOT_ENOUGH_ENERGY", ERR_NOT_ENOUGH_ENERGY);
    ("ERR_INVALID_TARGET", ERR_INVALID_TARGET);
    ("ERR_FULL", ERR_FULL);
    ("ERR_NOT_IN_RANGE", ERR_NOT_IN_RANGE);
    ("ERR_INVALID_ARGS", ERR_INVALID_ARGS);
    ("ERR_TIRED", ERR_TIRED);
    ("ERR_NO_BODYPART", ERR_NO_BODYPART);
    ("ERR_NOT_ENOUGH_EXTENSIONS", ERR_NOT_ENOUGH_EXTENSIONS);
    ("ERR_RCL_NOT_ENOUGH", ERR_RCL_NOT_ENOUGH);
    ("ERR_GCL_NOT_ENOUGH", ERR_GCL_NOT_ENOUGH) ].

(** The numeric value of a literal type. *)
Definition code_value (t : ty) : option Z :=
  match union_of t with
  | [ANum z] => Some z
  | _ => None
  end.

(** ** Exit constants ([dist/index.d.ts], lines 2421 and 2453-2456) *)

Definition FIND_EXIT_TOP : ty := TNum 1.
Definition FIND_EXIT_RIGHT : ty := TNum 3.
Definition FIND_EXIT_BOTTOM : ty := TNum 5.
Definition FIND_EXIT_LEFT : ty := TNum 7.

Definition ExitConstant : ty :=
  FIND_EXIT_TOP ∣ FIND_EXIT_RIGHT ∣ FIND_EXIT_BOTTOM ∣ FIND_EXIT_LEFT.

(** ** Market constants ([dist/index.d.ts], lines 755-758)

    [declare const MARKET_FEE: 0.05] gives the constant a literal type, so
    the literal is its value.  It is the one literal of the development that
    is not an integer, and is kept as the decimal fraction the source
    writes. *)

Definition MARKET_FEE : Q := 0.05.
Definition MARKET_MAX_ORDERS : Z := 300.
Definition MARKET_ORDER_LIFE_TIME : Z := 2592000000. (* 1000*60*60*24*30 *)

Definition ms_per_day : Z := 1000 * 60 * 60 * 24.

(** ** Structure-type tags ([dist/index.d.ts], lines 2609-2629) *)

Definition STRUCTURE_EXTENSION : ty := TStr "extension".
Definition STRUCTURE_RAMPART : ty := TStr "rampart".
Definition STRUCTURE_ROAD : ty := TStr "road".
Definition STRUCTURE_SPAWN : ty := TStr "spawn".
Definition STRUCTURE_LINK : ty := TStr "link".
Definition STRUCTURE_WALL : ty := TStr "constructedWall".
Definition STRUCTURE_KEEPER_LAIR : ty := TStr "keeperLair".
Definition STRUCTURE_CONTROLLER : ty := TStr "controller".
Definition STRUCTURE_STORAGE : ty := TStr "storage".
Definition STRUCTURE_TOWER : ty := TStr "tower".
Definition STRUCTURE_OBSERVER : ty := TStr "observer".
Definition STRUCTURE_POWER_BANK : ty := TStr "powerBank".
Definition STRUCTURE_POWER_SPAWN : ty := TStr "powerSpawn".
Definition STRUCTURE_EXTRACTOR : ty := TStr "extractor".
Definition STRUCTURE_LAB : ty := TStr "lab".
Definition STRUCTURE_TERMINAL : ty := TStr "terminal".
Definition STRUCTURE_CONTAINER : ty := TStr "container".
Definition STRUCTURE_NUKER : ty := TStr "nuker".
Definition STRUCTURE_FACTORY : ty := TStr "factory".
Definition STRUCTURE_INVADER_CORE : ty := TStr "invaderCore".
Definition STRUCTURE_PORTAL : ty := TStr "portal".

(* line 2583 *)
Definition BuildableStructureConstant : ty :=
    STRUCTURE_EXTENSION
  ∣ STRUCTURE_RAMPART
  ∣ STRUCTURE_ROAD
  ∣ STRUCTURE_SPAWN
  ∣ STRUCTURE_LINK
  ∣ STRUCTURE_WALL
  ∣ STRUCTURE_STORAGE
  ∣ STRUCTURE_TOWER
  ∣ STRUCTURE_OBSERVER
  ∣ STRUCTURE_POWER_SPAWN
  ∣ STRUCTURE_EXTRACTOR
  ∣ STRUCTURE_LAB
  ∣ STRUCTURE_TERMINAL
  ∣ STRUCTURE_CONTAINER
  ∣ STRUCTURE_NUKER
  ∣ STRUCTURE_FACTORY.

(* line 2601 *)
Definition StructureConstant : ty :=
    BuildableStructureConstant
  ∣ STRUCTURE_KEEPER_LAIR
  ∣ STRUCTURE_CONTROLLER
  ∣ STRUCTURE_POWER_BANK
  ∣ STRUCTURE_PORTAL
  ∣ STRUCTURE_INVADER_CORE.

(** ** Resource constants ([dist/index.d.ts], lines 2743-2838) *)

Definition RESOURCE_ENERGY : ty := TStr "energy".
Definition RESOURCE_POWER : ty := TStr "power".
Definition RESOURCE_OPS : ty := TStr "ops".
Definition RESOURCE_BIOMASS : ty := TStr "biomass".
Definition RESOURCE_METAL : ty := TStr "metal".
Definition RESOURCE_MIST : ty := TStr "mist".
Definition RESOURCE_SILICON : ty := TStr "silicon".
Definition RESOURCE_UTRIUM : ty := TStr "U".
Definition RESOURCE_LEMERGIUM : ty := TStr "L".
Definition RESOURCE_KEANIUM : ty := TStr "K".
Definition RESOURCE_ZYNTHIUM : ty := TStr "Z".
Definition RESOURCE_OXYGEN : ty := TStr "O".
Definition RESOURCE_HYDROGEN : ty := TStr "H".
Definition RESOURCE_CATALYST : ty := TStr "X".
Definition RESOURCE_HYDROXIDE : ty := TStr "OH".
Definition RESOURCE_ZYNTHIUM_KEANITE : ty := TStr "ZK".
Definition RESOURCE_UTRIUM_LEMERGITE : ty := TStr "UL".
Definition RESOURCE_GHODIUM : ty := TStr "G".
Definition RESOURCE_UTRIUM_HYDRIDE : ty := TStr "UH".
Definition RESOURCE_UTRIUM_OXIDE : ty := TStr "UO".
Definition RESOURCE_KEANIUM_HYDRIDE : ty := TStr "KH".
Definition RESOURCE_KEANIUM_OXIDE : ty := TStr "KO".
Definition RESOURCE_LEMERGIUM_HYDRIDE : ty := TStr "LH".
Definition RESOURCE_LEMERGIUM_OXIDE : ty := TStr "LO".
Definition RESOURCE_ZYNTHIUM_HYDRIDE : ty := TStr "ZH".
Definition RESOURCE_ZYNTHIUM_OXIDE : ty := TStr "ZO".
Definition RESOURCE_GHODIUM_HYDRIDE : ty := TStr "GH".
Definition RESOURCE_GHODIUM_OXIDE : ty := TStr "GO".
Definition RESOURCE_UTRIUM_ACID : ty := TStr "UH2O".
Definition RESOURCE_UTRIUM_ALKALIDE : ty := TStr "UHO2".
Definition RESOURCE_KEANIUM_ACID : ty := TStr "KH2O".
Definition RESOURCE_KEANIUM_ALKALIDE : ty := TStr "KHO2".
Definition RESOURCE_LEMERGIUM_ACID : ty := TStr "LH2O".
Definition RESOURCE_LEMERGIUM_ALKALIDE : ty := TStr "LHO2".
Definition RESOURCE_ZYNTHIUM_ACID : ty := TStr "ZH2O".
Definition RESOURCE_ZYNTHIUM_ALKALIDE : ty := TStr "ZHO2".
Definition RESOURCE_GHODIUM_ACID : ty := TStr "GH2O".
Definition RESOURCE_GHODIUM_ALKALIDE : ty := TStr "GHO2".
Definition RESOURCE_CATALYZED_UTRIUM_ACID : ty := TStr "XUH2O".
Definition RESOURCE_CATALYZED_UTRIUM_ALKALIDE : ty := TStr "XUHO2".
Definition RESOURCE_CATALYZED_KEANIUM_ACID : ty := TStr "XKH2O".
Definition RESOURCE_CATALYZED_KEANIUM_ALKALIDE : ty := TStr "XKHO2".
Definition RESOURCE_CATALYZED_LEMERGIUM_ACID : ty := TStr "XLH2O".
Definition RESOURCE_CATALYZED_LEMERGIUM_ALKALIDE : ty := TStr "XLHO2".
Definition RESOURCE_CATALYZED_ZYNTHIUM_ACID : ty := TStr "XZH2O".
Definition RESOURCE_CATALYZED_ZYNTHIUM_ALKALIDE : ty := TStr "XZHO2".
Definition RESOURCE_CATALYZED_GHODIUM_ACID : ty := TStr "XGH2O".
Definition RESOURCE_CATALYZED_GHODIUM_ALKALIDE : ty := TStr "XGHO2".
Definition RESOURCE_UTRIUM_BAR : ty := TStr "utrium_bar".
Definition RESOURCE_LEMERGIUM_BAR : ty := TStr "lemergium_bar".
Definition RESOURCE_ZYNTHIUM_BAR : ty := TStr "zynthium_bar".
Definition RESOURCE_KEANIUM_BAR : ty := TStr "keanium_bar".
Definition RESOURCE_GHODIUM_MELT : ty := TStr "ghodium_melt".
Definition RESOURCE_OXIDANT : ty := TStr "oxidant".
Definition RESOURCE_REDUCTANT : ty := TStr "reductant".
Definition RESOURCE_PURIFIER : ty := TStr "purifier".
Definition RESOURCE_BATTERY : ty := TStr "battery".
Definition RESOURCE_COMPOSITE : ty := TStr "composite".
Definition RESOURCE_CRYSTAL : ty := TStr "crystal".
Definition RESOURCE_LIQUID : ty := TStr "liquid".
Definition RESOURCE_WIRE : ty := TStr "wire".
Definition RESOURCE_SWITCH : ty := TStr "switch".
Definition RESOURCE_TRANSISTOR : ty := TStr "transistor".
Definition RESOURCE_MICROCHIP : ty := TStr "microchip".
Definition RESOURCE_CIRCUIT : ty := TStr "circuit".
Definition RESOURCE_DEVICE : ty := TStr "device".
Definition RESOURCE_CELL : ty := TStr "cell".
Definition RESOURCE_PHLEGM : ty := TStr "phlegm".
Definition RESOURCE_TISSUE : ty := TStr "tissue".
Definition RESOURCE_MUSCLE : ty := TStr "muscle".
Definition RESOURCE_ORGANOID : ty := TStr "organoid".
Definition RESOURCE_ORGANISM : ty := TStr "organism".
Definition RESOURCE_ALLOY : ty := TStr "alloy".
Definition RESOURCE_TUBE : ty := TStr "tube".
Definition RESOURCE_FIXTURES : ty := TStr "fixtures".
Definition RESOURCE_FRAME : ty := TStr "frame".
Definition RESOURCE_HYDRAULICS : ty := TStr "hydraulics".
Definition RESOURCE_MACHINE : ty := TStr "machine".
Definition RESOURCE_CONDENSATE : ty := TStr "condensate".
Definition RESOURCE_CONCENTRATE : ty := TStr "concentrate".
Definition RESOURCE_EXTRACT : ty := TStr "extract".
Definition RESOURCE_SPIRIT : ty := TStr "spirit".
Definition RESOURCE_EMANATION : ty := TStr "emanation".
Definition RESOURCE_ESSENCE : ty := TStr "essence".

(* line 2650 *)
Definition MineralConstant : ty :=
    RESOURCE_UTRIUM
  ∣ RESOURCE_LEMERGIUM
  ∣ RESOURCE_KEANIUM
  ∣ RESOURCE_ZYNTHIUM
  ∣ RESOURCE_OXYGEN
  ∣ RESOURCE_HYDROGEN
  ∣ RESOURCE_CATALYST.

(* line 2660 *)
Definition MineralBaseCompoundsConstant : ty :=
    RESOURCE_HYDROXIDE
  ∣ RESOURCE_ZYNTHIUM_KEANITE
  ∣ RESOURCE_UTRIUM_LEMERGITE
  ∣ RESOURCE_GHODIUM.

(* line 2663 *)
Definition MineralBoostConstant : ty :=
    RESOURCE_UTRIUM_HYDRIDE
  ∣ RESOURCE_UTRIUM_OXIDE
  ∣ RESOURCE_KEANIUM_HYDRIDE
  ∣ RESOURCE_KEANIUM_OXIDE
  ∣ RESOURCE_LEMERGIUM_HYDRIDE
  ∣ RESOURCE_LEMERGIUM_OXIDE
  ∣ RESOURCE_ZYNTHIUM_HYDRIDE
  ∣ RESOURCE_ZYNTHIUM_OXIDE
  ∣ RESOURCE_GHODIUM_HYDRIDE
  ∣ RESOURCE_GHODIUM_OXIDE
  ∣ RESOURCE_UTRIUM_ACID
  ∣ RESOURCE_UTRIUM_ALKALIDE
  ∣ RESOURCE_KEANIUM_ACID
  ∣ RESOURCE_KEANIUM_ALKALIDE
  ∣ RESOURCE_LEMERGIUM_ACID
  ∣ RESOURCE_LEMERGIUM_ALKALIDE
  ∣ RESOURCE_ZYNTHIUM_ACID
  ∣ RESOURCE_ZYNTHIUM_ALKALIDE
  ∣ RESOURCE_GHODIUM_ACID
  ∣ RESOURCE_GHODIUM_ALKALIDE
  ∣ RESOURCE_CATALYZED_UTRIUM_ACID
  ∣ RESOURCE_CATALYZED_UTRIUM_ALKALIDE
  ∣ RESOURCE_CATALYZED_KEANIUM_ACID
  ∣ RESOURCE_CATALYZED_KEANIUM_ALKALIDE
  ∣ RESOURCE_CATALYZED_LEMERGIUM_ACID
  ∣ RESOURCE_CATALYZED_LEMERGIUM_ALKALIDE
  ∣ RESOURCE_CATALYZED_ZYNTHIUM_ACID
  ∣ RESOURCE_CATALYZED_ZYNTHIUM_ALKALIDE
  ∣ RESOURCE_CATALYZED_GHODIUM_ACID
  ∣ RESOURCE_CATALYZED_GHODIUM_ALKALIDE.

(* line 2696 *)
Definition MineralCompoundConstant : ty :=
    MineralBaseCompoundsConstant
  ∣ MineralBoostConstant.

(* line 2699 *)
Definition DepositConstant : ty :=
    RESOURCE_MIST
  ∣ RESOURCE_BIOMASS
  ∣ RESOURCE_METAL
  ∣ RESOURCE_SILICON.

(* line 2702 *)
Definition CommodityConstant : ty :=
    RESOURCE_UTRIUM_BAR
  ∣ RESOURCE_LEMERGIUM_BAR
  ∣ RESOURCE_ZYNTHIUM_BAR
  ∣ RESOURCE_KEANIUM_BAR
  ∣ RESOURCE_GHODIUM_MELT
  ∣ RESOURCE_OXIDANT
  ∣ RESOURCE_REDUCTANT
  ∣ RESOURCE_PURIFIER
  ∣ RESOURCE_BATTERY
  ∣ RESOURCE_COMPOSITE
  ∣ RESOURCE_CRYSTAL
  ∣ RESOURCE_LIQUID
  ∣ RESOURCE_WIRE
  ∣ RESOURCE_SWITCH
  ∣ RESOURCE_TRANSISTOR
  ∣ RESOURCE_MICROCHIP
  ∣ RESOURCE_CIRCUIT
  ∣ RESOURCE_DEVICE
  ∣ RESOURCE_CELL
  ∣ RESOURCE_PHLEGM
  ∣ RESOURCE_TISSUE
  ∣ RESOURCE_MUSCLE
  ∣ RESOURCE_ORGANOID
  ∣ RESOURCE_ORGANISM
  ∣ RESOURCE_ALLOY
  ∣ RESOURCE_TUBE
  ∣ RESOURCE_FIXTURES
  ∣ RESOURCE_FRAME
  ∣ RESOURCE_HYDRAULICS
  ∣ RESOURCE_MACHINE
  ∣ RESOURCE_CONDENSATE
  ∣ RESOURCE_CONCENTRATE
  ∣ RESOURCE_EXTRACT
  ∣ RESOURCE_SPIRIT
  ∣ RESOURCE_EMANATION
  ∣ RESOURCE_ESSENCE.

(* line 2638 *)
Definition ResourceConstant : ty :=
    RESOURCE_ENERGY
  ∣ RESOURCE_POWER
  ∣ RESOURCE_OPS
  ∣ MineralConstant
  ∣ MineralCompoundConstant
  ∣ DepositConstant
  ∣ CommodityConstant.

(** ** Stores ([dist/index.d.ts], lines 2053-2057 and 5660-5710) *)

(** An instantiation [Store<POSSIBLE_RESOURCES, UNLIMITED_STORE>]. *)
Record store_ty : Type := Store {
  POSSIBLE_RESOURCES : ty;
  UNLIMITED_STORE : ty
}.

#[global] Instance store_ty_eq_dec : EqDecision store_ty.
Proof. solve_decision. Defined.

(** A general purpose Store, which has a limited capacity *)
Definition StoreDefinition : store_ty := Store ResourceConstant false_.

(** A general purpose Store, which has an unlimited capacity *)
Definition StoreDefinitionUnlimited : store_ty := Store ResourceConstant true_.

(** The return types of the three methods of [StoreBase], over the type
    parameters of the interface and the parameter [R] of the method. *)
Module StoreBase.

Definition getCapacity : ty :=
  TCond (TVar "UNLIMITED_STORE") true_
    null
    (TCond (TVar "R") undefined
       (TCond ResourceConstant (TVar "POSSIBLE_RESOURCES") number null)
       (TCond (TVar "R") (TVar "POSSIBLE_RESOURCES") number null)).

Definition getUsedCapacity : ty :=
  TCond (TVar "R") undefined
    (TCond ResourceConstant (TVar "POSSIBLE_RESOURCES") number null)
    (TCond (TVar "R") (TVar "POSSIBLE_RESOURCES") number null).

Definition getFreeCapacity : ty :=
  TCond (TVar "UNLIMITED_STORE") true_
    null
    (TCond (TVar "R") undefined
       (TCond ResourceConstant (TVar "POSSIBLE_RESOURCES") number null)
       (TCond (TVar "R") (TVar "POSSIBLE_RESOURCES") number null)).

End StoreBase.

(** The type of a call [store.m(resource)] on a store of type [S]: [R] is
    the type argument of the method, which is the type of the argument
    when that is a resource constant or a union of resource constants, and
    [undefined], its default, when the argument is left out. *)
Definition call_type (S : store_ty) (m : ty) (resource : option ty) : list atom :=
  members
    [ ("R", from_option union_of [AUndefined] resource);
      ("POSSIBLE_RESOURCES", union_of (POSSIBLE_RESOURCES S));
      ("UNLIMITED_STORE", union_of (UNLIMITED_STORE S)) ]
    m.

(** [Exclude<T, U>] of the TypeScript library:
    [type Exclude<T, U> = T extends U ? never : T]. *)
Definition Exclude (T U : list atom) : list atom :=
  members [("T", T); ("U", U)] (TCond (TVar "T") (TVar "U") TNever (TVar "T")).

(** The property [k] of a mapped type [{ [K in keys]: v }]. *)
Definition mapped (keys : list atom) (v : ty) (k : atom) : option (list atom) :=
  if bool_decide (k ∈ keys) then Some (union_of v) else None.

(** The property [k] of an intersection of two object types. *)
Definition prop_meet (a b : option (list atom)) : option (list atom) :=
  match a, b with
  | Some A, Some B => Some (flat_map (fun x => flat_map (atom_meet x) B) A)
  | Some A, None => Some A
  | None, _ => b
  end.

(** The type of [store[k]] for a resource key [k]:
    [Store<P, U> = StoreBase<P, U> & { [K in P]: number }
                   & { [K in Exclude<ResourceConstant, P>]: 0 }]
    ([StoreBase] contributes the three methods, no resource key). *)
Definition Store_index (S : store_ty) (k : atom) : option (list atom) :=
  let P := union_of (POSSIBLE_RESOURCES S) in
  prop_meet (mapped P number k)
            (mapped (Exclude (union_of ResourceConstant) P) (TNum 0) k).

(** What a script observes of a store during one tick: the results of the
    three methods, for a resource or without argument. *)
Record store_snapshot : Type := Snapshot {
  snap_getCapacity : option string -> value;
  snap_getUsedCapacity : option string -> value;
  snap_getFreeCapacity : option string -> value
}.

(** The snapshot has the declared types: every call with a resource
    constant, or without argument, returns a value of the declared return
    type. *)
Definition conforms (S : store_ty) (s : store_snapshot) : Prop :=
  forall r : option string,
    from_option (fun k => AStr k ∈ union_of ResourceConstant) True r ->
    has_type (snap_getCapacity s r)
             (call_type S StoreBase.getCapacity (TStr <$> r)) = true /\
    has_type (snap_getUsedCapacity s r)
             (call_type S StoreBase.getUsedCapacity (TStr <$> r)) = true /\
    has_type (snap_getFreeCapacity s r)
             (call_type S StoreBase.getFreeCapacity (TStr <$> r)) = true.




(** ** Interface declarations *)

(** The type a property is declared with: a type expression, or an
    instantiation of [Store]. *)
Inductive member_type : Type :=
  | Plain (t : ty)
  | StoreT (s : store_ty).

#[global] Instance member_type_eq_dec : EqDecision member_type.
Proof. solve_decision. Defined.

(** What the documentation comment of a method says about result codes in
    its [@returns] clause. *)
Inductive returns_doc : Type :=
  | Silent                     (* no result code is named *)
  | OneOf (codes : list ty)    (* the clause is a list of result codes: "One
                                  of the following codes: ...", "Result
                                  Code: ...", or the bare list *)
  | ValueOr (codes : list ty). (* "<the value>, or one of ... codes: ..." *)

#[global] Instance returns_doc_eq_dec : EqDecision returns_doc.
Proof. solve_decision. Defined.

(** A property ([name: t] or [name?: t]) or a method, of which the return
    type, the documented result codes and the presence of a [@throws]
    clause are recorded (parameters are not needed here). *)
Inductive signature : Type :=
  | Field (optional : bool) (t : member_type)
  | Method (ret : ty) (doc : returns_doc) (throws : bool).

#[global] Instance signature_eq_dec : EqDecision signature.
Proof. solve_decision. Defined.

(** [m_line] is the line of the member in [dist/index.d.ts]. *)
Record member : Type := Member {
  m_line : Z;
  m_name : string;
  m_sig : signature
}.

#[global] Instance member_eq_dec : EqDecision member.
Proof. solve_decision. Defined.

Definition field (l : Z) (n : string) (t : member_type) : member :=
  Member l n (Field false t).
Definition field_opt (l : Z) (n : string) (t : member_type) : member :=
  Member l n (Field true t).
Definition method (l : Z) (n : string) (ret : ty) (doc : returns_doc)
    (throws : bool) : member :=
  Member l n (Method ret doc throws).

(** [interface I<T extends B = D> extends J<arg> { members }]: the type
    parameter with its default, and the parent with its type argument. *)
Record interface : Type := {
  i_name : string;
  i_param : option (string * ty);
  i_extends : option (string * option ty);
  i_members : list member
}.

(** ** Unions of structure interfaces ([src/structure.ts], lines 884-919;
       [dist/index.d.ts], line 2372) *)

Definition AnyCreep : ty := TRef "Creep" ∣ TRef "PowerCreep".

Definition AnyOwnedStructure : ty :=
    TRef "StructureController"
  ∣ TRef "StructureExtension"
  ∣ TRef "StructureExtractor"
  ∣ TRef "StructureFactory"
  ∣ TRef "StructureInvaderCore"
  ∣ TRef "StructureKeeperLair"
  ∣ TRef "StructureLab"
  ∣ TRef "StructureLink"
  ∣ TRef "StructureNuker"
  ∣ TRef "StructureObserver"
  ∣ TRef "StructurePowerBank"
  ∣ TRef "StructurePowerSpawn"
  ∣ TRef "StructureRampart"
  ∣ TRef "StructureSpawn"
  ∣ TRef "StructureStorage"
  ∣ TRef "StructureTerminal"
  ∣ TRef "StructureTower".

Definition AnyStoreStructure : ty :=
    TRef "StructureExtension"
  ∣ TRef "StructureFactory"
  ∣ TRef "StructureLab"
  ∣ TRef "StructureLink"
  ∣ TRef "StructureNuker"
  ∣ TRef "StructurePowerSpawn"
  ∣ TRef "StructureSpawn"
  ∣ TRef "StructureStorage"
  ∣ TRef "StructureTerminal"
  ∣ TRef "StructureTower"
  ∣ TRef "StructureContainer".

(** A discriminated union on [Structure.structureType] of all structure
    types *)
Definition AnyStructure : ty :=
  AnyOwnedStructure ∣ TRef "StructureContainer" ∣ TRef "StructurePortal"
  ∣ TRef "StructureRoad" ∣ TRef "StructureWall".

(** Map of structure constant to the concrete structure class
    ([src/structure.ts], lines 924-946). *)
Definition ConcreteStructureMap : list (ty * ty) :=
  [ (STRUCTURE_EXTENSION, TRef "StructureExtension");
    (STRUCTURE_RAMPART, TRef "StructureRampart");
    (STRUCTURE_ROAD, TRef "StructureRoad");
    (STRUCTURE_SPAWN, TRef "StructureSpawn");
    (STRUCTURE_LINK, TRef "StructureLink");
    (STRUCTURE_WALL, TRef "StructureWall");
    (STRUCTURE_STORAGE, TRef "StructureStorage");
    (STRUCTURE_TOWER, TRef "StructureTower");
    (STRUCTURE_OBSERVER, TRef "StructureObserver");
    (STRUCTURE_POWER_SPAWN, TRef "StructurePowerSpawn");
    (STRUCTURE_EXTRACTOR, TRef "StructureExtractor");
    (STRUCTURE_LAB, TRef "StructureLab");
    (STRUCTURE_TERMINAL, TRef "StructureTerminal");
    (STRUCTURE_CONTAINER, TRef "StructureContainer");
    (STRUCTURE_NUKER, TRef "StructureNuker");
    (STRUCTURE_FACTORY, TRef "StructureFactory");
    (STRUCTURE_KEEPER_LAIR, TRef "StructureKeeperLair");
    (STRUCTURE_CONTROLLER, TRef "StructureController");
    (STRUCTURE_POWER_BANK, TRef "StructurePowerBank");
    (STRUCTURE_PORTAL, TRef "StructurePortal");
    (STRUCTURE_INVADER_CORE, TRef "StructureInvaderCore") ].

(** [type ConcreteStructure<T extends StructureConstant> =
    ConcreteStructureMap[T]]: an indexed access by a union of keys is the
    union of the properties. *)
Definition ConcreteStructure (T : ty) : list atom :=
  flat_map
    (fun k =>
       flat_map
         (fun kv : ty * ty =>
            if bool_decide (union_of kv.1 = [k]) then union_of kv.2 else [])
         ConcreteStructureMap)
    (union_of T).

(** ** The interfaces ([dist/index.d.ts]; the structures are
       [src/structure.ts], whose line [n] is line [n + 5753] there) *)

(* line 4442: interface RoomObject *)
Definition RoomObject : interface :=
  {| i_name := "RoomObject";
     i_param := None;
     i_extends := None;
     i_members :=
       [ field 4443 "prototype" (Plain (TRef "RoomObject"));
         field_opt 4447 "effects" (Plain (TRef "RoomObjectEffect[]"));
         field 4451 "pos" (Plain (TRef "RoomPosition"));
         field 4458 "room" (Plain (TRef "Room" ∣ undefined)) ] |}.

(* line 5323: interface Ruin extends RoomObject *)
Definition Ruin : interface :=
  {| i_name := "Ruin";
     i_param := None;
     i_extends := Some ("RoomObject", None);
     i_members :=
       [ field 5328 "id" (Plain (TRef "Id<this>"));
         field 5332 "destroyTime" (Plain number);
         field 5336 "store" (StoreT StoreDefinitionUnlimited);
         field 5340 "ticksToDecay" (Plain number);
         field 5344 "structure" (Plain AnyStructure) ] |}.

(* line 5417: interface StructureSpawn extends OwnedStructure<STRUCTURE_SPAWN> *)
Definition StructureSpawn : interface :=
  {| i_name := "StructureSpawn";
     i_param := None;
     i_extends := Some ("OwnedStructure", Some STRUCTURE_SPAWN);
     i_members :=
       [ field 5418 "prototype" (Plain (TRef "StructureSpawn"));
         field 5423 "energy" (Plain number);
         field 5428 "energyCapacity" (Plain number);
         field 5436 "memory" (Plain (TRef "SpawnMemory"));
         field 5443 "name" (Plain string_);
         field 5447 "spawning" (Plain (TRef "Spawning" ∣ null));
         field 5451 "store" (StoreT (Store RESOURCE_ENERGY false_));
         method 5479 "canCreateCreep" ScreepsReturnCode (OneOf [OK; ERR_NOT_OWNER; ERR_NAME_EXISTS;
             ERR_BUSY; ERR_NOT_ENOUGH_ENERGY; ERR_INVALID_ARGS; ERR_RCL_NOT_ENOUGH]) false;
         method 5507 "createCreep" (ScreepsReturnCode ∣ string_) (ValueOr [ERR_NOT_OWNER;
             ERR_NAME_EXISTS; ERR_BUSY; ERR_NOT_ENOUGH_ENERGY; ERR_INVALID_ARGS;
             ERR_RCL_NOT_ENOUGH]) false;
         method 5531 "spawnCreep" ScreepsReturnCode (OneOf [OK; ERR_NOT_OWNER; ERR_NAME_EXISTS;
             ERR_BUSY; ERR_NOT_ENOUGH_ENERGY; ERR_INVALID_ARGS; ERR_RCL_NOT_ENOUGH]) false;
         method 5553 "renewCreep" ScreepsReturnCode (OneOf [OK; ERR_NOT_OWNER; ERR_BUSY;
             ERR_NOT_ENOUGH_ENERGY; ERR_INVALID_TARGET; ERR_FULL; ERR_NOT_IN_RANGE;
             ERR_RCL_NOT_ENOUGH]) false;
         method 5567 "recycleCreep" ScreepsReturnCode (OneOf [OK; ERR_NOT_OWNER; ERR_INVALID_TARGET;
             ERR_NOT_IN_RANGE; ERR_RCL_NOT_ENOUGH]) false ] |}.

(* line 5578: interface Spawning *)
Definition Spawning : interface :=
  {| i_name := "Spawning";
     i_param := None;
     i_extends := None;
     i_members :=
       [ field 5579 "prototype" (Plain (TRef "Spawning"));
         field_opt 5586 "directions" (Plain (TRef "DirectionConstant[]"));
         field 5591 "name" (Plain string_);
         field 5596 "needTime" (Plain number);
         field 5601 "remainingTime" (Plain number);
         field 5606 "spawn" (Plain (TRef "StructureSpawn"));
         method 5616 "cancel" (ScreepsReturnCode &&& (OK ∣ ERR_NOT_OWNER)) (OneOf [OK;
             ERR_NOT_OWNER]) false;
         method 5627 "setDirections" (ScreepsReturnCode &&& (OK ∣ ERR_NOT_OWNER ∣ ERR_INVALID_ARGS))
             (OneOf [OK; ERR_NOT_OWNER; ERR_INVALID_ARGS]) false ] |}.

(* line 5757: interface Structure<T extends StructureConstant = StructureConstant> extends RoomObject *)
Definition Structure : interface :=
  {| i_name := "Structure";
     i_param := Some ("T", StructureConstant);
     i_extends := Some ("RoomObject", None);
     i_members :=
       [ field 5758 "prototype" (Plain (TRef "Structure"));
         field 5763 "hits" (Plain number);
         field 5767 "hitsMax" (Plain number);
         field 5773 "id" (Plain (TRef "Id<this>"));
         field 5780 "room" (Plain (TRef "Room"));
         field 5784 "structureType" (Plain (TVar "T"));
         method 5792 "destroy" ScreepsReturnCode (OneOf [OK; ERR_NOT_OWNER; ERR_BUSY]) false;
         method 5796 "isActive" boolean Silent false;
         method 5805 "notifyWhenAttacked" ScreepsReturnCode (OneOf [OK; ERR_NOT_OWNER;
             ERR_INVALID_ARGS]) false ] |}.

(* line 5817: interface OwnedStructure<T extends StructureConstant = StructureConstant> extends Structure<T> *)
Definition OwnedStructure : interface :=
  {| i_name := "OwnedStructure";
     i_param := Some ("T", StructureConstant);
     i_extends := Some ("Structure", Some (TVar "T"));
     i_members :=
       [ field 5818 "prototype" (Plain (TRef "OwnedStructure"));
         field 5825 "my" (Plain boolean);
         field 5829 "owner" (Plain (TCond (TVar "T") (STRUCTURE_CONTROLLER) (TRef "Owner" ∣ undefined)
             (TRef "Owner")));
         field 5835 "room" (Plain (TRef "Room")) ] |}.

(* line 5848: interface StructureController extends OwnedStructure<STRUCTURE_CONTROLLER> *)
Definition StructureController : interface :=
  {| i_name := "StructureController";
     i_param := None;
     i_extends := Some ("OwnedStructure", Some STRUCTURE_CONTROLLER);
     i_members :=
       [ field 5849 "prototype" (Plain (TRef "StructureController"));
         field 5856 "isPowerEnabled" (Plain boolean);
         field 5860 "level" (Plain number);
         field 5864 "progress" (Plain number);
         field 5868 "progressTotal" (Plain number);
         field 5874 "reservation" (Plain (TRef "ReservationDefinition" ∣ undefined));
         field_opt 5878 "safeMode" (Plain number);
         field 5882 "safeModeAvailable" (Plain number);
         field_opt 5886 "safeModeCooldown" (Plain number);
         field 5890 "sign" (Plain (TRef "SignDefinition" ∣ undefined));
         field 5896 "ticksToDowngrade" (Plain number);
         field 5900 "upgradeBlocked" (Plain number);
         method 5910 "activateSafeMode" ScreepsReturnCode (OneOf [OK; ERR_NOT_OWNER; ERR_BUSY;
             ERR_NOT_ENOUGH_RESOURCES; ERR_TIRED]) false;
         method 5917 "unclaim" ScreepsReturnCode (OneOf [OK; ERR_NOT_OWNER]) false ] |}.

(* line 5929: interface StructureExtension extends OwnedStructure<STRUCTURE_EXTENSION> *)
Definition StructureExtension : interface :=
  {| i_name := "StructureExtension";
     i_param := None;
     i_extends := Some ("OwnedStructure", Some STRUCTURE_EXTENSION);
     i_members :=
       [ field 5930 "prototype" (Plain (TRef "StructureExtension"));
         field 5937 "energy" (Plain number);
         field 5943 "energyCapacity" (Plain number);
         field 5948 "store" (StoreT (Store RESOURCE_ENERGY false_)) ] |}.

(* line 5958: interface StructureLink extends OwnedStructure<STRUCTURE_LINK> *)
Definition StructureLink : interface :=
  {| i_name := "StructureLink";
     i_param := None;
     i_extends := Some ("OwnedStructure", Some STRUCTURE_LINK);
     i_members :=
       [ field 5959 "prototype" (Plain (TRef "StructureLink"));
         field 5964 "cooldown" (Plain number);
         field 5969 "energy" (Plain number);
         field 5974 "energyCapacity" (Plain number);
         field 5978 "store" (StoreT (Store RESOURCE_ENERGY false_));
         method 5998 "transferEnergy" ScreepsReturnCode (OneOf [OK; ERR_NOT_OWNER;
             ERR_NOT_ENOUGH_RESOURCES; ERR_INVALID_TARGET; ERR_FULL; ERR_NOT_IN_RANGE;
             ERR_INVALID_ARGS; ERR_TIRED; ERR_RCL_NOT_ENOUGH]) false ] |}.

(* line 6011: interface StructureKeeperLair extends OwnedStructure<STRUCTURE_KEEPER_LAIR> *)
Definition StructureKeeperLair : interface :=
  {| i_name := "StructureKeeperLair";
     i_param := None;
     i_extends := Some ("OwnedStructure", Some STRUCTURE_KEEPER_LAIR);
     i_members :=
       [ field 6012 "prototype" (Plain (TRef "StructureKeeperLair"));
         field_opt 6017 "ticksToSpawn" (Plain number) ] |}.

(* line 6027: interface StructureObserver extends OwnedStructure<STRUCTURE_OBSERVER> *)
Definition StructureObserver : interface :=
  {| i_name := "StructureObserver";
     i_param := None;
     i_extends := Some ("OwnedStructure", Some STRUCTURE_OBSERVER);
     i_members :=
       [ field 6028 "prototype" (Plain (TRef "StructureObserver"));
         method 6042 "observeRoom" ScreepsReturnCode (OneOf [OK; ERR_NOT_OWNER; ERR_NOT_IN_RANGE;
             ERR_INVALID_ARGS; ERR_RCL_NOT_ENOUGH]) false ] |}.

(* line 6055: interface StructurePowerBank extends OwnedStructure<STRUCTURE_POWER_BANK> *)
Definition StructurePowerBank : interface :=
  {| i_name := "StructurePowerBank";
     i_param := None;
     i_extends := Some ("OwnedStructure", Some STRUCTURE_POWER_BANK);
     i_members :=
       [ field 6056 "prototype" (Plain (TRef "StructurePowerBank"));
         field 6061 "power" (Plain number);
         field 6065 "ticksToDecay" (Plain number) ] |}.

(* line 6078: interface StructurePowerSpawn extends OwnedStructure<STRUCTURE_POWER_SPAWN> *)
Definition StructurePowerSpawn : interface :=
  {| i_name := "StructurePowerSpawn";
     i_param := None;
     i_extends := Some ("OwnedStructure", Some STRUCTURE_POWER_SPAWN);
     i_members :=
       [ field 6079 "prototype" (Plain (TRef "StructurePowerSpawn"));
         field 6084 "energy" (Plain number);
         field 6089 "energyCapacity" (Plain number);
         field 6094 "power" (Plain number);
         field 6099 "powerCapacity" (Plain number);
         field 6103 "store" (StoreT (Store (RESOURCE_ENERGY ∣ RESOURCE_POWER) false_));
         method 6115 "processPower" ScreepsReturnCode (OneOf [OK; ERR_NOT_OWNER;
             ERR_NOT_ENOUGH_RESOURCES; ERR_RCL_NOT_ENOUGH]) false ] |}.

(* line 6128: interface StructureRampart extends OwnedStructure<STRUCTURE_RAMPART> *)
Definition StructureRampart : interface :=
  {| i_name := "StructureRampart";
     i_param := None;
     i_extends := Some ("OwnedStructure", Some STRUCTURE_RAMPART);
     i_members :=
       [ field 6129 "prototype" (Plain (TRef "StructureRampart"));
         field 6134 "ticksToDecay" (Plain number);
         field 6142 "isPublic" (Plain boolean);
         method 6151 "setPublic" undefined (OneOf [OK; ERR_NOT_OWNER]) false ] |}.

(* line 6163: interface StructureRoad extends Structure<STRUCTURE_ROAD> *)
Definition StructureRoad : interface :=
  {| i_name := "StructureRoad";
     i_param := None;
     i_extends := Some ("Structure", Some STRUCTURE_ROAD);
     i_members :=
       [ field 6164 "prototype" (Plain (TRef "StructureRoad"));
         field 6169 "ticksToDecay" (Plain number) ] |}.

(* line 6181: interface StructureStorage extends OwnedStructure<STRUCTURE_STORAGE> *)
Definition StructureStorage : interface :=
  {| i_name := "StructureStorage";
     i_param := None;
     i_extends := Some ("OwnedStructure", Some STRUCTURE_STORAGE);
     i_members :=
       [ field 6182 "prototype" (Plain (TRef "StructureStorage"));
         field 6187 "store" (StoreT StoreDefinition);
         field 6192 "storeCapacity" (Plain number) ] |}.

(* line 6205: interface StructureTower extends OwnedStructure<STRUCTURE_TOWER> *)
Definition StructureTower : interface :=
  {| i_name := "StructureTower";
     i_param := None;
     i_extends := Some ("OwnedStructure", Some STRUCTURE_TOWER);
     i_members :=
       [ field 6206 "prototype" (Plain (TRef "StructureTower"));
         field 6212 "energy" (Plain number);
         field 6217 "energyCapacity" (Plain number);
         field 6221 "store" (StoreT (Store RESOURCE_ENERGY false_));
         method 6235 "attack" ScreepsReturnCode (OneOf [OK; ERR_NOT_OWNER; ERR_NOT_ENOUGH_ENERGY;
             ERR_INVALID_TARGET; ERR_RCL_NOT_ENOUGH]) false;
         method 6248 "heal" ScreepsReturnCode (OneOf [OK; ERR_NOT_OWNER; ERR_NOT_ENOUGH_ENERGY;
             ERR_INVALID_TARGET; ERR_RCL_NOT_ENOUGH]) false;
         method 6261 "repair" ScreepsReturnCode (OneOf [OK; ERR_NOT_OWNER; ERR_NOT_ENOUGH_ENERGY;
             ERR_INVALID_TARGET; ERR_RCL_NOT_ENOUGH]) false ] |}.

(* line 6271: interface StructureWall extends Structure<STRUCTURE_WALL> *)
Definition StructureWall : interface :=
  {| i_name := "StructureWall";
     i_param := None;
     i_extends := Some ("Structure", Some STRUCTURE_WALL);
     i_members :=
       [ field 6272 "prototype" (Plain (TRef "StructureWall"));
         field 6276 "ticksToLive" (Plain number) ] |}.

(* line 6286: interface StructureExtractor extends OwnedStructure<STRUCTURE_EXTRACTOR> *)
Definition StructureExtractor : interface :=
  {| i_name := "StructureExtractor";
     i_param := None;
     i_extends := Some ("OwnedStructure", Some STRUCTURE_EXTRACTOR);
     i_members :=
       [ field 6287 "prototype" (Plain (TRef "StructureExtractor"));
         field 6291 "cooldown" (Plain number) ] |}.

(* line 6301: interface StructureLab extends OwnedStructure<STRUCTURE_LAB> *)
Definition StructureLab : interface :=
  {| i_name := "StructureLab";
     i_param := None;
     i_extends := Some ("OwnedStructure", Some STRUCTURE_LAB);
     i_members :=
       [ field 6302 "prototype" (Plain (TRef "StructureLab"));
         field 6306 "cooldown" (Plain number);
         field 6311 "energy" (Plain number);
         field 6316 "energyCapacity" (Plain number);
         field 6321 "mineralAmount" (Plain number);
         field 6328 "mineralType" (Plain (MineralConstant ∣ MineralCompoundConstant ∣ null));
         field 6333 "mineralCapacity" (Plain number);
         field 6337 "store" (StoreT (Store (RESOURCE_ENERGY ∣ MineralConstant
             ∣ MineralCompoundConstant) false_));
         method 6355 "boostCreep" ScreepsReturnCode (OneOf [OK; ERR_NOT_OWNER; ERR_NOT_FOUND;
             ERR_NOT_ENOUGH_RESOURCES; ERR_INVALID_TARGET; ERR_NOT_IN_RANGE;
             ERR_RCL_NOT_ENOUGH]) false;
         method 6372 "unboostCreep" ScreepsReturnCode (OneOf [OK; ERR_NOT_OWNER; ERR_NOT_FOUND;
             ERR_INVALID_TARGET; ERR_NOT_IN_RANGE; ERR_TIRED; ERR_RCL_NOT_ENOUGH]) false;
         method 6390 "reverseReaction" ScreepsReturnCode (OneOf [OK; ERR_NOT_OWNER;
             ERR_NOT_ENOUGH_RESOURCES; ERR_INVALID_TARGET; ERR_FULL; ERR_NOT_IN_RANGE;
             ERR_INVALID_ARGS; ERR_TIRED; ERR_RCL_NOT_ENOUGH]) false;
         method 6408 "runReaction" ScreepsReturnCode (OneOf [OK; ERR_NOT_OWNER;
             ERR_NOT_ENOUGH_RESOURCES; ERR_INVALID_TARGET; ERR_FULL; ERR_NOT_IN_RANGE;
             ERR_INVALID_ARGS; ERR_TIRED; ERR_RCL_NOT_ENOUGH]) false ] |}.

(* line 6418: interface StructureTerminal extends OwnedStructure<STRUCTURE_TERMINAL> *)
Definition StructureTerminal : interface :=
  {| i_name := "StructureTerminal";
     i_param := None;
     i_extends := Some ("OwnedStructure", Some STRUCTURE_TERMINAL);
     i_members :=
       [ field 6419 "prototype" (Plain (TRef "StructureTerminal"));
         field 6423 "cooldown" (Plain number);
         field 6427 "store" (StoreT StoreDefinition);
         field 6432 "storeCapacity" (Plain number);
         method 6446 "send" ScreepsReturnCode (OneOf [OK; ERR_NOT_OWNER; ERR_NOT_ENOUGH_RESOURCES;
             ERR_INVALID_ARGS; ERR_TIRED]) false ] |}.

(* line 6458: interface StructureContainer extends Structure<STRUCTURE_CONTAINER> *)
Definition StructureContainer : interface :=
  {| i_name := "StructureContainer";
     i_param := None;
     i_extends := Some ("Structure", Some STRUCTURE_CONTAINER);
     i_members :=
       [ field 6459 "prototype" (Plain (TRef "StructureContainer"));
         field 6466 "store" (StoreT StoreDefinition);
         field 6471 "storeCapacity" (Plain number);
         field 6475 "ticksToDecay" (Plain number) ] |}.

(* line 6490: interface StructureNuker extends OwnedStructure<STRUCTURE_NUKER> *)
Definition StructureNuker : interface :=
  {| i_name := "StructureNuker";
     i_param := None;
     i_extends := Some ("OwnedStructure", Some STRUCTURE_NUKER);
     i_members :=
       [ field 6491 "prototype" (Plain (TRef "StructureNuker"));
         field 6496 "energy" (Plain number);
         field 6501 "energyCapacity" (Plain number);
         field 6506 "ghodium" (Plain number);
         field 6511 "ghodiumCapacity" (Plain number);
         field 6515 "cooldown" (Plain number);
         field 6519 "store" (StoreT (Store (RESOURCE_ENERGY ∣ RESOURCE_GHODIUM) false_));
         method 6533 "launchNuke" ScreepsReturnCode (OneOf [OK; ERR_NOT_OWNER; ERR_NOT_ENOUGH_RESOURCES;
             ERR_INVALID_TARGET; ERR_NOT_IN_RANGE; ERR_INVALID_ARGS; ERR_TIRED;
             ERR_RCL_NOT_ENOUGH]) false ] |}.

(* line 6546: interface StructurePortal extends Structure<STRUCTURE_PORTAL> *)
Definition StructurePortal : interface :=
  {| i_name := "StructurePortal";
     i_param := None;
     i_extends := Some ("Structure", Some STRUCTURE_PORTAL);
     i_members :=
       [ field 6547 "prototype" (Plain (TRef "StructurePortal"));
         field 6555 "destination" (Plain (TRef "RoomPosition" ∣ TRef "{ shard: string; room: string }"));
         field 6559 "ticksToDecay" (Plain (number ∣ undefined)) ] |}.

(* line 6569: interface StructureFactory extends OwnedStructure<STRUCTURE_FACTORY> *)
Definition StructureFactory : interface :=
  {| i_name := "StructureFactory";
     i_param := None;
     i_extends := Some ("OwnedStructure", Some STRUCTURE_FACTORY);
     i_members :=
       [ field 6570 "prototype" (Plain (TRef "StructureFactory"));
         field 6574 "cooldown" (Plain number);
         field_opt 6581 "level" (Plain number);
         field 6585 "store" (StoreT StoreDefinition);
         method 6602 "produce" ScreepsReturnCode (OneOf [OK; ERR_NOT_OWNER; ERR_BUSY;
             ERR_NOT_ENOUGH_RESOURCES; ERR_INVALID_TARGET; ERR_FULL; ERR_INVALID_ARGS;
             ERR_TIRED; ERR_RCL_NOT_ENOUGH]) false ] |}.

(* line 6612: interface StructureInvaderCore extends OwnedStructure<STRUCTURE_INVADER_CORE> *)
Definition StructureInvaderCore : interface :=
  {| i_name := "StructureInvaderCore";
     i_param := None;
     i_extends := Some ("OwnedStructure", Some STRUCTURE_INVADER_CORE);
     i_members :=
       [ field 6613 "prototype" (Plain (TRef "StructureInvaderCore"));
         field 6619 "level" (Plain number);
         field 6623 "ticksToDeploy" (Plain number);
         field 6627 "spawning" (Plain (TRef "Spawning" ∣ null)) ] |}.

(* line 6713: interface Tombstone extends RoomObject *)
Definition Tombstone : interface :=
  {| i_name := "Tombstone";
     i_param := None;
     i_extends := Some ("RoomObject", None);
     i_members :=
       [ field 6719 "id" (Plain (TRef "Id<this>"));
         field 6723 "deathTime" (Plain number);
         field 6731 "store" (StoreT StoreDefinitionUnlimited);
         field 6735 "ticksToDecay" (Plain number);
         field 6739 "creep" (Plain AnyCreep) ] |}.

(** The interfaces embedded, in source order. *)
Definition interfaces : list interface :=
  [ RoomObject; Ruin; StructureSpawn; Spawning;
    Structure; OwnedStructure; StructureController; StructureExtension; StructureLink;
    StructureKeeperLair; StructureObserver; StructurePowerBank; StructurePowerSpawn;
    StructureRampart; StructureRoad; StructureStorage; StructureTower; StructureWall;
    StructureExtractor; StructureLab; StructureTerminal; StructureContainer; StructureNuker;
    StructurePortal; StructureFactory; StructureInvaderCore; Tombstone ].

(** ** Looking members up *)

Definition find_interface (n : string) : option interface :=
  snd <$> list_find (fun d => i_name d = n) interfaces.

(** The first declaration of the member (a method may be overloaded). *)
Definition find_member (d : interface) (f : string) : option member :=
  snd <$> list_find (fun m => m_name m = f) (i_members d).

(** The binding of the type parameter of [d]: the argument given, or the
    default. *)
Definition bind_param (d : interface) (arg : option (list atom)) : env :=
  match i_param d with
  | Some (x, dflt) => [(x, from_option id (union_of dflt) arg)]
  | None => []
  end.

(** A member once the type parameter is bound. *)
Inductive resolved : Type :=
  | RProp (optional : bool) (A : list atom)
  | RStore (optional : bool) (st : store_ty)
  | RMethod (ret : list atom).

Definition resolve (ρ : env) (s : signature) : resolved :=
  match s with
  | Field o (Plain t) => RProp o (members ρ t)
  | Field o (StoreT st) => RStore o st
  | Method r _ _ => RMethod (members ρ r)
  end.

(** The member [f] of the interface named [n] at type argument [arg]: its
    own declaration if there is one (a redeclared member shadows the
    inherited one), else the parent's, at the parent's type argument. *)
Fixpoint lookup (fuel : nat) (n : string) (arg : option (list atom))
    (f : string) : option resolved :=
  match fuel with
  | O => None
  | S fuel =>
      d ← find_interface n;
      let ρ := bind_param d arg in
      match find_member d f with
      | Some m => Some (resolve ρ (m_sig m))
      | None =>
          '(p, a) ← i_extends d;
          lookup fuel p (members ρ <$> a) f
      end
  end.

(** The names of the members of the interface named [n], inherited ones
    included. *)
Fixpoint member_names (fuel : nat) (n : string) : list string :=
  match fuel with
  | O => []
  | S fuel =>
      match find_interface n with
      | None => []
      | Some d =>
          (m_name <$> i_members d) ++
          match i_extends d with
          | Some (p, _) => member_names fuel p
          | None => []
          end
      end
  end.

(** No chain of [extends] is longer than the table. *)
Definition depth : nat := length interfaces.

Definition member_of (n : string) (arg : option ty) (f : string) : option resolved :=
  lookup depth n (union_of <$> arg) f.

Definition members_of (n : string) : list string := member_names depth n.

(** The [structureType] of an object type of a union. *)
Definition structureType_of (a : atom) : option (list atom) :=
  match a with
  | ARef n =>
      match member_of n None "structureType" with
      | Some (RProp false A) => Some A
      | _ => None
      end
  | _ => None
  end.

(** The declared type of [owner] in [OwnedStructure<T>]. *)
Definition owner_of (T : ty) : option (list atom) :=
  match member_of "OwnedStructure" (Some T) "owner" with
  | Some (RProp false A) => Some A
  | _ => None
  end.

(** ** Operations: methods and what they document about result codes *)

(** The methods of the other interfaces of [dist/index.d.ts] whose
    documentation names result codes or has a [@throws] clause, or whose
    return type mentions a result code. *)
Definition operations_elsewhere : list (string * member) :=
  [ ("ConstructionSite", method 1069 "remove" number (OneOf [OK; ERR_NOT_OWNER]) false);
    ("Creep", method 1202 "attack" CreepActionReturnCode (OneOf [OK; ERR_NOT_OWNER; ERR_BUSY;
        ERR_INVALID_TARGET; ERR_NOT_IN_RANGE; ERR_NO_BODYPART]) false);
    ("Creep", method 1220 "attackController" CreepActionReturnCode (OneOf [OK; ERR_NOT_OWNER;
        ERR_BUSY; ERR_INVALID_TARGET; ERR_NOT_IN_RANGE; ERR_TIRED; ERR_NO_BODYPART]) false);
    ("Creep", method 1237 "build" (CreepActionReturnCode ∣ ERR_NOT_ENOUGH_RESOURCES
        ∣ ERR_RCL_NOT_ENOUGH) (OneOf [OK; ERR_NOT_OWNER; ERR_BUSY; ERR_NOT_ENOUGH_RESOURCES;
        ERR_INVALID_TARGET; ERR_NOT_IN_RANGE; ERR_NO_BODYPART]) false);
    ("Creep", method 1245 "cancelOrder" (OK ∣ ERR_NOT_FOUND) (OneOf [OK; ERR_NOT_FOUND]) false);
    ("Creep", method 1265 "claimController" (CreepActionReturnCode ∣ ERR_FULL
        ∣ ERR_GCL_NOT_ENOUGH) (OneOf [OK; ERR_NOT_OWNER; ERR_BUSY; ERR_INVALID_TARGET;
        ERR_FULL; ERR_NOT_IN_RANGE; ERR_NO_BODYPART; ERR_GCL_NOT_ENOUGH]) false);
    ("Creep", method 1281 "dismantle" CreepActionReturnCode (OneOf [OK; ERR_NOT_OWNER; ERR_BUSY;
        ERR_INVALID_TARGET; ERR_NOT_IN_RANGE; ERR_NO_BODYPART]) false);
    ("Creep", method 1294 "drop" (OK ∣ ERR_NOT_OWNER ∣ ERR_BUSY ∣ ERR_NOT_ENOUGH_RESOURCES)
        (OneOf [OK; ERR_NOT_OWNER; ERR_BUSY; ERR_NOT_ENOUGH_RESOURCES; ERR_INVALID_ARGS]) false);
    ("Creep", method 1308 "generateSafeMode" CreepActionReturnCode (OneOf [OK; ERR_NOT_OWNER;
        ERR_BUSY; ERR_NOT_ENOUGH_RESOURCES; ERR_INVALID_TARGET; ERR_NOT_IN_RANGE]) false);
    ("Creep", method 1336 "harvest" (CreepActionReturnCode ∣ ERR_NOT_FOUND
        ∣ ERR_NOT_ENOUGH_RESOURCES) (OneOf [OK; ERR_NOT_OWNER; ERR_BUSY; ERR_NOT_FOUND;
        ERR_NOT_ENOUGH_RESOURCES; ERR_INVALID_TARGET; ERR_NOT_IN_RANGE; ERR_TIRED;
        ERR_NO_BODYPART]) false);
    ("Creep", method 1354 "heal" CreepActionReturnCode (OneOf [OK; ERR_NOT_OWNER; ERR_BUSY;
        ERR_INVALID_TARGET; ERR_NOT_IN_RANGE; ERR_NO_BODYPART]) false);
    ("Creep", method 1370 "move" CreepMoveReturnCode (OneOf [OK; ERR_NOT_OWNER; ERR_BUSY;
        ERR_NOT_IN_RANGE; ERR_INVALID_ARGS; ERR_TIRED; ERR_NO_BODYPART]) false);
    ("Creep", method 1371 "move" (OK ∣ ERR_NOT_OWNER ∣ ERR_BUSY ∣ ERR_NOT_IN_RANGE
        ∣ ERR_INVALID_ARGS) Silent false);
    ("Creep", method 1378 "moveByPath" (CreepMoveReturnCode ∣ ERR_NOT_FOUND
        ∣ ERR_INVALID_ARGS) Silent false);
    ("Creep", method 1389 "moveTo" (CreepMoveReturnCode ∣ ERR_NO_PATH
        ∣ ERR_INVALID_TARGET) Silent false);
    ("Creep", method 1399 "moveTo" (CreepMoveReturnCode ∣ ERR_NO_PATH ∣ ERR_INVALID_TARGET
        ∣ ERR_NOT_FOUND) Silent false);
    ("Creep", method 1414 "notifyWhenAttacked" (OK ∣ ERR_NOT_OWNER ∣ ERR_BUSY ∣ ERR_INVALID_ARGS)
        (OneOf [OK; ERR_NOT_OWNER; ERR_BUSY; ERR_INVALID_ARGS]) false);
    ("Creep", method 1430 "pickup" (CreepActionReturnCode ∣ ERR_FULL) (OneOf [OK; ERR_NOT_OWNER;
        ERR_BUSY; ERR_INVALID_TARGET; ERR_FULL; ERR_NOT_IN_RANGE; ERR_NO_BODYPART]) false);
    ("Creep", method 1447 "pull" (OK ∣ ERR_NOT_OWNER ∣ ERR_BUSY ∣ ERR_INVALID_TARGET
        ∣ ERR_NOT_IN_RANGE ∣ ERR_NO_BODYPART) (OneOf [OK; ERR_NOT_OWNER; ERR_BUSY;
        ERR_INVALID_TARGET; ERR_NOT_IN_RANGE; ERR_NO_BODYPART]) false);
    ("Creep", method 1464 "rangedAttack" CreepActionReturnCode (OneOf [OK; ERR_NOT_OWNER; ERR_BUSY;
        ERR_INVALID_TARGET; ERR_NOT_IN_RANGE; ERR_NO_BODYPART]) false);
    ("Creep", method 1480 "rangedHeal" CreepActionReturnCode (OneOf [OK; ERR_NOT_OWNER; ERR_BUSY;
        ERR_INVALID_TARGET; ERR_NOT_IN_RANGE; ERR_NO_BODYPART]) false);
    ("Creep", method 1493 "rangedMassAttack" (OK ∣ ERR_NOT_OWNER ∣ ERR_BUSY ∣ ERR_NO_BODYPART)
        (OneOf [OK; ERR_NOT_OWNER; ERR_BUSY; ERR_NO_BODYPART]) false);
    ("Creep", method 1506 "repair" (CreepActionReturnCode ∣ ERR_NOT_ENOUGH_RESOURCES) (OneOf [OK;
        ERR_NOT_OWNER; ERR_BUSY; ERR_NOT_ENOUGH_RESOURCES; ERR_INVALID_TARGET;
        ERR_NOT_IN_RANGE; ERR_NO_BODYPART]) false);
    ("Creep", method 1524 "reserveController" CreepActionReturnCode (OneOf [OK; ERR_NOT_OWNER;
        ERR_BUSY; ERR_INVALID_TARGET; ERR_NOT_IN_RANGE; ERR_NO_BODYPART]) false);
    ("Creep", method 1538 "say" (OK ∣ ERR_NOT_OWNER ∣ ERR_BUSY) (OneOf [OK; ERR_NOT_OWNER;
        ERR_BUSY]) false);
    ("Creep", method 1554 "signController" (OK ∣ ERR_BUSY ∣ ERR_INVALID_TARGET ∣ ERR_NOT_IN_RANGE)
        (OneOf [OK; ERR_BUSY; ERR_INVALID_TARGET; ERR_NOT_IN_RANGE]) false);
    ("Creep", method 1563 "suicide" (OK ∣ ERR_NOT_OWNER ∣ ERR_BUSY) (OneOf [OK; ERR_NOT_OWNER;
        ERR_BUSY]) false);
    ("Creep", method 1581 "transfer" ScreepsReturnCode (OneOf [OK; ERR_NOT_OWNER; ERR_BUSY;
        ERR_NOT_ENOUGH_RESOURCES; ERR_INVALID_TARGET; ERR_FULL; ERR_NOT_IN_RANGE;
        ERR_INVALID_ARGS]) false);
    ("Creep", method 1603 "upgradeController" ScreepsReturnCode (OneOf [OK; ERR_NOT_OWNER;
        ERR_BUSY; ERR_NOT_ENOUGH_RESOURCES; ERR_INVALID_TARGET; ERR_NOT_IN_RANGE;
        ERR_NO_BODYPART]) false);
    ("Creep", method 1626 "withdraw" ScreepsReturnCode (OneOf [OK; ERR_NOT_OWNER; ERR_BUSY;
        ERR_NOT_ENOUGH_RESOURCES; ERR_INVALID_TARGET; ERR_FULL; ERR_NOT_IN_RANGE;
        ERR_INVALID_ARGS]) false);
    ("Flag", method 1710 "remove" OK (OneOf [OK]) false);
    ("Flag", method 1719 "setColor" (OK ∣ ERR_INVALID_ARGS) (OneOf [OK; ERR_INVALID_ARGS]) false);
    ("Flag", method 1728 "setPosition" (OK ∣ ERR_INVALID_ARGS) (OneOf [OK;
        ERR_INVALID_TARGET]) false);
    ("Flag", method 1736 "setPosition" (OK ∣ ERR_INVALID_ARGS) (OneOf [OK;
        ERR_INVALID_TARGET]) false);
    ("Game", method 1844 "notify" (OK ∣ ERR_FULL) (OneOf [OK; ERR_FULL]) false);
    ("CPU", method 1953 "setShardLimits" (OK ∣ ERR_BUSY ∣ ERR_INVALID_ARGS) (OneOf [OK; ERR_BUSY;
        ERR_INVALID_ARGS]) false);
    ("CPU", method 1982 "generatePixel" (OK ∣ ERR_NOT_ENOUGH_RESOURCES) (OneOf [OK;
        ERR_NOT_ENOUGH_RESOURCES]) false);
    ("CPU", method 1994 "unlock" (OK ∣ ERR_NOT_ENOUGH_RESOURCES ∣ ERR_FULL) (OneOf [OK;
        ERR_NOT_ENOUGH_RESOURCES; ERR_FULL]) false);
    ("InterShardMemory", method 2350 "setLocal" void Silent true);
    ("InterShardMemory", method 2357 "getRemote" (string_ ∣ null) Silent true);
    ("GameMap", method 3116 "findExit" (ExitConstant ∣ ERR_NO_PATH ∣ ERR_INVALID_ARGS)
        (ValueOr [ERR_NO_PATH; ERR_INVALID_ARGS]) false);
    ("GameMap", method 3124 "findRoute" (TRef "{ exit: ExitConstant; room: string }[]"
        ∣ ERR_NO_PATH) (ValueOr [ERR_NO_PATH]) false);
    ("Market", method 3446 "cancelOrder" ScreepsReturnCode (OneOf [OK; ERR_INVALID_ARGS]) false);
    ("Market", method 3459 "changeOrderPrice" ScreepsReturnCode (OneOf [OK; ERR_NOT_OWNER;
        ERR_NOT_ENOUGH_RESOURCES; ERR_INVALID_ARGS]) false);
    ("Market", method 3478 "createOrder" ScreepsReturnCode (OneOf [OK; ERR_NOT_OWNER;
        ERR_NOT_ENOUGH_RESOURCES; ERR_FULL; ERR_INVALID_ARGS]) false);
    ("Market", method 3502 "deal" ScreepsReturnCode (OneOf [OK; ERR_NOT_OWNER;
        ERR_NOT_ENOUGH_RESOURCES; ERR_FULL; ERR_INVALID_ARGS; ERR_TIRED]) false);
    ("Market", method 3516 "extendOrder" ScreepsReturnCode (OneOf [OK; ERR_NOT_ENOUGH_RESOURCES;
        ERR_INVALID_ARGS]) false);
    ("PowerCreep", method 4034 "cancelOrder" (OK ∣ ERR_NOT_OWNER ∣ ERR_BUSY ∣ ERR_NOT_FOUND)
        (OneOf [OK; ERR_NOT_OWNER; ERR_BUSY; ERR_NOT_FOUND]) false);
    ("PowerCreep", method 4046 "delete" (OK ∣ ERR_NOT_OWNER ∣ ERR_BUSY) (OneOf [OK; ERR_NOT_OWNER;
        ERR_BUSY]) false);
    ("PowerCreep", method 4058 "drop" (OK ∣ ERR_NOT_OWNER ∣ ERR_BUSY ∣ ERR_NOT_ENOUGH_RESOURCES)
        (OneOf [OK; ERR_NOT_OWNER; ERR_BUSY; ERR_NOT_ENOUGH_RESOURCES; ERR_INVALID_ARGS]) false);
    ("PowerCreep", method 4070 "enableRoom" (OK ∣ ERR_NOT_OWNER ∣ ERR_INVALID_TARGET
        ∣ ERR_NOT_IN_RANGE) (OneOf [OK; ERR_NOT_OWNER; ERR_INVALID_TARGET;
        ERR_NOT_IN_RANGE]) false);
    ("PowerCreep", method 4083 "move" CreepMoveReturnCode (OneOf [OK; ERR_NOT_OWNER; ERR_BUSY;
        ERR_NOT_IN_RANGE; ERR_INVALID_ARGS]) false);
    ("PowerCreep", method 4084 "move" (OK ∣ ERR_NOT_OWNER ∣ ERR_BUSY ∣ ERR_NOT_IN_RANGE
        ∣ ERR_INVALID_ARGS) Silent false);
    ("PowerCreep", method 4097 "moveByPath" (CreepMoveReturnCode ∣ ERR_NOT_FOUND
        ∣ ERR_INVALID_ARGS) (OneOf [OK; ERR_NOT_OWNER; ERR_BUSY; ERR_NOT_FOUND;
        ERR_INVALID_ARGS]) false);
    ("PowerCreep", method 4116 "moveTo" (OK ∣ ERR_NOT_OWNER ∣ ERR_NO_PATH ∣ ERR_BUSY
        ∣ ERR_NOT_FOUND ∣ ERR_INVALID_TARGET) (OneOf [OK; ERR_NOT_OWNER; ERR_NO_PATH; ERR_BUSY;
        ERR_NOT_FOUND; ERR_INVALID_TARGET]) false);
    ("PowerCreep", method 4117 "moveTo" (CreepMoveReturnCode ∣ ERR_NO_PATH ∣ ERR_INVALID_TARGET
        ∣ ERR_NOT_FOUND) Silent false);
    ("PowerCreep", method 4132 "notifyWhenAttacked" (OK ∣ ERR_NOT_OWNER ∣ ERR_BUSY
        ∣ ERR_INVALID_ARGS) (OneOf [OK; ERR_NOT_OWNER; ERR_BUSY; ERR_INVALID_ARGS]) false);
    ("PowerCreep", method 4146 "pickup" (CreepActionReturnCode ∣ ERR_FULL) (OneOf [OK;
        ERR_NOT_OWNER; ERR_BUSY; ERR_INVALID_TARGET; ERR_FULL; ERR_NOT_IN_RANGE]) false);
    ("PowerCreep", method 4157 "rename" (OK ∣ ERR_NOT_OWNER ∣ ERR_NAME_EXISTS ∣ ERR_BUSY)
        (OneOf [OK; ERR_NOT_OWNER; ERR_NAME_EXISTS; ERR_BUSY]) false);
    ("PowerCreep", method 4170 "renew" (OK ∣ ERR_NOT_OWNER ∣ ERR_BUSY ∣ ERR_INVALID_TARGET
        ∣ ERR_NOT_IN_RANGE) (OneOf [OK; ERR_NOT_OWNER; ERR_BUSY; ERR_INVALID_TARGET;
        ERR_NOT_IN_RANGE]) false);
    ("PowerCreep", method 4184 "say" (OK ∣ ERR_NOT_OWNER ∣ ERR_BUSY) (OneOf [OK; ERR_NOT_OWNER;
        ERR_BUSY]) false);
    ("PowerCreep", method 4196 "spawn" (OK ∣ ERR_NOT_OWNER ∣ ERR_BUSY ∣ ERR_INVALID_TARGET
        ∣ ERR_TIRED ∣ ERR_RCL_NOT_ENOUGH) (OneOf [OK; ERR_NOT_OWNER; ERR_BUSY;
        ERR_INVALID_TARGET; ERR_TIRED; ERR_RCL_NOT_ENOUGH]) false);
    ("PowerCreep", method 4206 "suicide" (OK ∣ ERR_NOT_OWNER ∣ ERR_BUSY) (OneOf [OK; ERR_NOT_OWNER;
        ERR_BUSY]) false);
    ("PowerCreep", method 4224 "transfer" ScreepsReturnCode (OneOf [OK; ERR_NOT_OWNER; ERR_BUSY;
        ERR_NOT_ENOUGH_RESOURCES; ERR_INVALID_TARGET; ERR_FULL; ERR_NOT_IN_RANGE;
        ERR_INVALID_ARGS]) false);
    ("PowerCreep", method 4237 "upgrade" (OK ∣ ERR_NOT_OWNER ∣ ERR_NOT_ENOUGH_RESOURCES
        ∣ ERR_FULL ∣ ERR_INVALID_ARGS) (OneOf [OK; ERR_NOT_OWNER; ERR_NOT_ENOUGH_RESOURCES;
        ERR_FULL; ERR_INVALID_ARGS]) false);
    ("PowerCreep", method 4255 "usePower" ScreepsReturnCode (OneOf [OK; ERR_NOT_OWNER; ERR_BUSY;
        ERR_NOT_ENOUGH_RESOURCES; ERR_INVALID_TARGET; ERR_FULL; ERR_NOT_IN_RANGE;
        ERR_INVALID_ARGS; ERR_TIRED; ERR_NO_BODYPART]) false);
    ("PowerCreep", method 4277 "withdraw" ScreepsReturnCode (OneOf [OK; ERR_NOT_OWNER; ERR_BUSY;
        ERR_NOT_ENOUGH_RESOURCES; ERR_INVALID_TARGET; ERR_FULL; ERR_NOT_IN_RANGE;
        ERR_INVALID_ARGS]) false);
    ("PowerCreepConstructor", method 4291 "create" (OK ∣ ERR_NAME_EXISTS
        ∣ ERR_NOT_ENOUGH_RESOURCES) Silent false);
    ("RawMemory", method 4360 "set" undefined Silent true);
    ("RawMemory", method 4371 "setActiveSegments" undefined Silent true);
    ("RawMemory", method 4385 "setActiveForeignSegment" undefined Silent true);
    ("RawMemory", method 4394 "setDefaultPublicSegment" undefined Silent true);
    ("RawMemory", method 4403 "setPublicSegments" undefined Silent true);
    ("RoomPosition", method 4549 "createConstructionSite" ScreepsReturnCode (OneOf [OK;
        ERR_NOT_OWNER; ERR_INVALID_TARGET; ERR_FULL; ERR_INVALID_ARGS;
        ERR_RCL_NOT_ENOUGH]) false);
    ("RoomPosition", method 4562 "createConstructionSite" ScreepsReturnCode (OneOf [OK;
        ERR_NOT_OWNER; ERR_INVALID_TARGET; ERR_FULL; ERR_INVALID_ARGS;
        ERR_RCL_NOT_ENOUGH]) false);
    ("RoomPosition", method 4572 "createFlag" (ERR_NAME_EXISTS ∣ ERR_INVALID_ARGS ∣ string_)
        (ValueOr [ERR_NAME_EXISTS; ERR_INVALID_ARGS]) false);
    ("RoomPositionConstructor", method 4736 "new" (TRef "RoomPosition") Silent true);
    ("RoomTerrain", method 4764 "getRawBuffer" (TRef "T") Silent true);
    ("Room", method 5096 "createConstructionSite" ScreepsReturnCode (OneOf [OK; ERR_NOT_OWNER;
        ERR_INVALID_TARGET; ERR_FULL; ERR_INVALID_ARGS; ERR_RCL_NOT_ENOUGH]) false);
    ("Room", method 5109 "createConstructionSite" ScreepsReturnCode (OneOf [OK; ERR_NOT_OWNER;
        ERR_INVALID_TARGET; ERR_FULL; ERR_INVALID_ARGS; ERR_RCL_NOT_ENOUGH]) false);
    ("Room", method 5123 "createConstructionSite" ScreepsReturnCode (OneOf [OK; ERR_NOT_OWNER;
        ERR_INVALID_TARGET; ERR_FULL; ERR_INVALID_ARGS; ERR_RCL_NOT_ENOUGH]) false);
    ("Room", method 5136 "createConstructionSite" ScreepsReturnCode (OneOf [OK; ERR_NOT_OWNER;
        ERR_INVALID_TARGET; ERR_FULL; ERR_INVALID_ARGS; ERR_RCL_NOT_ENOUGH]) false);
    ("Room", method 5155 "createFlag" (ERR_NAME_EXISTS ∣ ERR_INVALID_ARGS ∣ string_)
        (ValueOr [ERR_NAME_EXISTS; ERR_FULL; ERR_INVALID_ARGS]) false);
    ("Room", method 5179 "createFlag" (ERR_NAME_EXISTS ∣ ERR_INVALID_ARGS ∣ string_)
        (ValueOr [ERR_NAME_EXISTS; ERR_FULL; ERR_INVALID_ARGS]) false);
    ("Room", method 5202 "findExitTo" (ExitConstant ∣ ERR_NO_PATH ∣ ERR_INVALID_ARGS)
        (ValueOr [ERR_NO_PATH; ERR_INVALID_ARGS]) false);
    ("Room", method 5231 "lookAt" (TRef "LookAtResult[]") Silent true);
    ("Room", method 5259 "lookForAt" (TRef "Array<AllLookAtTypes[T]>")
        (ValueOr [ERR_INVALID_ARGS]) false);
    ("Room", method 5267 "lookForAt" (TRef "Array<AllLookAtTypes[T]>")
        (ValueOr [ERR_INVALID_ARGS]) false) ].

Definition is_method (m : member) : bool :=
  match m_sig m with Method _ _ _ => true | Field _ _ => false end.

(** All the operations embedded: the methods of the interfaces above, and
    those of the table. *)
Definition operations : list (string * member) :=
  flat_map (fun d => (fun m => (i_name d, m)) <$> filter is_method (i_members d))
           interfaces
  ++ operations_elsewhere.

Definition ret_of (m : member) : list atom :=
  match m_sig m with Method r _ _ => union_of r | Field _ _ => [] end.

Definition doc_of (m : member) : returns_doc :=
  match m_sig m with Method _ d _ => d | Field _ _ => Silent end.

Definition throws_of (m : member) : bool :=
  match m_sig m with Method _ _ t => t | Field _ _ => false end.

(** The result codes the documentation of the method names. *)
Definition doc_codes (m : member) : list atom :=
  match doc_of m with
  | Silent => []
  | OneOf cs | ValueOr cs => flat_map union_of cs
  end.

(** The numeric literals among the members of a union. *)
Definition literals (A : list atom) : list Z :=
  omap (fun a => match a with ANum z => Some z | _ => None end) A.

(** The declared return type allows the code [a]. *)
Definition allows (A : list atom) (a : atom) : bool := existsb (atom_sub a) A.

Definition find_operation (owner name : string) : option member :=
  snd <$> (snd <$> list_find (fun p => p.1 = owner /\ m_name p.2 = name) operations).

(** The stores the declarations attach to entities: those of the
    interfaces above, and [carry] and [store] of [Creep] (lines 1113 and
    1177) and of [PowerCreep] (lines 3940 and 3998), all of type
    [StoreDefinition]. *)
Definition stores_of (d : interface) : list store_ty :=
  omap (fun m => match m_sig m with
                 | Field _ (StoreT st) => Some st
                 | _ => None
                 end)
       (i_members d).

Definition declared_stores : list store_ty :=
  flat_map stores_of interfaces
  ++ [StoreDefinition; StoreDefinition; StoreDefinition; StoreDefinition].

(** ** Two store snapshots *)

(** The store of a tombstone ([StoreDefinitionUnlimited]) that holds 50
    energy and nothing else.  An unlimited store has no capacity. *)
Definition tombstone_store : store_snapshot :=
  {| snap_getCapacity := fun _ => VNull;
     snap_getUsedCapacity := fun r =>
       match r with
       | None => VNum 50
       | Some k => if bool_decide (k = "energy") then VNum 50 else VNum 0
       end;
     snap_getFreeCapacity := fun _ => VNull |}.

(** The store of a container ([StoreDefinition]) of capacity 2000 that
    holds 300 energy and nothing else. *)
Definition container_store : store_snapshot :=
  {| snap_getCapacity := fun _ => VNum 2000;
     snap_getUsedCapacity := fun r =>
       match r with
       | None => VNum 300
       | Some k => if bool_decide (k = "energy") then VNum 300 else VNum 0
       end;
     snap_getFreeCapacity := fun _ => VNum 1700 |}.

(** ** What the documentation of an operation says *)

(** The documentation enumerates the result codes of the operation ("One
    of the following codes"). *)
Definition enumerates_codes (m : member) : bool :=
  match doc_of m with OneOf _ => true | _ => false end.

(** The documentation describes a value, or else result codes. *)
Definition value_or_codes (m : member) : bool :=
  match doc_of m with ValueOr _ => true | _ => false end.

(** The declared return type allows neither [undefined], nor [void], nor
    [null]. *)
Definition never_nullish (A : list atom) : bool :=
  bool_decide ((AUndefined ∉ A) /\ (AVoid ∉ A) /\ (ANull ∉ A)).



(** ** The store the host keeps *)

(** A store accepts every resource: [ResourceConstant extends
    POSSIBLE_RESOURCES]. *)
Definition general_purpose (st : store_ty) : bool :=
  assignable (union_of ResourceConstant) (union_of (POSSIBLE_RESOURCES st)).

(** The store has no capacity: [UNLIMITED_STORE] is [true]. *)
Definition unlimited (st : store_ty) : bool :=
  bool_decide (union_of (UNLIMITED_STORE st) = [ATrue]).

(** The store can hold the resource [k]: [k] is a member of
    [POSSIBLE_RESOURCES]. *)
Definition holds (st : store_ty) (k : string) : bool :=
  bool_decide (AStr k ∈ union_of (POSSIBLE_RESOURCES st)).

(** The names of the resources. *)
Definition resource_names : list string :=
  omap (fun a => match a with AStr k => Some k | _ => None end)
       (union_of ResourceConstant).

(** Modelled from the spec: the store of an object as the host keeps it,
    which the repository declares and does not implement.  The spec has
    "Store: a capacity-bounded resource ledger attached to many
    structures/creeps; invariant: per-resource used capacity <= per-resource
    or aggregate capacity, enforced by the host, not by the calling
    script".  A ledger records the amount held of each resource, in whole
    units, and the capacity: of each resource ([Some k]) for a store
    restricted to some resources, aggregate ([None]) for a general purpose
    store. *)
Record ledger : Type := Ledger {
  l_capacity : option string -> Z;
  l_held : string -> Z
}.

(** Modelled from the spec: the amount held in all. *)
Definition total (l : ledger) : Z :=
  foldr (fun k acc => l_held l k + acc) 0 resource_names.

(** Modelled from the spec: the capacity that bounds the resource [k]:
    "per-resource or aggregate capacity". *)
Definition capacity_of (st : store_ty) (l : ledger) (k : string) : Z :=
  if general_purpose st then l_capacity l None else l_capacity l (Some k).

(** Modelled from the spec: what the host still accepts of the resource
    [k]; an unlimited store has no bound. *)
Definition room (st : store_ty) (l : ledger) (k : string) : option Z :=
  if unlimited st then None
  else if general_purpose st then Some (l_capacity l None - total l)
  else Some (l_capacity l (Some k) - l_held l k).

(** Modelled from the spec: the ledger with the amount [v] of the resource
    [k], and all else as in [l]. *)
Definition set_held (l : ledger) (k : string) (v : Z) : ledger :=
  Ledger (l_capacity l) (fun k' => if bool_decide (k' = k) then v else l_held l k').

(** Modelled from the spec: the host puts [x] units of [k] into the store,
    when the store can hold [k] and has room for them ("enforced by the
    host, not by the calling script"); it refuses otherwise. *)
Definition deposit (st : store_ty) (l : ledger) (k : string) (x : Z) : option ledger :=
  if holds st k && bool_decide (0 < x) &&
     match room st l k with Some m => bool_decide (x <= m) | None => true end
  then Some (set_held l k (l_held l k + x))
  else None.

(** Modelled from the spec: the host takes [x] units of [k] out of the
    store, when it holds that many. *)
Definition withdraw (l : ledger) (k : string) (x : Z) : option ledger :=
  if bool_decide (0 < x) && bool_decide (x <= l_held l k)
  then Some (set_held l k (l_held l k - x))
  else None.

(** Modelled from the spec: the ledgers of a store of type [st] at the
    ticks of its life: it is created empty, with capacities that are not
    negative, and changes by what the host puts in and takes out. *)
Inductive reachable (st : store_ty) : ledger -> Prop :=
  | reach_empty (cap : option string -> Z) :
      (forall r, 0 <= cap r) -> reachable st (Ledger cap (fun _ => 0))
  | reach_deposit (l l' : ledger) (k : string) (x : Z) :
      reachable st l -> deposit st l k x = Some l' -> reachable st l'
  | reach_withdraw (l l' : ledger) (k : string) (x : Z) :
      reachable st l -> withdraw l k x = Some l' -> reachable st l'.

(** Modelled from the spec: what the three methods answer on a ledger at a
    tick.  The answer is [null] where the declared return type is [null]
    (a resource the store cannot hold, no argument on a store that is not
    general purpose, the capacity of an unlimited store); else the
    capacity is the capacity that bounds the resource, the used capacity
    is the amount held, of the resource or in all, and the free capacity
    is the difference of the two. *)
Definition snapshot (st : store_ty) (l : ledger) : store_snapshot :=
  {| snap_getCapacity := fun r =>
       if unlimited st then VNull
       else match r with
            | Some k =>
                if holds st k then VNum (inject_Z (capacity_of st l k)) else VNull
            | None =>
                if general_purpose st then VNum (inject_Z (l_capacity l None)) else VNull
            end;
     snap_getUsedCapacity := fun r =>
       match r with
       | Some k => if holds st k then VNum (inject_Z (l_held l k)) else VNull
       | None => if general_purpose st then VNum (inject_Z (total l)) else VNull
       end;
     snap_getFreeCapacity := fun r =>
       if unlimited st then VNull
       else match r with
            | Some k =>
                if holds st k
                then VNum (inject_Z (capacity_of st l k - l_held l k)) else VNull
            | None =>
                if general_purpose st
                then VNum (inject_Z (l_capacity l None - total l)) else VNull
            end |}.



Definition tombstone_ledger : ledger :=
  set_held (Ledger (fun _ => 0) (fun _ => 0)) "energy" (0 + 50).
(** * Further declarations

    The declarations below are those of [dist/index.d.ts] that the further
    properties, at the end of the file, are about. *)

From stdpp Require pretty.

(** ** Stores and structures, continued *)

(** The store of a spawn ([Store<RESOURCE_ENERGY, false>]) of capacity 300
    that holds 120 energy.  It holds nothing else, and has no total. *)
Definition spawn_store : store_snapshot :=
  {| snap_getCapacity := fun r =>
       match r with
       | Some k => if bool_decide (k = "energy") then VNum 300 else VNull
       | None => VNull
       end;
     snap_getUsedCapacity := fun r =>
       match r with
       | Some k => if bool_decide (k = "energy") then VNum 120 else VNull
       | None => VNull
       end;
     snap_getFreeCapacity := fun r =>
       match r with
       | Some k => if bool_decide (k = "energy") then VNum 180 else VNull
       | None => VNull
       end |}.

(** The member of [StoreBase<P, U>] named by the key [k]: the return type
    of one of its three methods ([dist/index.d.ts], lines 5660-5705). *)
Definition StoreBase_method (k : atom) : option ty :=
  match k with
  | AStr s =>
      if bool_decide (s = "getCapacity") then Some StoreBase.getCapacity
      else if bool_decide (s = "getUsedCapacity") then Some StoreBase.getUsedCapacity
      else if bool_decide (s = "getFreeCapacity") then Some StoreBase.getFreeCapacity
      else None
  | _ => None
  end.

(** [k] is a key of [Store<P, U> = StoreBase<P, U> & { [K in P]: number }
    & { [K in Exclude<ResourceConstant, P>]: 0 }]: a key of one of the
    three conjuncts. *)
Definition Store_declares (st : store_ty) (k : atom) : Prop :=
  let P := union_of (POSSIBLE_RESOURCES st) in
  is_Some (StoreBase_method k) \/
  is_Some (mapped P number k) \/
  is_Some (mapped (Exclude (union_of ResourceConstant) P) (TNum 0) k).

#[global] Instance resolved_eq_dec : EqDecision resolved.
Proof. solve_decision. Defined.

(** The store of the interface named [n], if it declares or inherits
    one. *)
Definition store_of (n : string) : option store_ty :=
  match member_of n None "store" with
  | Some (RStore _ st) => Some st
  | _ => None
  end.

(** The object type [a] has a [store]. *)
Definition has_store (a : atom) : bool :=
  match a with
  | ARef n => bool_decide (is_Some (store_of n))
  | _ => false
  end.

(** [this] in a member of an interface is the type of the object at
    hand: a member declared [Id<this>] is an [Id<self>] on an object of
    type [self], and [Id<T>] ([string & Tag.OpaqueTag<T>],
    [dist/index.d.ts], line 2325) is a different type for each [T]. *)
Definition bind_this_atom (self : string) (a : atom) : atom :=
  match a with
  | ARef r => if bool_decide (r = "Id<this>") then ARef ("Id<" +:+ self +:+ ">") else a
  | _ => a
  end.

Definition bind_this (self : string) (r : resolved) : resolved :=
  match r with
  | RProp o A => RProp o (bind_this_atom self <$> A)
  | RStore o st => RStore o st
  | RMethod A => RMethod (bind_this_atom self <$> A)
  end.

(** The member [f] of the object type [a] has the type that the member
    [f] of [Structure<T>] has, for [T] the [structureType] of [a], [this]
    being the one type on [a] and the other on [Structure<T>]. *)
Definition as_in_Structure (a : atom) (f : string) : Prop :=
  match a, structureType_of a with
  | ARef n, Some [AStr tag] =>
      bind_this n <$> member_of n None f =
      bind_this ("Structure<" +:+ tag +:+ ">")
        <$> member_of "Structure" (Some (TStr tag)) f
  | _, _ => False
  end.

#[global] Instance as_in_Structure_dec a f : Decision (as_in_Structure a f).
Proof.
  unfold as_in_Structure.
  destruct a; try (right; tauto).
  destruct (structureType_of _) as [[| [] []] |]; try (right; tauto).
  apply _.
Defined.

(** The names of the object types of a union. *)
Definition object_names (A : list atom) : list string :=
  omap (fun a => match a with ARef n => Some n | _ => None end) A.

(** A numeric literal type that is zero or negative, as the return codes
    are. *)
Definition code_like (a : atom) : Prop :=
  match a with ANum z => z <= 0 | _ => False end.

#[global] Instance code_like_dec a : Decision (code_like a).
Proof. destruct a; apply _. Defined.

(** A member of a return type that is no return code: a string, an object,
    or a positive numeric literal (an exit). *)
Definition payload_like (a : atom) : Prop :=
  match a with
  | AString | ARef _ | AStr _ => True
  | ANum z => 0 < z
  | _ => False
  end.

#[global] Instance payload_like_dec a : Decision (payload_like a).
Proof. destruct a; apply _. Defined.

(** ** Deprecated aliases of store expressions

    The documentation of some properties of the structures reads
    [@deprecated An alias for .store[RESOURCE_ENERGY]], [... for
    .store.getCapacity(RESOURCE_ENERGY)], [... for .store.getCapacity()],
    and for the lab [... for lab.store[lab.mineralType]] and [... for
    lab.store.getCapacity(lab.mineralType || yourMineral)], where
    [mineralType] is declared [MineralConstant | MineralCompoundConstant |
    null].  ([carry] and
    [carryCapacity] of [Creep] and [PowerCreep], whose interfaces are not
    embedded, are documented likewise and are not listed.) *)

(** The key of the store expression: a resource constant, or the value of
    another property of the same object ([lab.mineralType], also in
    [lab.mineralType || yourMineral], where [yourMineral] is the caller's
    and has no declaration). *)
Inductive alias_key : Type :=
  | Const (r : ty)
  | ValueOf (f : string).

Inductive alias : Type :=
  | StoreAt (k : alias_key)               (* [.store[k]] *)
  | CapacityOf (k : option alias_key).    (* [.store.getCapacity(k)] *)

(** Interface, property, line of the property, and what it is documented
    to be an alias for. *)
Definition deprecated_aliases : list (string * string * Z * alias) :=
  [ ("StructureSpawn", "energy", 5423, StoreAt (Const RESOURCE_ENERGY));
    ("StructureSpawn", "energyCapacity", 5428, CapacityOf (Some (Const RESOURCE_ENERGY)));
    ("StructureExtension", "energy", 5937, StoreAt (Const RESOURCE_ENERGY));
    ("StructureExtension", "energyCapacity", 5943,
     CapacityOf (Some (Const RESOURCE_ENERGY)));
    ("StructureLink", "energy", 5969, StoreAt (Const RESOURCE_ENERGY));
    ("StructureLink", "energyCapacity", 5974, CapacityOf (Some (Const RESOURCE_ENERGY)));
    ("StructurePowerSpawn", "energy", 6084, StoreAt (Const RESOURCE_ENERGY));
    ("StructurePowerSpawn", "energyCapacity", 6089,
     CapacityOf (Some (Const RESOURCE_ENERGY)));
    ("StructurePowerSpawn", "power", 6094, StoreAt (Const RESOURCE_POWER));
    ("StructurePowerSpawn", "powerCapacity", 6099,
     CapacityOf (Some (Const RESOURCE_POWER)));
    ("StructureStorage", "storeCapacity", 6192, CapacityOf None);
    ("StructureTower", "energy", 6212, StoreAt (Const RESOURCE_ENERGY));
    ("StructureTower", "energyCapacity", 6217, CapacityOf (Some (Const RESOURCE_ENERGY)));
    ("StructureLab", "energy", 6311, StoreAt (Const RESOURCE_ENERGY));
    ("StructureLab", "energyCapacity", 6316, CapacityOf (Some (Const RESOURCE_ENERGY)));
    ("StructureLab", "mineralAmount", 6321, StoreAt (ValueOf "mineralType"));
    ("StructureLab", "mineralCapacity", 6333, CapacityOf (Some (ValueOf "mineralType")));
    ("StructureTerminal", "storeCapacity", 6432, CapacityOf None);
    ("StructureContainer", "storeCapacity", 6471, CapacityOf None);
    ("StructureNuker", "energy", 6496, StoreAt (Const RESOURCE_ENERGY));
    ("StructureNuker", "energyCapacity", 6501, CapacityOf (Some (Const RESOURCE_ENERGY)));
    ("StructureNuker", "ghodium", 6506, StoreAt (Const RESOURCE_GHODIUM));
    ("StructureNuker", "ghodiumCapacity", 6511,
     CapacityOf (Some (Const RESOURCE_GHODIUM))) ].

(** The union of the given members, as a type expression. *)
Definition union_ty (A : list atom) : ty := foldr (fun a t => TAtom a ∣ t) TNever A.

(** The type of the key of an alias on the interface named [n]: the
    constant, or the declared type of the property. *)
Definition key_type (n : string) (k : alias_key) : option (list atom) :=
  match k with
  | Const r => Some (union_of r)
  | ValueOf f =>
      match member_of n None f with
      | Some (RProp _ A) => Some A
      | _ => None
      end
  end.

(** The type of the store expression on the interface named [n]; there is
    none when the store does not declare one of the keys. *)
Definition alias_type (n : string) (a : alias) : option (list atom) :=
  st ← store_of n;
  match a with
  | StoreAt k => K ← key_type n k; mjoin <$> mapM (Store_index st) K
  | CapacityOf None => Some (call_type st StoreBase.getCapacity None)
  | CapacityOf (Some k) =>
      K ← key_type n k; Some (call_type st StoreBase.getCapacity (Some (union_ty K)))
  end.

(** ** Object types with literal keys *)

(** An object type: its named properties and, where it has one, its index
    signature [[k: K]: V].  The key of a property is the literal type of
    its name ([H: ...] has key ["H"], [2: ...] has key [2], and a computed
    name [[FIND_EXIT]: ...] has the type of the constant). *)
Record object (V : Type) : Type := Obj {
  index_signature : option (ty * V);
  props : list (ty * V)
}.

Arguments Obj {V} _ _.
Arguments index_signature {V} _.
Arguments props {V} _.

(** An index signature on [string] covers every key, one on [number] the
    numeric keys. *)
Definition key_matches (k : atom) (K : list atom) : bool :=
  existsb (fun b => match b, k with
                    | AString, (AStr _ | ANum _ | AString | ANumber) => true
                    | ANumber, (ANum _ | ANumber) => true
                    | _, _ => false
                    end) K.

(** The declared property of key [k], the first if it is declared twice. *)
Fixpoint own {V : Type} (ps : list (ty * V)) (k : atom) : option V :=
  match ps with
  | [] => None
  | (key, v) :: ps => if bool_decide (union_of key = [k]) then Some v else own ps k
  end.

(** The type of the property [k] of [o]: the declared property, else what
    the index signature gives. *)
Definition get {V : Type} (o : object V) (k : atom) : option V :=
  match own (props o) k with
  | Some v => Some v
  | None =>
      match index_signature o with
      | Some (K, v) => if key_matches k (union_of K) then Some v else None
      | None => None
      end
  end.

(** The type of the index signature of [o]. *)
Definition signature_type (o : object ty) : list atom :=
  from_option (fun s : ty * ty => union_of s.2) [] (index_signature o).

(** The keys of the declared properties. *)
Definition keys {V : Type} (o : object V) : list atom :=
  flat_map (fun p : ty * V => union_of p.1) (props o).

(** The indexed access type [o[K]]: the union of the properties at the
    members of [K] (a key that [o] does not have contributes nothing). *)
Definition index_access (o : object ty) (K : ty) : list atom :=
  flat_map (fun k => from_option union_of [] (get o k)) (union_of K).

(** The declared entries of an object type of object types: outer key,
    inner key, value. *)
Definition entries {V : Type} (o : object (object V)) : list (atom * atom * V) :=
  p ← props o; q ← props p.2; a ← union_of p.1; b ← union_of q.1; [(a, b, q.2)].

(** ** Find constants ([dist/index.d.ts], lines 2423-2480) *)

Definition FIND_EXIT : ty := TNum 10.
Definition FIND_CREEPS : ty := TNum 101.
Definition FIND_MY_CREEPS : ty := TNum 102.
Definition FIND_HOSTILE_CREEPS : ty := TNum 103.
Definition FIND_SOURCES_ACTIVE : ty := TNum 104.
Definition FIND_SOURCES : ty := TNum 105.
Definition FIND_DROPPED_RESOURCES : ty := TNum 106.
Definition FIND_STRUCTURES : ty := TNum 107.
Definition FIND_MY_STRUCTURES : ty := TNum 108.
Definition FIND_HOSTILE_STRUCTURES : ty := TNum 109.
Definition FIND_FLAGS : ty := TNum 110.
Definition FIND_CONSTRUCTION_SITES : ty := TNum 111.
Definition FIND_MY_SPAWNS : ty := TNum 112.
Definition FIND_HOSTILE_SPAWNS : ty := TNum 113.
Definition FIND_MY_CONSTRUCTION_SITES : ty := TNum 114.
Definition FIND_HOSTILE_CONSTRUCTION_SITES : ty := TNum 115.
Definition FIND_MINERALS : ty := TNum 116.
Definition FIND_NUKES : ty := TNum 117.
Definition FIND_TOMBSTONES : ty := TNum 118.
Definition FIND_POWER_CREEPS : ty := TNum 119.
Definition FIND_MY_POWER_CREEPS : ty := TNum 120.
Definition FIND_HOSTILE_POWER_CREEPS : ty := TNum 121.
Definition FIND_DEPOSITS : ty := TNum 122.
Definition FIND_RUINS : ty := TNum 123.

Definition FindConstant : ty :=
  FIND_EXIT_TOP ∣ FIND_EXIT_RIGHT ∣ FIND_EXIT_BOTTOM ∣ FIND_EXIT_LEFT ∣ FIND_EXIT
  ∣ FIND_CREEPS ∣ FIND_MY_CREEPS ∣ FIND_HOSTILE_CREEPS ∣ FIND_SOURCES_ACTIVE
  ∣ FIND_SOURCES ∣ FIND_DROPPED_RESOURCES ∣ FIND_STRUCTURES ∣ FIND_MY_STRUCTURES
  ∣ FIND_HOSTILE_STRUCTURES ∣ FIND_FLAGS ∣ FIND_CONSTRUCTION_SITES ∣ FIND_MY_SPAWNS
  ∣ FIND_HOSTILE_SPAWNS ∣ FIND_MY_CONSTRUCTION_SITES ∣ FIND_HOSTILE_CONSTRUCTION_SITES
  ∣ FIND_MINERALS ∣ FIND_NUKES ∣ FIND_TOMBSTONES ∣ FIND_POWER_CREEPS
  ∣ FIND_MY_POWER_CREEPS ∣ FIND_HOSTILE_POWER_CREEPS ∣ FIND_DEPOSITS ∣ FIND_RUINS.

(** ** Direction constants ([dist/index.d.ts], lines 2545-2554) *)

Definition TOP : ty := TNum 1.
Definition TOP_RIGHT : ty := TNum 2.
Definition RIGHT : ty := TNum 3.
Definition BOTTOM_RIGHT : ty := TNum 4.
Definition BOTTOM : ty := TNum 5.
Definition BOTTOM_LEFT : ty := TNum 6.
Definition LEFT : ty := TNum 7.
Definition TOP_LEFT : ty := TNum 8.

Definition DirectionConstant : ty :=
  TOP ∣ TOP_RIGHT ∣ RIGHT ∣ BOTTOM_RIGHT ∣ BOTTOM ∣ BOTTOM_LEFT ∣ LEFT ∣ TOP_LEFT.

(** ** Body part constants ([dist/index.d.ts], lines 2496-2505) *)

Definition MOVE : ty := TStr "move".
Definition WORK : ty := TStr "work".
Definition CARRY : ty := TStr "carry".
Definition ATTACK : ty := TStr "attack".
Definition RANGED_ATTACK : ty := TStr "ranged_attack".
Definition TOUGH : ty := TStr "tough".
Definition HEAL : ty := TStr "heal".
Definition CLAIM : ty := TStr "claim".

Definition BodyPartConstant : ty :=
  MOVE ∣ WORK ∣ CARRY ∣ ATTACK ∣ RANGED_ATTACK ∣ TOUGH ∣ HEAL ∣ CLAIM.

(** ** Look constants ([dist/index.d.ts], lines 2509-2538) *)

Definition LOOK_CONSTRUCTION_SITES : ty := TStr "constructionSite".
Definition LOOK_CREEPS : ty := TStr "creep".
Definition LOOK_ENERGY : ty := TStr "energy".
Definition LOOK_FLAGS : ty := TStr "flag".
Definition LOOK_MINERALS : ty := TStr "mineral".
Definition LOOK_DEPOSITS : ty := TStr "deposit".
Definition LOOK_NUKES : ty := TStr "nuke".
Definition LOOK_RESOURCES : ty := TStr "resource".
Definition LOOK_SOURCES : ty := TStr "source".
Definition LOOK_STRUCTURES : ty := TStr "structure".
Definition LOOK_TERRAIN : ty := TStr "terrain".
Definition LOOK_TOMBSTONES : ty := TStr "tombstone".
Definition LOOK_POWER_CREEPS : ty := TStr "powerCreep".
Definition LOOK_RUINS : ty := TStr "ruin".

Definition LookConstant : ty :=
  LOOK_CREEPS ∣ LOOK_ENERGY ∣ LOOK_RESOURCES ∣ LOOK_SOURCES ∣ LOOK_MINERALS
  ∣ LOOK_DEPOSITS ∣ LOOK_STRUCTURES ∣ LOOK_FLAGS ∣ LOOK_CONSTRUCTION_SITES ∣ LOOK_NUKES
  ∣ LOOK_TERRAIN ∣ LOOK_TOMBSTONES ∣ LOOK_POWER_CREEPS ∣ LOOK_RUINS.

(** ** Event constants ([dist/index.d.ts], lines 2847-2872) *)

Definition EVENT_ATTACK : ty := TNum 1.
Definition EVENT_OBJECT_DESTROYED : ty := TNum 2.
Definition EVENT_ATTACK_CONTROLLER : ty := TNum 3.
Definition EVENT_BUILD : ty := TNum 4.
Definition EVENT_HARVEST : ty := TNum 5.
Definition EVENT_HEAL : ty := TNum 6.
Definition EVENT_REPAIR : ty := TNum 7.
Definition EVENT_RESERVE_CONTROLLER : ty := TNum 8.
Definition EVENT_UPGRADE_CONTROLLER : ty := TNum 9.
Definition EVENT_EXIT : ty := TNum 10.
Definition EVENT_POWER : ty := TNum 11.
Definition EVENT_TRANSFER : ty := TNum 12.

Definition EventConstant : ty :=
  EVENT_ATTACK ∣ EVENT_OBJECT_DESTROYED ∣ EVENT_ATTACK_CONTROLLER ∣ EVENT_BUILD
  ∣ EVENT_HARVEST ∣ EVENT_HEAL ∣ EVENT_REPAIR ∣ EVENT_RESERVE_CONTROLLER
  ∣ EVENT_UPGRADE_CONTROLLER ∣ EVENT_EXIT ∣ EVENT_POWER ∣ EVENT_TRANSFER.

(** ** Attack types of an event ([dist/index.d.ts], lines 2874-2887) *)

Definition EVENT_ATTACK_TYPE_MELEE : ty := TNum 1.
Definition EVENT_ATTACK_TYPE_RANGED : ty := TNum 2.
Definition EVENT_ATTACK_TYPE_RANGED_MASS : ty := TNum 3.
Definition EVENT_ATTACK_TYPE_DISMANTLE : ty := TNum 4.
Definition EVENT_ATTACK_TYPE_HIT_BACK : ty := TNum 5.
Definition EVENT_ATTACK_TYPE_NUKE : ty := TNum 6.

Definition EventAttackType : ty :=
  EVENT_ATTACK_TYPE_MELEE ∣ EVENT_ATTACK_TYPE_RANGED ∣ EVENT_ATTACK_TYPE_RANGED_MASS
  ∣ EVENT_ATTACK_TYPE_DISMANTLE ∣ EVENT_ATTACK_TYPE_HIT_BACK ∣ EVENT_ATTACK_TYPE_NUKE.

(** ** Heal types of an event ([dist/index.d.ts], lines 2889-2892) *)

Definition EVENT_HEAL_TYPE_MELEE : ty := TNum 1.
Definition EVENT_HEAL_TYPE_RANGED : ty := TNum 2.

Definition EventHealType : ty :=
  EVENT_HEAL_TYPE_MELEE ∣ EVENT_HEAL_TYPE_RANGED.

(** ** Power constants ([dist/index.d.ts], lines 3016-3055) *)

Definition PWR_GENERATE_OPS : ty := TNum 1.
Definition PWR_OPERATE_SPAWN : ty := TNum 2.
Definition PWR_OPERATE_TOWER : ty := TNum 3.
Definition PWR_OPERATE_STORAGE : ty := TNum 4.
Definition PWR_OPERATE_LAB : ty := TNum 5.
Definition PWR_OPERATE_EXTENSION : ty := TNum 6.
Definition PWR_OPERATE_OBSERVER : ty := TNum 7.
Definition PWR_OPERATE_TERMINAL : ty := TNum 8.
Definition PWR_DISRUPT_SPAWN : ty := TNum 9.
Definition PWR_DISRUPT_TOWER : ty := TNum 10.
Definition PWR_DISRUPT_SOURCE : ty := TNum 11.
Definition PWR_SHIELD : ty := TNum 12.
Definition PWR_REGEN_SOURCE : ty := TNum 13.
Definition PWR_REGEN_MINERAL : ty := TNum 14.
Definition PWR_DISRUPT_TERMINAL : ty := TNum 15.
Definition PWR_OPERATE_POWER : ty := TNum 16.
Definition PWR_FORTIFY : ty := TNum 17.
Definition PWR_OPERATE_CONTROLLER : ty := TNum 18.
Definition PWR_OPERATE_FACTORY : ty := TNum 19.

Definition PowerConstant : ty :=
  PWR_GENERATE_OPS ∣ PWR_OPERATE_SPAWN ∣ PWR_OPERATE_TOWER ∣ PWR_OPERATE_STORAGE
  ∣ PWR_OPERATE_LAB ∣ PWR_OPERATE_EXTENSION ∣ PWR_OPERATE_OBSERVER
  ∣ PWR_OPERATE_TERMINAL ∣ PWR_DISRUPT_SPAWN ∣ PWR_DISRUPT_TOWER ∣ PWR_DISRUPT_SOURCE
  ∣ PWR_SHIELD ∣ PWR_REGEN_SOURCE ∣ PWR_REGEN_MINERAL ∣ PWR_DISRUPT_TERMINAL
  ∣ PWR_OPERATE_POWER ∣ PWR_FORTIFY ∣ PWR_OPERATE_CONTROLLER ∣ PWR_OPERATE_FACTORY.


(** ** Other literal types *)

(* line 2368 *)
Definition Terrain : ty := TStr "plain" ∣ TStr "swamp" ∣ TStr "wall".

(* line 2370 *)
Definition ExitKey : ty := TStr "1" ∣ TStr "3" ∣ TStr "5" ∣ TStr "7".

(* lines 2632-2634 *)
Definition TERRAIN_MASK_WALL : ty := TNum 1.
Definition TERRAIN_MASK_SWAMP : ty := TNum 2.
Definition TERRAIN_MASK_LAVA : ty := TNum 4.

(** The return type of [RoomTerrain.get] (line 4757), documented as "a
    bitmask of TERRAIN_MASK_WALL, TERRAIN_MASK_SWAMP". *)
Module RoomTerrain.
Definition get : ty := TNum 0 ∣ TERRAIN_MASK_WALL ∣ TERRAIN_MASK_SWAMP.
End RoomTerrain.

(** The value of a mask. *)
Definition mask (t : ty) : Z := from_option id 0 (code_value t).

(* line 2894 *)
Definition EventDestroyType : ty := TStr "creep" ∣ StructureConstant.

(* lines 3012-3014 and 3010 *)
Definition POWER_CLASS : object ty := Obj None [ (TStr "OPERATOR", TStr "operator") ].

Definition POWER_CLASS_at (k : string) : ty :=
  union_ty (index_access POWER_CLASS (TStr k)).

Definition PowerClassConstant : ty := POWER_CLASS_at "OPERATOR".

(* line 799 *)
Definition POWER_CREEP_MAX_LEVEL : Z := 25.

(** ** Subtyping between the interfaces embedded *)

(** [n] is [m], or extends it through a chain of [extends] clauses. *)
Fixpoint extends_to (fuel : nat) (n m : string) : bool :=
  bool_decide (n = m) ||
  match fuel with
  | O => false
  | S fuel =>
      match find_interface n with
      | Some d =>
          match i_extends d with
          | Some (p, _) => extends_to fuel p m
          | None => false
          end
      | None => false
      end
  end.

Definition object_sub (a b : atom) : bool :=
  match a, b with
  | ARef n, ARef m => extends_to depth n m
  | _, _ => atom_sub a b
  end.

(** ** Discriminated maps *)

(** The type of a property of [EventData]: a type, or an object type given
    by its properties. *)
Inductive shape : Type :=
  | Ty (t : ty)
  | Fields (fs : list (string * ty)).

#[global] Instance shape_eq_dec : EqDecision shape.
Proof. solve_decision. Defined.

(** A member of the union [EventItem]. *)
Record event_item : Type := {
  event : ty;
  objectId : ty;
  data : ty   (* the key [E] of [data: EventData[E]] *)
}.

(** [FindTypes] (lines 2114-2156): the type of the objects [Room.find] returns
    for each find constant, under an index signature on [number]. *)
Definition FindTypes : object ty :=
  Obj (Some (number,
              TRef "RoomPosition" ∣ AnyCreep ∣ TRef "Source" ∣ TRef "Resource"
              ∣ TRef "Structure" ∣ TRef "Flag" ∣ TRef "ConstructionSite"
              ∣ TRef "Mineral" ∣ TRef "Nuke" ∣ TRef "Tombstone" ∣ TRef "Deposit"
              ∣ TRef "Ruin"))
    [ (FIND_EXIT_TOP, TRef "RoomPosition"); (FIND_EXIT_RIGHT, TRef "RoomPosition");
      (FIND_EXIT_BOTTOM, TRef "RoomPosition"); (FIND_EXIT_LEFT, TRef "RoomPosition");
      (FIND_EXIT, TRef "RoomPosition"); (FIND_CREEPS, TRef "Creep");
      (FIND_MY_CREEPS, TRef "Creep"); (FIND_HOSTILE_CREEPS, TRef "Creep");
      (FIND_SOURCES_ACTIVE, TRef "Source"); (FIND_SOURCES, TRef "Source");
      (FIND_DROPPED_RESOURCES, TRef "Resource"); (FIND_STRUCTURES, AnyStructure);
      (FIND_MY_STRUCTURES, AnyOwnedStructure);
      (FIND_HOSTILE_STRUCTURES, AnyOwnedStructure); (FIND_FLAGS, TRef "Flag");
      (FIND_CONSTRUCTION_SITES, TRef "ConstructionSite");
      (FIND_MY_SPAWNS, TRef "StructureSpawn");
      (FIND_HOSTILE_SPAWNS, TRef "StructureSpawn");
      (FIND_MY_CONSTRUCTION_SITES, TRef "ConstructionSite");
      (FIND_HOSTILE_CONSTRUCTION_SITES, TRef "ConstructionSite");
      (FIND_MINERALS, TRef "Mineral"); (FIND_NUKES, TRef "Nuke");
      (FIND_TOMBSTONES, TRef "Tombstone"); (FIND_POWER_CREEPS, TRef "PowerCreep");
      (FIND_MY_POWER_CREEPS, TRef "PowerCreep");
      (FIND_HOSTILE_POWER_CREEPS, TRef "PowerCreep"); (FIND_DEPOSITS, TRef "Deposit");
      (FIND_RUINS, TRef "Ruin") ].

(** [AllLookAtTypes] (lines 2070-2085). *)
Definition AllLookAtTypes : object ty :=
  Obj None
    [ (LOOK_CONSTRUCTION_SITES, TRef "ConstructionSite"); (LOOK_CREEPS, TRef "Creep");
      (LOOK_ENERGY, TRef "Resource<RESOURCE_ENERGY>"); (LOOK_FLAGS, TRef "Flag");
      (LOOK_MINERALS, TRef "Mineral"); (LOOK_DEPOSITS, TRef "Deposit");
      (LOOK_NUKES, TRef "Nuke"); (LOOK_RESOURCES, TRef "Resource");
      (LOOK_SOURCES, TRef "Source"); (LOOK_STRUCTURES, AnyStructure);
      (LOOK_TERRAIN, Terrain); (LOOK_TOMBSTONES, TRef "Tombstone");
      (LOOK_POWER_CREEPS, TRef "PowerCreep"); (LOOK_RUINS, TRef "Ruin") ].

(** [EventData] (lines 2958-3008): the shape of the data of each event. *)
Definition EventData : object shape :=
  Obj None
    [ (EVENT_ATTACK, Fields [("targetId", string_); ("damage", number);
               ("attackType", EventAttackType)]);
      (EVENT_OBJECT_DESTROYED, Fields [("type", EventDestroyType)]);
      (EVENT_ATTACK_CONTROLLER, Ty null);
      (EVENT_BUILD, Fields [("targetId", string_); ("amount", number);
               ("energySpent", number)]);
      (EVENT_HARVEST, Fields [("targetId", string_); ("amount", number)]);
      (EVENT_HEAL, Fields [("targetId", string_); ("amount", number);
               ("healType", EventHealType)]);
      (EVENT_REPAIR, Fields [("targetId", string_); ("amount", number);
               ("energySpent", number)]);
      (EVENT_RESERVE_CONTROLLER, Fields [("amount", number)]);
      (EVENT_UPGRADE_CONTROLLER, Fields [("amount", number); ("energySpent", number)]);
      (EVENT_EXIT, Fields [("room", string_); ("x", number); ("y", number)]);
      (EVENT_POWER, Fields [("targetId", string_); ("power", PowerConstant)]);
      (EVENT_TRANSFER, Fields [("targetId", string_); ("resourceType", ResourceConstant);
               ("amount", number)]) ].

(** [EventItem] (lines 2896-2956): a union of object types, one for each
    event; [data] is declared as [EventData[E]], of which the key [E] is
    recorded. *)
Definition EventItem : list event_item :=
  [ {| event := EVENT_ATTACK; objectId := string_; data := EVENT_ATTACK |};
    {| event := EVENT_OBJECT_DESTROYED; objectId := string_;
       data := EVENT_OBJECT_DESTROYED |};
    {| event := EVENT_ATTACK_CONTROLLER; objectId := string_;
       data := EVENT_ATTACK_CONTROLLER |};
    {| event := EVENT_BUILD; objectId := string_; data := EVENT_BUILD |};
    {| event := EVENT_HARVEST; objectId := string_; data := EVENT_HARVEST |};
    {| event := EVENT_HEAL; objectId := string_; data := EVENT_HEAL |};
    {| event := EVENT_REPAIR; objectId := string_; data := EVENT_REPAIR |};
    {| event := EVENT_RESERVE_CONTROLLER; objectId := string_;
       data := EVENT_RESERVE_CONTROLLER |};
    {| event := EVENT_UPGRADE_CONTROLLER; objectId := string_;
       data := EVENT_UPGRADE_CONTROLLER |};
    {| event := EVENT_EXIT; objectId := string_; data := EVENT_EXIT |};
    {| event := EVENT_POWER; objectId := string_; data := EVENT_POWER |};
    {| event := EVENT_TRANSFER; objectId := string_; data := EVENT_TRANSFER |} ].


(** [Partial<o>]: every property becomes optional, so that reading it may
    give [undefined]. *)
Definition Partial (o : object ty) : object ty :=
  Obj (index_signature o) ((fun p : ty * ty => (p.1, p.2 ∣ undefined)) <$> props o).

(** [Pick<o, K>]: the properties of [o] whose key is a member of [K]. *)
Definition Pick (o : object ty) (K : list atom) : object ty :=
  Obj None (filter (fun p : ty * ty => union_of p.1 ⊆ K) (props o)).

(* line 2087 *)
Definition LookAtTypes : object ty := Partial AllLookAtTypes.

(** [type LookAtResult<K extends LookConstant = LookConstant> =
      Pick<LookAtTypes, K> & { type: K }] (line 2089), property by
    property. *)
Definition LookAtResult (K : ty) (k : atom) : option (list atom) :=
  prop_meet (union_of <$> get (Pick LookAtTypes (union_of K)) k)
            (union_of <$> get (Obj None [ (TStr "type", K) ]) k).

(** [type LookForAtAreaResult<T, K extends keyof LookAtTypes = keyof
      LookAtTypes> = { type: K } & { [P in K]: T }] (line 2108). *)
Definition LookForAtAreaResult (T K : ty) (k : atom) : option (list atom) :=
  prop_meet (union_of <$> get (Obj None [ (TStr "type", K) ]) k)
            (mapped (union_of K) T k).

(** ** Tables of game constants *)

(** A numeric literal type, which may be a decimal, or [number]. *)
Inductive numeric : Type :=
  | Lit (q : Q)
  | AnyNumber.

(** The types of the fields of an entry of [POWER_INFO]. *)
Inductive pty : Type :=
  | PLit (q : Q)             (* a numeric literal *)
  | PTuple (qs : list Q)     (* a tuple of numeric literals *)
  | PNumber                  (* [number] *)
  | PArray                   (* [number[]] *)
  | POr (s t : pty)
  | PClass (t : ty).

Record pfield : Type := PField {
  pf_name : string;
  pf_optional : bool;
  pf_type : pty
}.

Definition req (n : string) (t : pty) : pfield := PField n false t.
Definition opt (n : string) (t : pty) : pfield := PField n true t.

(** [REACTIONS] ([dist/index.d.ts], lines 439-571): for each reagent, the
    reagents it reacts with and the compound produced. *)
Definition REACTIONS : object (object ty) :=
  Obj (Some (string_, Obj (Some (string_, string_)) []))
    [ (TStr "H",
       Obj None
         [ (TStr "O", TStr "OH"); (TStr "L", TStr "LH"); (TStr "K", TStr "KH");
           (TStr "U", TStr "UH"); (TStr "Z", TStr "ZH"); (TStr "G", TStr "GH") ]);
      (TStr "O",
       Obj None
         [ (TStr "H", TStr "OH"); (TStr "L", TStr "LO"); (TStr "K", TStr "KO");
           (TStr "U", TStr "UO"); (TStr "Z", TStr "ZO"); (TStr "G", TStr "GO") ]);
      (TStr "Z",
       Obj None
         [ (TStr "K", TStr "ZK"); (TStr "H", TStr "ZH"); (TStr "O", TStr "ZO") ]);
      (TStr "L",
       Obj None
         [ (TStr "U", TStr "UL"); (TStr "H", TStr "LH"); (TStr "O", TStr "LO") ]);
      (TStr "K",
       Obj None
         [ (TStr "Z", TStr "ZK"); (TStr "H", TStr "KH"); (TStr "O", TStr "KO") ]);
      (TStr "G",
       Obj None
         [ (TStr "H", TStr "GH"); (TStr "O", TStr "GO") ]);
      (TStr "U",
       Obj None
         [ (TStr "L", TStr "UL"); (TStr "H", TStr "UH"); (TStr "O", TStr "UO") ]);
      (TStr "OH",
       Obj None
         [ (TStr "UH", TStr "UH2O"); (TStr "UO", TStr "UHO2"); (TStr "ZH", TStr "ZH2O");
           (TStr "ZO", TStr "ZHO2"); (TStr "KH", TStr "KH2O"); (TStr "KO", TStr "KHO2");
           (TStr "LH", TStr "LH2O"); (TStr "LO", TStr "LHO2"); (TStr "GH", TStr "GH2O");
           (TStr "GO", TStr "GHO2") ]);
      (TStr "X",
       Obj None
         [ (TStr "UH2O", TStr "XUH2O"); (TStr "UHO2", TStr "XUHO2");
           (TStr "LH2O", TStr "XLH2O"); (TStr "LHO2", TStr "XLHO2");
           (TStr "KH2O", TStr "XKH2O"); (TStr "KHO2", TStr "XKHO2");
           (TStr "ZH2O", TStr "XZH2O"); (TStr "ZHO2", TStr "XZHO2");
           (TStr "GH2O", TStr "XGH2O"); (TStr "GHO2", TStr "XGHO2") ]);
      (TStr "ZK",
       Obj None
         [ (TStr "UL", TStr "G") ]);
      (TStr "UL",
       Obj None
         [ (TStr "ZK", TStr "G") ]);
      (TStr "LH",
       Obj None
         [ (TStr "OH", TStr "LH2O") ]);
      (TStr "ZH",
       Obj None
         [ (TStr "OH", TStr "ZH2O") ]);
      (TStr "GH",
       Obj None
         [ (TStr "OH", TStr "GH2O") ]);
      (TStr "KH",
       Obj None
         [ (TStr "OH", TStr "KH2O") ]);
      (TStr "UH",
       Obj None
         [ (TStr "OH", TStr "UH2O") ]);
      (TStr "LO",
       Obj None
         [ (TStr "OH", TStr "LHO2") ]);
      (TStr "ZO",
       Obj None
         [ (TStr "OH", TStr "ZHO2") ]);
      (TStr "KO",
       Obj None
         [ (TStr "OH", TStr "KHO2") ]);
      (TStr "UO",
       Obj None
         [ (TStr "OH", TStr "UHO2") ]);
      (TStr "GO",
       Obj None
         [ (TStr "OH", TStr "GHO2") ]);
      (TStr "LH2O",
       Obj None
         [ (TStr "X", TStr "XLH2O") ]);
      (TStr "KH2O",
       Obj None
         [ (TStr "X", TStr "XKH2O") ]);
      (TStr "ZH2O",
       Obj None
         [ (TStr "X", TStr "XZH2O") ]);
      (TStr "UH2O",
       Obj None
         [ (TStr "X", TStr "XUH2O") ]);
      (TStr "GH2O",
       Obj None
         [ (TStr "X", TStr "XGH2O") ]);
      (TStr "LHO2",
       Obj None
         [ (TStr "X", TStr "XLHO2") ]);
      (TStr "UHO2",
       Obj None
         [ (TStr "X", TStr "XUHO2") ]);
      (TStr "KHO2",
       Obj None
         [ (TStr "X", TStr "XKHO2") ]);
      (TStr "ZHO2",
       Obj None
         [ (TStr "X", TStr "XZHO2") ]);
      (TStr "GHO2",
       Obj None
         [ (TStr "X", TStr "XGHO2") ]) ].

(** [REACTION_TIME] (lines 573-608). *)
Definition REACTION_TIME : object ty :=
  Obj None
    [ (TStr "OH", TNum 20); (TStr "ZK", TNum 5); (TStr "UL", TNum 5); (TStr "G", TNum 5);
      (TStr "UH", TNum 10); (TStr "UH2O", TNum 5); (TStr "XUH2O", TNum 60);
      (TStr "UO", TNum 10); (TStr "UHO2", TNum 5); (TStr "XUHO2", TNum 60);
      (TStr "KH", TNum 10); (TStr "KH2O", TNum 5); (TStr "XKH2O", TNum 60);
      (TStr "KO", TNum 10); (TStr "KHO2", TNum 5); (TStr "XKHO2", TNum 60);
      (TStr "LH", TNum 15); (TStr "LH2O", TNum 10); (TStr "XLH2O", TNum 65);
      (TStr "LO", TNum 10); (TStr "LHO2", TNum 5); (TStr "XLHO2", TNum 60);
      (TStr "ZH", TNum 20); (TStr "ZH2O", TNum 40); (TStr "XZH2O", TNum 160);
      (TStr "ZO", TNum 10); (TStr "ZHO2", TNum 5); (TStr "XZHO2", TNum 60);
      (TStr "GH", TNum 10); (TStr "GH2O", TNum 15); (TStr "XGH2O", TNum 80);
      (TStr "GO", TNum 10); (TStr "GHO2", TNum 30); (TStr "XGHO2", TNum 150) ].

#[local] Open Scope Q_scope.

(** [BOOSTS] (lines 610-725): for each body part, the compounds that boost
    it, and for each the factor applied to each action. *)
Definition BOOSTS : object (object (object numeric)) :=
  Obj (Some (string_, Obj (Some (string_, Obj (Some (string_, AnyNumber)) [])) []))
    [ (TStr "work",
       Obj None
         [ (TStr "UO", Obj None [ (TStr "harvest", Lit 3) ]);
           (TStr "UHO2", Obj None [ (TStr "harvest", Lit 5) ]);
           (TStr "XUHO2", Obj None [ (TStr "harvest", Lit 7) ]);
           (TStr "LH", Obj None [ (TStr "build", Lit 1.5); (TStr "repair", Lit 1.5) ]);
           (TStr "LH2O", Obj None [ (TStr "build", Lit 1.8); (TStr "repair", Lit 1.8) ]);
           (TStr "XLH2O", Obj None [ (TStr "build", Lit 2); (TStr "repair", Lit 2) ]);
           (TStr "ZH", Obj None [ (TStr "dismantle", Lit 2) ]);
           (TStr "ZH2O", Obj None [ (TStr "dismantle", Lit 3) ]);
           (TStr "XZH2O", Obj None [ (TStr "dismantle", Lit 4) ]);
           (TStr "GH", Obj None [ (TStr "upgradeController", Lit 1.5) ]);
           (TStr "GH2O", Obj None [ (TStr "upgradeController", Lit 1.8) ]);
           (TStr "XGH2O", Obj None [ (TStr "upgradeController", Lit 2) ]) ]);
      (TStr "attack",
       Obj None
         [ (TStr "UH", Obj None [ (TStr "attack", Lit 2) ]);
           (TStr "UH2O", Obj None [ (TStr "attack", Lit 3) ]);
           (TStr "XUH2O", Obj None [ (TStr "attack", Lit 4) ]) ]);
      (TStr "ranged_attack",
       Obj None
         [ (TStr "KO", Obj None [ (TStr "rangedAttack", Lit 2); (TStr "rangedMassAttack", Lit 2) ]);
           (TStr "KHO2", Obj None [ (TStr "rangedAttack", Lit 3); (TStr "rangedMassAttack", Lit 3) ]);
           (TStr "XKHO2", Obj None [ (TStr "rangedAttack", Lit 4); (TStr "rangedMassAttack", Lit 4) ]) ]);
      (TStr "heal",
       Obj None
         [ (TStr "LO", Obj None [ (TStr "heal", Lit 2); (TStr "rangedHeal", Lit 2) ]);
           (TStr "LHO2", Obj None [ (TStr "heal", Lit 3); (TStr "rangedHeal", Lit 3) ]);
           (TStr "XLHO2", Obj None [ (TStr "heal", Lit 4); (TStr "rangedHeal", Lit 4) ]) ]);
      (TStr "carry",
       Obj None
         [ (TStr "KH", Obj None [ (TStr "capacity", Lit 2) ]);
           (TStr "KH2O", Obj None [ (TStr "capacity", Lit 3) ]);
           (TStr "XKH2O", Obj None [ (TStr "capacity", Lit 4) ]) ]);
      (TStr "move",
       Obj None
         [ (TStr "ZO", Obj None [ (TStr "fatigue", Lit 2) ]);
           (TStr "ZHO2", Obj None [ (TStr "fatigue", Lit 3) ]);
           (TStr "XZHO2", Obj None [ (TStr "fatigue", Lit 4) ]) ]);
      (TStr "tough",
       Obj None
         [ (TStr "GO", Obj None [ (TStr "damage", Lit 0.7) ]);
           (TStr "GHO2", Obj None [ (TStr "damage", Lit 0.5) ]);
           (TStr "XGHO2", Obj None [ (TStr "damage", Lit 0.3) ]) ]) ].

(** [POWER_INFO] (lines 857-1027). *)
Definition POWER_INFO : object (list pfield) :=
  Obj (Some (number,
         [ req "className" (PClass PowerClassConstant); req "level" PArray;
           req "cooldown" PNumber; opt "effect" PArray; opt "range" PNumber;
           opt "ops" (POr PNumber PArray); opt "duration" (POr PNumber PArray) ]))
    [ (PWR_GENERATE_OPS,
       [ req "className" (PClass (POWER_CLASS_at "OPERATOR"));
         req "level" (PTuple [0; 2; 7; 14; 22]); req "cooldown" (PLit 50);
         req "effect" (PTuple [1; 2; 4; 6; 8]) ]);
      (PWR_OPERATE_SPAWN,
       [ req "className" (PClass (POWER_CLASS_at "OPERATOR"));
         req "level" (PTuple [0; 2; 7; 14; 22]); req "cooldown" (PLit 300);
         req "duration" (PLit 1000); req "range" (PLit 3); req "ops" (PLit 100);
         req "effect" (PTuple [0.9; 0.7; 0.5; 0.35; 0.2]) ]);
      (PWR_OPERATE_TOWER,
       [ req "className" (PClass (POWER_CLASS_at "OPERATOR"));
         req "level" (PTuple [0; 2; 7; 14; 22]); req "cooldown" (PLit 10);
         req "duration" (PLit 100); req "range" (PLit 3); req "ops" (PLit 10);
         req "effect" (PTuple [1.1; 1.2; 1.3; 1.4; 1.5]) ]);
      (PWR_OPERATE_STORAGE,
       [ req "className" (PClass (POWER_CLASS_at "OPERATOR"));
         req "level" (PTuple [0; 2; 7; 14; 22]); req "cooldown" (PLit 800);
         req "duration" (PLit 1000); req "range" (PLit 3); req "ops" (PLit 100);
         req "effect" (PTuple [500000; 1000000; 2000000; 4000000; 7000000]) ]);
      (PWR_OPERATE_LAB,
       [ req "className" (PClass (POWER_CLASS_at "OPERATOR"));
         req "level" (PTuple [0; 2; 7; 14; 22]); req "cooldown" (PLit 50);
         req "duration" (PLit 1000); req "range" (PLit 3); req "ops" (PLit 10);
         req "effect" (PTuple [2; 4; 6; 8; 10]) ]);
      (PWR_OPERATE_EXTENSION,
       [ req "className" (PClass (POWER_CLASS_at "OPERATOR"));
         req "level" (PTuple [0; 2; 7; 14; 22]); req "cooldown" (PLit 50);
         req "range" (PLit 3); req "ops" (PLit 2);
         req "effect" (PTuple [0.2; 0.4; 0.6; 0.8; 1.0]) ]);
      (PWR_OPERATE_OBSERVER,
       [ req "className" (PClass (POWER_CLASS_at "OPERATOR"));
         req "level" (PTuple [0; 2; 7; 14; 22]); req "cooldown" (PLit 400);
         req "duration" (PTuple [200; 400; 600; 800; 1000]); req "range" (PLit 3);
         req "ops" (PLit 10) ]);
      (PWR_OPERATE_TERMINAL,
       [ req "className" (PClass (POWER_CLASS_at "OPERATOR"));
         req "level" (PTuple [0; 2; 7; 14; 22]); req "cooldown" (PLit 500);
         req "duration" (PLit 1000); req "range" (PLit 3); req "ops" (PLit 100);
         req "effect" (PTuple [0.9; 0.8; 0.7; 0.6; 0.5]) ]);
      (PWR_DISRUPT_SPAWN,
       [ req "className" (PClass (POWER_CLASS_at "OPERATOR"));
         req "level" (PTuple [0; 2; 7; 14; 22]); req "cooldown" (PLit 5);
         req "range" (PLit 20); req "ops" (PLit 10);
         req "duration" (PTuple [1; 2; 3; 4; 5]) ]);
      (PWR_DISRUPT_TOWER,
       [ req "className" (PClass (POWER_CLASS_at "OPERATOR"));
         req "level" (PTuple [0; 2; 7; 14; 22]); req "cooldown" (PLit 0);
         req "duration" (PLit 5); req "range" (PLit 50); req "ops" (PLit 10);
         req "effect" (PTuple [0.9; 0.8; 0.7; 0.6; 0.5]) ]);
      (PWR_DISRUPT_SOURCE,
       [ req "className" (PClass (POWER_CLASS_at "OPERATOR"));
         req "level" (PTuple [0; 2; 7; 14; 22]); req "cooldown" (PLit 100);
         req "range" (PLit 3); req "ops" (PLit 100);
         req "duration" (PTuple [100; 200; 300; 400; 500]) ]);
      (PWR_SHIELD,
       [ req "className" (PClass (POWER_CLASS_at "OPERATOR"));
         req "level" (PTuple [0; 2; 7; 14; 22]);
         req "effect" (PTuple [5000; 10000; 15000; 20000; 25000]);
         req "duration" (PLit 50); req "cooldown" (PLit 20); req "energy" (PLit 100) ]);
      (PWR_REGEN_SOURCE,
       [ req "className" (PClass (POWER_CLASS_at "OPERATOR"));
         req "level" (PTuple [10; 11; 12; 14; 22]); req "cooldown" (PLit 100);
         req "duration" (PLit 300); req "range" (PLit 3);
         req "effect" (PTuple [50; 100; 150; 200; 250]); req "period" (PLit 15) ]);
      (PWR_REGEN_MINERAL,
       [ req "className" (PClass (POWER_CLASS_at "OPERATOR"));
         req "level" (PTuple [10; 11; 12; 14; 22]); req "cooldown" (PLit 100);
         req "duration" (PLit 100); req "range" (PLit 3);
         req "effect" (PTuple [2; 4; 6; 8; 10]); req "period" (PLit 10) ]);
      (PWR_DISRUPT_TERMINAL,
       [ req "className" (PClass (POWER_CLASS_at "OPERATOR"));
         req "level" (PTuple [20; 21; 22; 23; 24]); req "cooldown" (PLit 8);
         req "duration" (PLit 10); req "range" (PLit 50);
         req "ops" (PTuple [50; 40; 30; 20; 10]) ]);
      (PWR_FORTIFY,
       [ req "className" (PClass (POWER_CLASS_at "OPERATOR"));
         req "level" (PTuple [0; 2; 7; 14; 22]); req "cooldown" (PLit 5);
         req "range" (PLit 3); req "ops" (PLit 5);
         req "duration" (PTuple [1; 2; 3; 4; 5]) ]);
      (PWR_OPERATE_POWER,
       [ req "className" (PClass (POWER_CLASS_at "OPERATOR"));
         req "level" (PTuple [10; 11; 12; 14; 22]); req "cooldown" (PLit 800);
         req "range" (PLit 3); req "duration" (PLit 1000); req "ops" (PLit 200);
         req "effect" (PTuple [1; 2; 3; 4; 5]) ]);
      (PWR_OPERATE_CONTROLLER,
       [ req "className" (PClass (POWER_CLASS_at "OPERATOR"));
         req "level" (PTuple [20; 21; 22; 23; 24]); req "cooldown" (PLit 800);
         req "range" (PLit 3); req "duration" (PLit 1000); req "ops" (PLit 200);
         req "effect" (PTuple [10; 20; 30; 40; 50]) ]);
      (PWR_OPERATE_FACTORY,
       [ req "className" (PClass (POWER_CLASS_at "OPERATOR"));
         req "level" (PTuple [0; 2; 7; 14; 22]); req "cooldown" (PLit 1000);
         req "range" (PLit 3); req "duration" (PLit 1000); req "ops" (PLit 100) ]) ].


#[local] Close Scope Q_scope.

(** ** The generic store (lines 5728-5753) *)

(** The three methods of [GenericStoreBase] return [number | null]. *)
Module GenericStoreBase.
Definition getCapacity : ty := number ∣ null.
Definition getUsedCapacity : ty := number ∣ null.
Definition getFreeCapacity : ty := number ∣ null.
End GenericStoreBase.


(** ** Body parts (lines 2013-2030) *)

(** [keyof o]: the keys of the declared properties and, under an index
    signature, the type of its keys ([string | number] for an index
    signature on [string]). *)
Definition keyof {V : Type} (o : object V) : list atom :=
  keys o ++
  match index_signature o with
  | Some (K, _) =>
      flat_map (fun k => match k with AString => [AString; ANumber] | _ => [k] end)
               (union_of K)
  | None => []
  end.

(** A member of [BodyPartDefinition<T>]: [{ boost?: ...; type: ...; hits:
    number }]. *)
Record body_part : Type := {
  boost : list atom;   (* optional *)
  type : list atom;
  hits : list atom
}.

(** [type BodyPartDefinition<T extends BodyPartConstant = BodyPartConstant>
      = T extends any ? { boost?: keyof (typeof BOOSTS)[T]; type: T; hits:
      number } : never]: the conditional type holds for every member of
    [T], over which it distributes. *)
Definition BodyPartDefinition (T : ty) : list body_part :=
  (fun t => {| boost := from_option keyof [] (get BOOSTS t);
               type := [t];
               hits := union_of number |}) <$> union_of T.

(** ** Reading the tables *)

(** [REACTIONS[a][b]]. *)
Definition reaction (a b : atom) : option ty :=
  o ← get REACTIONS a; get o b.

(** The compounds the declared entries of [REACTIONS] produce. *)
Definition products : list atom :=
  flat_map (fun e : atom * atom * ty => union_of e.2) (entries REACTIONS).

(** The compounds that [REACTIONS] declares as made from [c] and
    hydroxide, or from [c] and the catalyst. *)
Definition upgrade (c : atom) : list atom :=
  flat_map (fun e : atom * atom * ty =>
              if bool_decide (e.1.1 = c /\
                              e.1.2 ∈ union_of (RESOURCE_HYDROXIDE ∣ RESOURCE_CATALYST))
              then union_of e.2 else [])
           (entries REACTIONS).

(** [BOOSTS[part][compound][action]]. *)
Definition boost_factor (part compound action : atom) : option numeric :=
  o ← get BOOSTS part; o' ← get o compound; get o' action.

(** How far a factor is from 1, the factor of an unboosted part. *)
Definition strength (x : numeric) : option Q :=
  match x with
  | Lit q => Some (if Qle_bool 1 q then q - 1 else 1 - q)%Q
  | AnyNumber => None
  end.

(** The boost [y] is stronger than the boost [x]. *)
Definition stronger (x y : option numeric) : bool :=
  match x ≫= strength, y ≫= strength with
  | Some p, Some q => negb (Qle_bool q p)
  | _, _ => false
  end.

(** A field of type [t] is accepted where [s] is expected. *)
Fixpoint pty_sub (t s : pty) : bool :=
  match s with
  | PNumber => match t with PLit _ | PNumber => true | _ => false end
  | PArray => match t with PTuple _ | PArray => true | _ => false end
  | POr s1 s2 => pty_sub t s1 || pty_sub t s2
  | PClass c =>
      match t with PClass c' => assignable (union_of c') (union_of c) | _ => false end
  | PLit q => match t with PLit q' => Qeq_bool q' q | _ => false end
  | PTuple qs =>
      match t with
      | PTuple qs' => bool_decide (length qs' = length qs) &&
                      forallb (fun p : Q * Q => Qeq_bool p.1 p.2) (zip qs' qs)
      | _ => false
      end
  end.

Definition field_of (e : list pfield) (n : string) : option pfield :=
  snd <$> list_find (fun f => pf_name f = n) e.

(** The object type [e] is accepted where [sig] is expected: it has the
    required fields, and its fields have the types expected (it may have
    more fields). *)
Definition entry_sub (e sig : list pfield) : bool :=
  forallb (fun f => match field_of e (pf_name f) with
                    | Some g => pty_sub (pf_type g) (pf_type f) &&
                                (pf_optional f || negb (pf_optional g))
                    | None => pf_optional f
                    end) sig.

(** The fields of an entry that are tuples. *)
Definition tuples (e : list pfield) : list (string * list Q) :=
  omap (fun f => match pf_type f with
                 | PTuple l => Some (pf_name f, l)
                 | _ => None
                 end) e.

Fixpoint increasing (l : list Q) : bool :=
  match l with
  | a :: (b :: _) as t => negb (Qle_bool b a) && increasing t
  | _ => true
  end.

(** The levels at which a power creep gets the level [1, 2, ...] of a
    power: the field [level] of the entry. *)
Definition level_of (e : list pfield) : list Q :=
  from_option snd [] (snd <$> list_find (fun t : string * list Q => t.1 = "level") (tuples e)).

(** * Properties *)

(** ** The evaluator *)

Section evaluator.

Implicit Types (a b : atom) (A B : list atom) (ρ : env) (v : value).

Lemma atom_sub_refl a : atom_sub a a = true.
Proof. destruct a; simpl; by rewrite ?bool_decide_eq_true_2. Qed.

Lemma allows_elem A a : a ∈ A -> allows A a = true.
Proof.
  intros Ha. unfold allows. apply existsb_exists.
  exists a. split; [by apply list_elem_of_In | apply atom_sub_refl].
Qed.

Lemma assignable_elem a B : a ∈ B -> assignable [a] B = true.
Proof.
  intros Ha. unfold assignable. cbn [forallb]. rewrite andb_true_r.
  by apply allows_elem.
Qed.

Lemma has_type_elem v A :
  has_type v A = true <-> exists a, a ∈ A /\ inhabits v a = true.
Proof.
  unfold has_type. rewrite existsb_exists.
  split; intros (a & Ha & Hv); exists a; split; auto; by apply list_elem_of_In.
Qed.

(** A value of a numeric literal type is that number. *)
Lemma inhabits_num v z :
  inhabits v (ANum z) = true <-> exists q, v = VNum q /\ (q == inject_Z z)%Q.
Proof.
  split.
  - destruct v; simpl; try discriminate.
    intros H. exists q. split; [done | by apply Qeq_bool_iff].
  - intros (q & -> & H). simpl. by apply Qeq_bool_iff.
Qed.

Lemma has_type_number v : has_type v [ANumber] = true -> exists q, v = VNum q.
Proof. destruct v; try discriminate. by eexists. Qed.

Lemma has_type_null v : has_type v [ANull] = true -> v = VNull.
Proof. by destruct v. Qed.

Lemma env_get_here x A ρ : env_get ((x, A) :: ρ) x = A.
Proof. unfold env_get. simpl. by rewrite decide_True. Qed.

Lemma env_get_next x y A ρ : x <> y -> env_get ((y, A) :: ρ) x = env_get ρ x.
Proof.
  intros Hne. unfold env_get. simpl. rewrite decide_False by done.
  by destruct (list_find _ ρ) as [[? [? ?]]|].
Qed.

(** The distributive conditional type, spelled out. *)
Lemma members_cond_var ρ x e s t :
  members ρ (TCond (TVar x) e s t) =
  flat_map (fun a => let ρ' := (x, [a]) :: ρ in
                     if assignable [a] (members ρ' e)
                     then members ρ' s else members ρ' t)
           (env_get ρ x).
Proof. reflexivity. Qed.

(** Assignability to a union of literal types is membership. *)
Lemma atom_sub_literal a b : literal b -> atom_sub a b = bool_decide (a = b).
Proof. destruct b; simpl; try done; by destruct a. Qed.

Lemma assignable_literals a B :
  Forall literal B -> assignable [a] B = bool_decide (a ∈ B).
Proof.
  intros HB. unfold assignable. simpl. rewrite andb_true_r.
  induction HB as [| b B Hb HB IH]; cbn [existsb].
  - symmetry. by apply bool_decide_eq_false_2, not_elem_of_nil.
  - rewrite IH, atom_sub_literal by done.
    apply eq_true_iff_eq.
    rewrite orb_true_iff, !bool_decide_eq_true, elem_of_cons. tauto.
Qed.

Lemma literal_subseteq A B : A ⊆ B -> Forall literal B -> Forall literal A.
Proof.
  intros HAB HB. rewrite Forall_forall in *. intros a Ha. apply HB, HAB, Ha.
Qed.

End evaluator.

(** ** Return codes *)

(** C1.  Each of the fifteen return-code constants has the literal value
    the declarations give it, and [ScreepsReturnCode] is the union of
    these fifteen types: it has the same members, and its values are the
    numbers [0, -1, ..., -12, -14, -15] and nothing else. *)
Theorem return_codes_exact :
  code_value OK = Some 0 /\
  code_value ERR_NOT_OWNER = Some (-1) /\
  code_value ERR_NO_PATH = Some (-2) /\
  code_value ERR_NAME_EXISTS = Some (-3) /\
  code_value ERR_BUSY = Some (-4) /\
  code_value ERR_NOT_FOUND = Some (-5) /\
  code_value ERR_NOT_ENOUGH_RESOURCES = Some (-6) /\
  code_value ERR_INVALID_TARGET = Some (-7) /\
  code_value ERR_FULL = Some (-8) /\
  code_value ERR_NOT_IN_RANGE = Some (-9) /\
  code_value ERR_INVALID_ARGS = Some (-10) /\
  code_value ERR_TIRED = Some (-11) /\
  code_value ERR_NO_BODYPART = Some (-12) /\
  code_value ERR_RCL_NOT_ENOUGH = Some (-14) /\
  code_value ERR_GCL_NOT_ENOUGH = Some (-15) /\
  (forall a : atom,
     a ∈ union_of ScreepsReturnCode <->
     a ∈ union_of (OK ∣ ERR_NOT_OWNER ∣ ERR_NO_PATH ∣ ERR_NAME_EXISTS ∣ ERR_BUSY
                   ∣ ERR_NOT_FOUND ∣ ERR_NOT_ENOUGH_RESOURCES ∣ ERR_INVALID_TARGET
                   ∣ ERR_FULL ∣ ERR_NOT_IN_RANGE ∣ ERR_INVALID_ARGS ∣ ERR_TIRED
                   ∣ ERR_NO_BODYPART ∣ ERR_RCL_NOT_ENOUGH ∣ ERR_GCL_NOT_ENOUGH)) /\
  (forall v : value,
     has_type v (union_of ScreepsReturnCode) = true <->
     exists z : Z,
       z ∈ [0; -1; -2; -3; -4; -5; -6; -7; -8; -9; -10; -11; -12; -14; -15] /\
       exists q : Q, v = VNum q /\ (q == inject_Z z)%Q).
Proof.
  repeat (split; [reflexivity |]).
  split.
  - intros a. vm_compute union_of. rewrite !elem_of_cons, !elem_of_nil. tauto.
  - intros v. rewrite has_type_elem. split.
    + intros (a & Ha & Hv). vm_compute union_of in Ha.
      repeat (apply elem_of_cons in Ha as [-> | Ha]);
        try (apply inhabits_num in Hv; eexists; split; [| exact Hv]; compute_done).
      by apply elem_of_nil in Ha.
    + intros (z & Hz & Hv). apply inhabits_num in Hv.
      exists (ANum z). split; [| done].
      repeat (apply elem_of_cons in Hz as [-> | Hz]); try compute_done.
      by apply elem_of_nil in Hz.
Qed.

(** C8.  The names of the return codes do not determine their values
    one-to-one: [ERR_NOT_ENOUGH_RESOURCES], [ERR_NOT_ENOUGH_ENERGY] and
    [ERR_NOT_ENOUGH_EXTENSIONS] are the same literal type [-6] (and the
    only names of that value), so they have the same values and a consumer
    of the number cannot tell them apart.  No declared code has the value
    [-13]: among the integers from [-15] to [0] it is the one that is not a
    return code. *)
Theorem return_code_names_collide :
  code_value ERR_NOT_ENOUGH_RESOURCES = Some (-6) /\
  code_value ERR_NOT_ENOUGH_ENERGY = Some (-6) /\
  code_value ERR_NOT_ENOUGH_EXTENSIONS = Some (-6) /\
  fst <$> filter (fun p => code_value p.2 = Some (-6)) return_code_names =
    ["ERR_NOT_ENOUGH_RESOURCES"; "ERR_NOT_ENOUGH_ENERGY";
     "ERR_NOT_ENOUGH_EXTENSIONS"] /\
  (forall v : value,
     has_type v (union_of ERR_NOT_ENOUGH_RESOURCES) =
       has_type v (union_of ERR_NOT_ENOUGH_ENERGY) /\
     has_type v (union_of ERR_NOT_ENOUGH_ENERGY) =
       has_type v (union_of ERR_NOT_ENOUGH_EXTENSIONS)) /\
  ~ (forall (n1 n2 : string) (t1 t2 : ty),
       (n1, t1) ∈ return_code_names -> (n2, t2) ∈ return_code_names ->
       code_value t1 = code_value t2 -> n1 = n2) /\
  filter (fun p => code_value p.2 = Some (-13)) return_code_names = [] /\
  has_type (VNum (inject_Z (-13))) (union_of ScreepsReturnCode) = false /\
  filter (fun z => z ∉ literals (union_of ScreepsReturnCode)) (seqZ (-15) 16) =
    [-13].
Proof.
  repeat (split; [reflexivity |]).
  split; [by intros v |].
  split; [| by repeat split].
  intros Hinj.
  assert (H : "ERR_NOT_ENOUGH_RESOURCES" = "ERR_NOT_ENOUGH_ENERGY"); [| done].
  apply (Hinj _ _ ERR_NOT_ENOUGH_RESOURCES ERR_NOT_ENOUGH_ENERGY);
    [| | reflexivity]; apply list_elem_of_In; simpl; tauto.
Qed.

(** ** Market constants *)

(** C4.  [MARKET_FEE] is the literal [0.05], that is 5/100, a fee of five
    percent, and [MARKET_ORDER_LIFE_TIME] is the literal [2592000000],
    which is [1000*60*60*24*30]: thirty days in milliseconds. *)
Theorem market_fee_and_order_life_time :
  MARKET_FEE = (5 # 100)%Q /\
  (MARKET_FEE == 5 / 100)%Q /\
  (MARKET_FEE * 100 == 5)%Q /\
  MARKET_ORDER_LIFE_TIME = 2592000000 /\
  MARKET_ORDER_LIFE_TIME = 1000 * 60 * 60 * 24 * 30 /\
  MARKET_ORDER_LIFE_TIME = 30 * ms_per_day.
Proof. by repeat split. Qed.

(** ** Structures *)

(** C3.  [ConcreteStructureMap] has 21 keys, the structure-type tags, each
    once.  For every key [T] the map resolves [ConcreteStructure<T>] to one
    interface, and the [structureType] of that interface is exactly [T].
    [AnyStructure] is the union of the 21 interfaces of the map: every one
    of them is a member, and it has no other member. *)
Theorem concrete_structure_map_resolves :
  length ConcreteStructureMap = 21%nat /\
  NoDup (flat_map (fun kv : ty * ty => union_of kv.1) ConcreteStructureMap) /\
  flat_map (fun kv : ty * ty => union_of kv.1) ConcreteStructureMap
    ⊆ union_of StructureConstant /\
  union_of StructureConstant
    ⊆ flat_map (fun kv : ty * ty => union_of kv.1) ConcreteStructureMap /\
  Forall (fun kv : ty * ty =>
            exists tag name : string,
              union_of kv.1 = [AStr tag] /\
              union_of kv.2 = [ARef name] /\
              ConcreteStructure kv.1 = [ARef name] /\
              structureType_of (ARef name) = Some [AStr tag])
         ConcreteStructureMap /\
  union_of AnyStructure
    ⊆ flat_map (fun kv : ty * ty => union_of kv.2) ConcreteStructureMap /\
  flat_map (fun kv : ty * ty => union_of kv.2) ConcreteStructureMap
    ⊆ union_of AnyStructure /\
  NoDup (union_of AnyStructure) /\
  length (union_of AnyStructure) = 21%nat.
Proof.
  split; [reflexivity |].
  split; [compute_done |].
  split; [compute_done |].
  split; [compute_done |].
  split.
  { unfold ConcreteStructureMap.
    repeat (constructor; [by eexists _, _; repeat split |]).
    constructor. }
  split; [compute_done |].
  split; [compute_done |].
  split; [compute_done | reflexivity].
Qed.

(** C7, as the declarations have it.  [OwnedStructure] exposes [id],
    [owner], [hits], [hitsMax], [pos] and [room].  The base [Structure]
    exposes [id], [hits], [hitsMax], [pos] and [room] ([pos] through
    [RoomObject]) but no [owner]: among the concrete structures, [owner] is
    a member exactly of those of [AnyOwnedStructure]; roads, walls,
    containers and portals have none. *)
Theorem structure_fields :
  member_of "OwnedStructure" None "id" = Some (RProp false [ARef "Id<this>"]) /\
  is_Some (member_of "OwnedStructure" None "owner") /\
  member_of "OwnedStructure" None "hits" = Some (RProp false [ANumber]) /\
  member_of "OwnedStructure" None "hitsMax" = Some (RProp false [ANumber]) /\
  member_of "OwnedStructure" None "pos" = Some (RProp false [ARef "RoomPosition"]) /\
  member_of "OwnedStructure" None "room" = Some (RProp false [ARef "Room"]) /\
  member_of "Structure" None "id" = Some (RProp false [ARef "Id<this>"]) /\
  member_of "Structure" None "hits" = Some (RProp false [ANumber]) /\
  member_of "Structure" None "hitsMax" = Some (RProp false [ANumber]) /\
  member_of "Structure" None "pos" = Some (RProp false [ARef "RoomPosition"]) /\
  member_of "Structure" None "room" = Some (RProp false [ARef "Room"]) /\
  member_of "Structure" None "owner" = None /\
  ("owner" ∉ members_of "Structure") /\
  Forall (fun kv : ty * ty =>
            exists name : string,
              union_of kv.2 = [ARef name] /\
              (is_Some (member_of name None "owner") <->
               ARef name ∈ union_of AnyOwnedStructure))
         ConcreteStructureMap /\
  filter (fun a => a ∉ union_of AnyOwnedStructure) (union_of AnyStructure) =
    [ARef "StructureContainer"; ARef "StructurePortal"; ARef "StructureRoad";
     ARef "StructureWall"].
Proof.
  split; [reflexivity |].
  split; [by eexists |].
  do 10 (split; [reflexivity |]).
  split; [compute_done |].
  split; [| reflexivity].
  unfold ConcreteStructureMap.
  repeat (constructor;
          [eexists; split; [reflexivity |];
           first [ split; [intros _; compute_done | intros _; by eexists]
                 | split; [by intros [? ?] | intros H; exfalso; revert H; compute_done] ] |]).
  constructor.
Qed.

(** Where the statement of C7 fails: it wants [owner] on the base
    [Structure] too. *)
Lemma structure_fields_counterexample :
  ~ (forall n : string, n ∈ ["Structure"; "OwnedStructure"] ->
     forall f : string, f ∈ ["id"; "owner"; "hits"; "hitsMax"; "pos"; "room"] ->
     is_Some (member_of n None f)).
Proof.
  intros H.
  destruct (H "Structure" ltac:(compute_done) "owner" ltac:(compute_done))
    as [r Hr].
  discriminate Hr.
Qed.

(** The [owner] of [OwnedStructure<T>] at a single tag. *)
Lemma owner_of_tag (s : string) :
  owner_of (TStr s) =
  Some (if bool_decide (s = "controller")
        then [ARef "Owner"; AUndefined] else [ARef "Owner"]).
Proof.
  unfold owner_of, member_of.
  change (lookup depth "OwnedStructure" (union_of <$> Some (TStr s)) "owner")
    with (Some (RProp false
            (members [("T", [AStr s])]
               (TCond (TVar "T") STRUCTURE_CONTROLLER
                      (TRef "Owner" ∣ undefined) (TRef "Owner"))))).
  f_equal. rewrite members_cond_var, env_get_here.
  cbn [flat_map]. rewrite app_nil_r.
  change (members _ STRUCTURE_CONTROLLER) with [AStr "controller"].
  rewrite assignable_literals by (by repeat constructor).
  apply (f_equal (fun b : bool => if b then _ else _)).
  apply eq_true_iff_eq. rewrite !bool_decide_eq_true, list_elem_of_singleton.
  split; congruence.
Qed.

(** At the default type argument, the union of all the tags, the
    conditional type distributes over the tags: the [owner] of
    [OwnedStructure] itself is [Owner | undefined]. *)
Lemma owner_at_default :
  exists A : list atom,
    member_of "OwnedStructure" None "owner" = Some (RProp false A) /\
    A ⊆ [ARef "Owner"; AUndefined] /\ [ARef "Owner"; AUndefined] ⊆ A.
Proof. eexists. split; [reflexivity |]. split; compute_done. Qed.

(** C10.  For a structure-type tag [s], the [owner] of
    [OwnedStructure<s>] allows [undefined] exactly when [s] is the tag of
    the controller; for every other tag it is [Owner].  Accordingly, among
    the declared owned structures, the [owner] of an interface may be
    [undefined] exactly when its [structureType] is the tag of the
    controller. *)
Theorem owner_undefined_only_for_controller :
  union_of STRUCTURE_CONTROLLER = [AStr "controller"] /\
  (forall s : string,
     exists A : list atom,
       owner_of (TStr s) = Some A /\
       ARef "Owner" ∈ A /\
       (AUndefined ∈ A <-> s = "controller") /\
       (s <> "controller" -> A = [ARef "Owner"])) /\
  Forall (fun a : atom =>
            exists (name tag : string) (A : list atom),
              a = ARef name /\
              structureType_of a = Some [AStr tag] /\
              member_of name None "owner" = Some (RProp false A) /\
              (AUndefined ∈ A <-> tag = "controller"))
         (union_of AnyOwnedStructure).
Proof.
  split; [reflexivity |]. split.
  - intros s. rewrite owner_of_tag. eexists. split; [reflexivity |].
    case_bool_decide as Hs.
    + split; [compute_done |]. split; [| done].
      split; [done | intros _; compute_done].
    + split; [compute_done |]. split; [| done].
      split; [| done]. intros H. exfalso. revert H. compute_done.
  - vm_compute union_of.
    repeat (constructor;
            [eexists _, _, _; do 3 (split; [reflexivity |]);
             first [ split; [done | intros _; compute_done]
                   | split; [intros H; exfalso; revert H; compute_done | done] ] |]).
    constructor.
Qed.

(** ** Stores *)

Section stores.

Implicit Types (a : atom) (T U : list atom) (st : store_ty) (k : string).

Lemma Exclude_unfold T U :
  Exclude T U = flat_map (fun a => if assignable [a] U then [] else [a]) T.
Proof. reflexivity. Qed.

Lemma elem_of_Exclude a T U :
  a ∈ Exclude T U <-> a ∈ T /\ assignable [a] U = false.
Proof.
  rewrite Exclude_unfold, list_elem_of_In, in_flat_map. split.
  - intros (b & Hb & Ha). destruct (assignable [b] U) eqn:E; [done |].
    apply list_elem_of_In, list_elem_of_singleton in Ha as ->.
    by rewrite <- list_elem_of_In in Hb.
  - intros [Ha E]. exists a. rewrite E, <- !list_elem_of_In.
    split; [done | by apply list_elem_of_singleton].
Qed.

Lemma ResourceConstant_literal : Forall literal (union_of ResourceConstant).
Proof. vm_compute. repeat constructor. Qed.

(** The part of the three return types that depends on the argument, in
    an environment that binds [R] and [POSSIBLE_RESOURCES]. *)
Local Abbreviation by_resource :=
  (TCond (TVar "R") undefined
     (TCond ResourceConstant (TVar "POSSIBLE_RESOURCES") number null)
     (TCond (TVar "R") (TVar "POSSIBLE_RESOURCES") number null)).

(** With a resource of the store as argument, the result is a number. *)
Lemma by_resource_valid (ρ : env) k :
  env_get ρ "R" = [AStr k] ->
  AStr k ∈ env_get ρ "POSSIBLE_RESOURCES" ->
  members ρ by_resource = [ANumber].
Proof.
  intros HR HP.
  rewrite members_cond_var, HR. cbn [flat_map]. rewrite app_nil_r.
  cbv zeta. change (members _ undefined) with [AUndefined].
  change (assignable [AStr k] [AUndefined]) with false. cbv iota.
  rewrite members_cond_var, env_get_here. cbn [flat_map]. rewrite app_nil_r.
  cbv zeta. cbn [members]. rewrite !env_get_next by done.
  by rewrite (assignable_elem _ _ HP).
Qed.

(** Without argument, it is a number on a store that holds every
    resource. *)
Lemma by_resource_no_argument (ρ : env) :
  env_get ρ "R" = [AUndefined] ->
  assignable (union_of ResourceConstant) (env_get ρ "POSSIBLE_RESOURCES") = true ->
  members ρ by_resource = [ANumber].
Proof.
  intros HR HP.
  rewrite members_cond_var, HR. cbn [flat_map]. rewrite app_nil_r.
  cbv zeta. change (members _ undefined) with [AUndefined].
  change (assignable [AUndefined] [AUndefined]) with true. cbv iota.
  change (members ?ρ' (TCond ResourceConstant (TVar "POSSIBLE_RESOURCES") number null))
    with (if assignable (union_of ResourceConstant) (env_get ρ' "POSSIBLE_RESOURCES")
          then [ANumber] else [ANull]).
  rewrite env_get_next by done. by rewrite HP.
Qed.

(** The three calls on a store of type [st]. *)
Lemma call_unlimited st (R : option ty) :
  union_of (UNLIMITED_STORE st) = [ATrue] ->
  call_type st StoreBase.getCapacity R = [ANull] /\
  call_type st StoreBase.getFreeCapacity R = [ANull].
Proof.
  intros HU. unfold call_type, StoreBase.getCapacity, StoreBase.getFreeCapacity.
  rewrite !members_cond_var.
  change (env_get _ "UNLIMITED_STORE") with (union_of (UNLIMITED_STORE st)).
  by rewrite HU.
Qed.

Lemma call_limited st (R : option ty) :
  union_of (UNLIMITED_STORE st) = [AFalse] ->
  call_type st StoreBase.getCapacity R =
    members (("UNLIMITED_STORE", [AFalse])
             :: [("R", from_option union_of [AUndefined] R);
                 ("POSSIBLE_RESOURCES", union_of (POSSIBLE_RESOURCES st));
                 ("UNLIMITED_STORE", union_of (UNLIMITED_STORE st))])
            by_resource /\
  call_type st StoreBase.getFreeCapacity R =
    members (("UNLIMITED_STORE", [AFalse])
             :: [("R", from_option union_of [AUndefined] R);
                 ("POSSIBLE_RESOURCES", union_of (POSSIBLE_RESOURCES st));
                 ("UNLIMITED_STORE", union_of (UNLIMITED_STORE st))])
            by_resource.
Proof.
  intros HU. unfold call_type, StoreBase.getCapacity, StoreBase.getFreeCapacity.
  rewrite !members_cond_var.
  change (env_get _ "UNLIMITED_STORE") with (union_of (UNLIMITED_STORE st)).
  rewrite HU. cbn [flat_map]. by rewrite !app_nil_r.
Qed.

Lemma call_used st (R : option ty) :
  call_type st StoreBase.getUsedCapacity R =
    members [("R", from_option union_of [AUndefined] R);
             ("POSSIBLE_RESOURCES", union_of (POSSIBLE_RESOURCES st));
             ("UNLIMITED_STORE", union_of (UNLIMITED_STORE st))]
            by_resource.
Proof. reflexivity. Qed.

(** What a snapshot with the declared types returns for a resource of the
    store. *)
Lemma conforms_used st (s : store_snapshot) k :
  conforms st s ->
  AStr k ∈ union_of ResourceConstant ->
  AStr k ∈ union_of (POSSIBLE_RESOURCES st) ->
  exists u : Q, snap_getUsedCapacity s (Some k) = VNum u.
Proof.
  intros Hs Hk HP. destruct (Hs (Some k) Hk) as (_ & Hu & _).
  apply has_type_number. rewrite <- Hu. f_equal. symmetry.
  rewrite call_used. by apply (by_resource_valid _ k).
Qed.

Lemma conforms_limited st (s : store_snapshot) k :
  conforms st s ->
  union_of (UNLIMITED_STORE st) = [AFalse] ->
  AStr k ∈ union_of ResourceConstant ->
  AStr k ∈ union_of (POSSIBLE_RESOURCES st) ->
  exists c f : Q,
    snap_getCapacity s (Some k) = VNum c /\ snap_getFreeCapacity s (Some k) = VNum f.
Proof.
  intros Hs HU Hk HP. destruct (Hs (Some k) Hk) as (Hc & _ & Hf).
  destruct (call_limited st (TStr <$> Some k) HU) as [Ec Ef].
  rewrite Ec in Hc. rewrite Ef in Hf.
  rewrite (by_resource_valid _ k) in Hc, Hf by done.
  apply has_type_number in Hc as [c Hc]. apply has_type_number in Hf as [f Hf].
  by exists c, f.
Qed.

Lemma conforms_limited_no_argument st (s : store_snapshot) :
  conforms st s ->
  union_of (UNLIMITED_STORE st) = [AFalse] ->
  assignable (union_of ResourceConstant) (union_of (POSSIBLE_RESOURCES st)) = true ->
  exists c u f : Q,
    snap_getCapacity s None = VNum c /\
    snap_getUsedCapacity s None = VNum u /\
    snap_getFreeCapacity s None = VNum f.
Proof.
  intros Hs HU HP. destruct (Hs None I) as (Hc & Hu & Hf).
  destruct (call_limited st (TStr <$> None) HU) as [Ec Ef].
  rewrite Ec in Hc. rewrite Ef in Hf. rewrite call_used in Hu.
  rewrite by_resource_no_argument in Hc, Hu, Hf by done.
  apply has_type_number in Hc as [c Hc]. apply has_type_number in Hu as [u Hu].
  apply has_type_number in Hf as [f Hf]. by exists c, u, f.
Qed.

Lemma conforms_unlimited st (s : store_snapshot) (r : option string) :
  conforms st s ->
  union_of (UNLIMITED_STORE st) = [ATrue] ->
  from_option (fun k => AStr k ∈ union_of ResourceConstant) True r ->
  snap_getCapacity s r = VNull /\ snap_getFreeCapacity s r = VNull.
Proof.
  intros Hs HU Hr. destruct (Hs r Hr) as (Hc & _ & Hf).
  destruct (call_unlimited st (TStr <$> r) HU) as [Ec Ef].
  rewrite Ec in Hc. rewrite Ef in Hf.
  split; by apply has_type_null.
Qed.

(** A snapshot that returns numbers throughout has the types declared
    for a general-purpose limited store. *)
Lemma numbers_conform (s : store_snapshot) :
  (forall r, exists q : Q, snap_getCapacity s r = VNum q) ->
  (forall r, exists q : Q, snap_getUsedCapacity s r = VNum q) ->
  (forall r, exists q : Q, snap_getFreeCapacity s r = VNum q) ->
  conforms StoreDefinition s.
Proof.
  intros Hc Hu Hf r Hr.
  destruct (call_limited StoreDefinition (TStr <$> r) eq_refl) as [-> ->].
  rewrite call_used.
  destruct (Hc r) as [c ->], (Hu r) as [u ->], (Hf r) as [f ->].
  destruct r as [k |]; cbn [from_option] in Hr.
  - by rewrite !(by_resource_valid _ k).
  - by rewrite !by_resource_no_argument.
Qed.


Lemma container_store_conforms : conforms StoreDefinition container_store.
Proof.
  apply numbers_conform; intros r; cbn; [by eexists | | by eexists].
  destruct r as [k |]; [case_bool_decide |]; by eexists.
Qed.

Lemma declared_stores_bounded :
  Forall (fun st => union_of (POSSIBLE_RESOURCES st) ⊆ union_of ResourceConstant)
         declared_stores.
Proof.
  vm_compute declared_stores.
  repeat (apply Forall_cons; split; [compute_done |]).
  by apply Forall_nil.
Qed.

End stores.

(** C9.  Indexing a store by a resource constant yields a number, never
    [undefined]: for every [Store<P, U>] (with [P] within
    [ResourceConstant], as its bound requires) and every resource constant
    [r], the property [store[r]] is declared, with type [number] when [r]
    is in [P] and with the literal type [0] when it is not; either way its
    values are numbers. *)
Theorem store_index_is_a_number (st : store_ty) (r : atom) :
  union_of (POSSIBLE_RESOURCES st) ⊆ union_of ResourceConstant ->
  r ∈ union_of ResourceConstant ->
  exists A : list atom,
    Store_index st r = Some A /\
    is_numeric A = true /\
    allows_undefined A = false /\
    (forall v : value, has_type v A = true -> exists q : Q, v = VNum q) /\
    (r ∈ union_of (POSSIBLE_RESOURCES st) -> A = [ANumber]) /\
    (r ∉ union_of (POSSIBLE_RESOURCES st) -> A = [ANum 0]).
Proof.
  intros HP Hr. unfold Store_index, mapped.
  pose proof (literal_subseteq _ _ HP ResourceConstant_literal) as HlP.
  destruct (decide (r ∈ union_of (POSSIBLE_RESOURCES st))) as [Hin | Hout].
  - rewrite (bool_decide_eq_true_2 _ Hin), bool_decide_eq_false_2.
    + exists [ANumber]. repeat split; try done.
      intros v Hv. destruct v; try discriminate. by eexists.
    + rewrite elem_of_Exclude, assignable_literals by done.
      intros [_ E]. by rewrite bool_decide_eq_true_2 in E.
  - rewrite (bool_decide_eq_false_2 _ Hout), bool_decide_eq_true_2.
    + exists [ANum 0]. repeat split; try done.
      intros v Hv. destruct v; try discriminate. by eexists.
    + rewrite elem_of_Exclude, assignable_literals by done.
      split; [done | by apply bool_decide_eq_false_2].
Qed.

(** On the store of a spawn, [Store<RESOURCE_ENERGY, false>], indexed by
    [RESOURCE_POWER]. *)
Lemma store_index_is_a_number_witness :
  union_of (POSSIBLE_RESOURCES (Store RESOURCE_ENERGY false_))
    ⊆ union_of ResourceConstant /\
  AStr "power" ∈ union_of ResourceConstant /\
  exists A : list atom,
    Store_index (Store RESOURCE_ENERGY false_) (AStr "power") = Some A /\
    is_numeric A = true /\
    allows_undefined A = false.
Proof.
  assert (H1 : union_of (POSSIBLE_RESOURCES (Store RESOURCE_ENERGY false_))
                 ⊆ union_of ResourceConstant) by compute_done.
  assert (H2 : AStr "power" ∈ union_of ResourceConstant) by compute_done.
  split; [exact H1 |]. split; [exact H2 |].
  destruct (store_index_is_a_number (Store RESOURCE_ENERGY false_) (AStr "power") H1 H2)
    as (A & HA & Hn & Hu & _).
  by exists A.
Defined.


(** ** The store the host keeps *)

Section host.

Implicit Types (st : store_ty) (l : ledger) (k : string).

Local Abbreviation by_resource :=
  (TCond (TVar "R") undefined
     (TCond ResourceConstant (TVar "POSSIBLE_RESOURCES") number null)
     (TCond (TVar "R") (TVar "POSSIBLE_RESOURCES") number null)).










Lemma holds_spec st k :
  holds st k = true <-> AStr k ∈ union_of (POSSIBLE_RESOURCES st).
Proof. unfold holds. by rewrite bool_decide_eq_true. Qed.



End host.



(** The store of the tombstone of the counterexample is one the host
    reaches: the ledger of an unlimited store into which 50 energy were
    put; its answers are those of [tombstone_store] at every resource
    constant and without argument. *)
Lemma tombstone_store_reached :
  reachable StoreDefinitionUnlimited tombstone_ledger /\
  forall r : option string,
    from_option (fun k => AStr k ∈ union_of ResourceConstant) True r ->
    snap_getCapacity (snapshot StoreDefinitionUnlimited tombstone_ledger) r
      = snap_getCapacity tombstone_store r /\
    snap_getUsedCapacity (snapshot StoreDefinitionUnlimited tombstone_ledger) r
      = snap_getUsedCapacity tombstone_store r /\
    snap_getFreeCapacity (snapshot StoreDefinitionUnlimited tombstone_ledger) r
      = snap_getFreeCapacity tombstone_store r.
Proof.
  split.
  - apply (reach_deposit _ (Ledger (fun _ => 0) (fun _ => 0)) _ "energy" 50).
    + by apply reach_empty.
    + reflexivity.
  - intros r Hr. split; [reflexivity |]. split; [| reflexivity].
    destruct r as [k |]; [| reflexivity].
    cbn [from_option] in Hr.
    cbn [snapshot snap_getUsedCapacity tombstone_store].
    replace (holds StoreDefinitionUnlimited k) with true
      by (symmetry; by apply holds_spec).
    cbn [tombstone_ledger set_held l_held]. by case_bool_decide.
Qed.

(** ** Operations and result codes *)

(** C2, as the declarations have it.  An operation that documents an
    enumeration of result codes, or that declares a result code in its
    return type, declares a numeric return type, never [undefined], [void]
    or [null], and has no [@throws] clause; its return type is a union of
    return codes, except for [ConstructionSite.remove], declared
    [number].  The operations documented as returning a value or else a
    result code are the subject of the second part: they declare no
    [undefined], [void] or [null] either, and have no [@throws] clause.
    [StructureRampart.setPublic] is left aside.  The operations documented
    with [@throws] name no result code and declare none: they fail by an
    exception. *)
Theorem documented_operations_return_codes :
  Forall (fun om : string * member =>
            enumerates_codes om.2 = true \/ literals (ret_of om.2) <> [] ->
            value_or_codes om.2 = false ->
            (om.1, m_name om.2) <> ("StructureRampart", "setPublic") ->
            is_numeric (ret_of om.2) = true /\
            never_nullish (ret_of om.2) = true /\
            throws_of om.2 = false /\
            ((om.1, m_name om.2) <> ("ConstructionSite", "remove") ->
             ret_of om.2 ⊆ union_of ScreepsReturnCode) /\
            ((om.1, m_name om.2) = ("ConstructionSite", "remove") ->
             ret_of om.2 = [ANumber]))
         operations /\
  Forall (fun om : string * member =>
            value_or_codes om.2 = true ->
            never_nullish (ret_of om.2) = true /\ throws_of om.2 = false)
         operations /\
  Forall (fun om : string * member =>
            throws_of om.2 = true ->
            doc_of om.2 = Silent /\ literals (ret_of om.2) = [])
         operations /\
  (fun om : string * member => (om.1, m_name om.2))
    <$> filter (fun om => throws_of om.2 = true) operations =
  [ ("InterShardMemory", "setLocal"); ("InterShardMemory", "getRemote");
    ("RawMemory", "set"); ("RawMemory", "setActiveSegments");
    ("RawMemory", "setActiveForeignSegment");
    ("RawMemory", "setDefaultPublicSegment"); ("RawMemory", "setPublicSegments");
    ("RoomPositionConstructor", "new"); ("RoomTerrain", "getRawBuffer");
    ("Room", "lookAt") ].
Proof.
  split; [compute_done |].
  split; [compute_done |].
  split; [compute_done | reflexivity].
Qed.

(** On [Creep.say], documented and declared [OK | ERR_NOT_OWNER |
    ERR_BUSY], and on [Creep.moveByPath], whose documentation is silent
    and which declares [CreepMoveReturnCode | ERR_NOT_FOUND |
    ERR_INVALID_ARGS]. *)
Lemma documented_operations_return_codes_witness :
  (exists m : member,
     find_operation "Creep" "say" = Some m /\
     enumerates_codes m = true /\
     value_or_codes m = false /\
     ("Creep", m_name m) <> ("StructureRampart", "setPublic") /\
     is_numeric (ret_of m) = true /\
     never_nullish (ret_of m) = true /\
     throws_of m = false /\
     ret_of m ⊆ union_of ScreepsReturnCode) /\
  (exists m : member,
     find_operation "Creep" "moveByPath" = Some m /\
     doc_of m = Silent /\
     literals (ret_of m) <> [] /\
     is_numeric (ret_of m) = true /\
     never_nullish (ret_of m) = true /\
     throws_of m = false /\
     ret_of m ⊆ union_of ScreepsReturnCode).
Proof.
  destruct documented_operations_return_codes as (H & _).
  rewrite Forall_forall in H.
  split.
  - eexists. split; [reflexivity |].
    split; [reflexivity |]. split; [reflexivity |]. split; [discriminate |].
    destruct (H ("Creep", method 1538 "say" (OK ∣ ERR_NOT_OWNER ∣ ERR_BUSY)
                            (OneOf [OK; ERR_NOT_OWNER; ERR_BUSY]) false))
      as (Hn & Hv & Ht & Hc & _);
      [compute_done | by left | reflexivity | discriminate |].
    split; [exact Hn |]. split; [exact Hv |]. split; [exact Ht |].
    apply Hc. discriminate.
  - eexists. split; [reflexivity |].
    split; [reflexivity |]. split; [discriminate |].
    destruct (H ("Creep", method 1378 "moveByPath"
                            (CreepMoveReturnCode ∣ ERR_NOT_FOUND ∣ ERR_INVALID_ARGS)
                            Silent false))
      as (Hn & Hv & Ht & Hc & _);
      [compute_done | by right | reflexivity | discriminate |].
    split; [exact Hn |]. split; [exact Hv |]. split; [exact Ht |].
    apply Hc. discriminate.
Defined.

(** Where the statement of C2 fails: [RawMemory.set] can fail, by
    throwing, and is declared to return [undefined], which is no result
    code. *)
Lemma documented_operations_counterexample :
  exists m : member,
    ("RawMemory", m) ∈ operations /\
    m_name m = "set" /\
    m_line m = 4360 /\
    throws_of m = true /\
    doc_of m = Silent /\
    ret_of m = [AUndefined] /\
    allows_undefined (ret_of m) = true /\
    ~ ret_of m ⊆ union_of ScreepsReturnCode.
Proof.
  exists (method 4360 "set" undefined Silent true).
  split; [compute_done |].
  do 6 (split; [reflexivity |]).
  compute_done.
Qed.

(** C5, as the declarations have it.  For every operation that documents
    result codes, each documented code is admitted by the declared return
    type; the declared type may admit more, and does wherever it is the
    general [ScreepsReturnCode].  The operations listed in the statement
    are left aside; of [Creep.drop] it holds that its declared return type
    allows [OK], [ERR_NOT_OWNER], [ERR_BUSY] and
    [ERR_NOT_ENOUGH_RESOURCES]. *)
Theorem documented_codes_are_declared :
  Forall (fun om : string * member =>
            (om.1, m_name om.2) ∉
              [ ("Creep", "drop"); ("Creep", "generateSafeMode");
                ("Creep", "move"); ("Flag", "setPosition");
                ("PowerCreep", "drop"); ("PowerCreep", "move");
                ("Room", "createFlag"); ("Room", "lookForAt");
                ("StructureRampart", "setPublic") ] ->
            Forall (fun a => allows (ret_of om.2) a = true) (doc_codes om.2))
         operations /\
  Forall (fun om : string * member =>
            doc_of om.2 <> Silent ->
            ret_of om.2 = union_of ScreepsReturnCode ->
            literals (doc_codes om.2) ⊆ literals (ret_of om.2) /\
            ~ literals (ret_of om.2) ⊆ literals (doc_codes om.2))
         operations /\
  (exists m : member,
     find_operation "Creep" "drop" = Some m /\
     Forall (fun a => allows (ret_of m) a = true)
            (union_of (OK ∣ ERR_NOT_OWNER ∣ ERR_BUSY ∣ ERR_NOT_ENOUGH_RESOURCES))).
Proof.
  split; [compute_done |].
  split; [compute_done |].
  eexists. split; [reflexivity | compute_done].
Qed.

(** On [StructureLink.transferEnergy], declared [ScreepsReturnCode]. *)
Lemma documented_codes_are_declared_witness :
  exists m : member,
    find_operation "StructureLink" "transferEnergy" = Some m /\
    Forall (fun a => allows (ret_of m) a = true) (doc_codes m).
Proof.
  destruct documented_codes_are_declared as (H & _).
  rewrite Forall_forall in H.
  eexists. split; [reflexivity |].
  apply (H ("StructureLink", _)); compute_done.
Defined.

(** Where the statement of C5 fails: [Structure.destroy] documents [OK],
    [ERR_NOT_OWNER] and [ERR_BUSY], and is declared to return
    [ScreepsReturnCode], which allows twelve more values. *)
Lemma documented_codes_counterexample :
  exists m : member,
    ("Structure", m) ∈ operations /\
    m_name m = "destroy" /\
    m_line m = 5792 /\
    doc_of m = OneOf [OK; ERR_NOT_OWNER; ERR_BUSY] /\
    ret_of m = union_of ScreepsReturnCode /\
    ~ (forall z : Z, z ∈ literals (ret_of m) <-> z ∈ literals (doc_codes m)).
Proof.
  exists (method 5792 "destroy" ScreepsReturnCode (OneOf [OK; ERR_NOT_OWNER; ERR_BUSY]) false).
  split; [compute_done |].
  do 4 (split; [reflexivity |]).
  intros H. specialize (H (-2)). revert H. compute_done.
Qed.

(** ** Where a declaration and its documentation disagree

    The operations left aside above. *)

(** [StructureRampart.setPublic] documents [OK] and [ERR_NOT_OWNER] and is
    declared to return [undefined]. *)
Lemma setPublic_declared_undefined :
  exists m : member,
    find_operation "StructureRampart" "setPublic" = Some m /\
    m_line m = 6151 /\
    doc_of m = OneOf [OK; ERR_NOT_OWNER] /\
    ret_of m = [AUndefined] /\
    Forall (fun a => allows (ret_of m) a = false) (doc_codes m).
Proof. eexists. split; [reflexivity |]. repeat split; compute_done. Qed.

(** [Creep.drop] documents [ERR_INVALID_ARGS], which its declared return
    type does not admit; so does [PowerCreep.drop]. *)
Lemma drop_omits_invalid_args :
  exists m m' : member,
    find_operation "Creep" "drop" = Some m /\
    m_line m = 1294 /\
    find_operation "PowerCreep" "drop" = Some m' /\
    m_line m' = 4058 /\
    literals (doc_codes m) = [0; -1; -4; -6; -10] /\
    literals (ret_of m) = [0; -1; -4; -6] /\
    doc_codes m' = doc_codes m /\
    ret_of m' = ret_of m.
Proof. eexists _, _. split; [reflexivity |]. by repeat split. Qed.

(** The documented codes that the declared return type does not admit,
    operation by operation. *)
Lemma undeclared_documented_codes :
  omap (fun om : string * member =>
          match filter (fun a => allows (ret_of om.2) a = false) (doc_codes om.2) with
          | [] => None
          | l => Some (om.1, m_name om.2, m_line om.2, literals l)
          end)
       operations =
  [ ("StructureRampart", "setPublic", 6151, [0; -1]);
    ("Creep", "drop", 1294, [-10]);
    ("Creep", "generateSafeMode", 1308, [-6]);
    ("Creep", "move", 1370, [-9; -10]);
    ("Flag", "setPosition", 1728, [-7]);
    ("Flag", "setPosition", 1736, [-7]);
    ("PowerCreep", "drop", 4058, [-10]);
    ("PowerCreep", "move", 4083, [-9; -10]);
    ("Room", "createFlag", 5155, [-8]);
    ("Room", "createFlag", 5179, [-8]);
    ("Room", "lookForAt", 5259, [-10]);
    ("Room", "lookForAt", 5267, [-10]) ].
Proof. reflexivity. Qed.

(** * Further properties

    Properties of declarations that the statements above do not reach:
    the edge cases of the store methods, the structure hierarchy at
    unions of tags, the maps keyed by constants, and the tables of game
    constants. *)

(** ** Stores *)

Lemma flat_map_ext_elem {A B : Type} (f g : A -> list B) (l : list A) :
  (forall a, a ∈ l -> f a = g a) -> flat_map f l = flat_map g l.
Proof.
  induction l as [| a l IH]; intros H; [done |].
  cbn [flat_map]. rewrite (H a) by left. f_equal. apply IH.
  intros b Hb. apply H. by right.
Qed.

Lemma assignable_literals_undefined a :
  assignable [a] [AUndefined] = bool_decide (a = AUndefined).
Proof.
  unfold assignable. cbn [forallb existsb].
  rewrite orb_false_r, andb_true_r. by destruct a.
Qed.

Section store_calls.

Local Abbreviation by_resource :=
  (TCond (TVar "R") undefined
     (TCond ResourceConstant (TVar "POSSIBLE_RESOURCES") number null)
     (TCond (TVar "R") (TVar "POSSIBLE_RESOURCES") number null)).

(** The argument-dependent part, for an argument whose type is a union
    without [undefined]: the conditional type distributes over the
    members of the argument. *)
Lemma by_resource_distributes (ρ : env) :
  AUndefined ∉ env_get ρ "R" ->
  Forall literal (env_get ρ "POSSIBLE_RESOURCES") ->
  members ρ by_resource =
  flat_map (fun a => if bool_decide (a ∈ env_get ρ "POSSIBLE_RESOURCES")
                     then [ANumber] else [ANull])
           (env_get ρ "R").
Proof.
  intros HR HP. rewrite members_cond_var.
  apply flat_map_ext_elem. intros a Ha.
  cbv zeta. change (members _ undefined) with [AUndefined].
  assert (Hu : assignable [a] [AUndefined] = false).
  { rewrite assignable_literals_undefined. apply bool_decide_eq_false_2.
    intros ->. done. }
  rewrite Hu. rewrite members_cond_var, env_get_here. cbn [flat_map].
  cbv zeta. cbn [members]. rewrite !env_get_next by done.
  rewrite assignable_literals by done. rewrite app_nil_r.
  by destruct (bool_decide _).
Qed.

(** The calls with an argument, on a store whose possible resources are
    resource constants. *)
Lemma call_used_distributes st (R : ty) :
  union_of (POSSIBLE_RESOURCES st) ⊆ union_of ResourceConstant ->
  AUndefined ∉ union_of R ->
  call_type st StoreBase.getUsedCapacity (Some R) =
  flat_map (fun a => if bool_decide (a ∈ union_of (POSSIBLE_RESOURCES st))
                     then [ANumber] else [ANull])
           (union_of R).
Proof.
  intros HP HR. rewrite call_used.
  rewrite by_resource_distributes; [done | done |].
  exact (literal_subseteq _ _ HP ResourceConstant_literal).
Qed.

Lemma call_limited_distributes st (R : ty) :
  union_of (POSSIBLE_RESOURCES st) ⊆ union_of ResourceConstant ->
  AUndefined ∉ union_of R ->
  union_of (UNLIMITED_STORE st) = [AFalse] ->
  call_type st StoreBase.getCapacity (Some R) =
    call_type st StoreBase.getUsedCapacity (Some R) /\
  call_type st StoreBase.getFreeCapacity (Some R) =
    call_type st StoreBase.getUsedCapacity (Some R).
Proof.
  intros HP HR HU. rewrite call_used_distributes by done.
  destruct (call_limited st (Some R) HU) as [-> ->].
  rewrite by_resource_distributes; [done | done |].
  exact (literal_subseteq _ _ HP ResourceConstant_literal).
Qed.

Lemma call_no_argument (ρ : env) :
  env_get ρ "R" = [AUndefined] ->
  members ρ by_resource =
  if assignable (union_of ResourceConstant) (env_get ρ "POSSIBLE_RESOURCES")
  then [ANumber] else [ANull].
Proof.
  intros HR.
  rewrite members_cond_var, HR. cbn [flat_map]. rewrite app_nil_r.
  cbv zeta. change (members _ undefined) with [AUndefined].
  change (assignable [AUndefined] [AUndefined]) with true. cbv iota.
  change (members ?ρ' (TCond ResourceConstant (TVar "POSSIBLE_RESOURCES") number null))
    with (if assignable (union_of ResourceConstant) (env_get ρ' "POSSIBLE_RESOURCES")
          then [ANumber] else [ANull]).
  by rewrite env_get_next by done.
Qed.

End store_calls.

(** X1.  The return type of a store method distributes over the type
    argument [R] of the method.  For a store whose possible resources are
    resource constants and an [R] that is a union of resource constants
    (so [undefined] is no member of it: this is the type of an argument
    that is a resource constant, or one of several),
    [getUsedCapacity(resource)] is [number] for the members of [R] the
    store can hold and [null] for the others: the declared type has the
    member [number] exactly when some member of [R] is a possible
    resource, [null] exactly when some member is not, and no other
    member.  On a limited store [getCapacity] and [getFreeCapacity] have
    the same type.  Nothing is said of an argument whose type has the
    member [undefined]. *)
Theorem store_call_union_argument (st : store_ty) (R : ty) :
  union_of (POSSIBLE_RESOURCES st) ⊆ union_of ResourceConstant ->
  union_of R ⊆ union_of ResourceConstant ->
  let P := union_of (POSSIBLE_RESOURCES st) in
  let A := call_type st StoreBase.getUsedCapacity (Some R) in
  (ANumber ∈ A <-> exists a, a ∈ union_of R /\ a ∈ P) /\
  (ANull ∈ A <-> exists a, a ∈ union_of R /\ a ∉ P) /\
  (forall x, x ∈ A -> x = ANumber \/ x = ANull) /\
  (union_of (UNLIMITED_STORE st) = [AFalse] ->
   call_type st StoreBase.getCapacity (Some R) = A /\
   call_type st StoreBase.getFreeCapacity (Some R) = A).
Proof.
  intros HP HRC P A.
  assert (HR : AUndefined ∉ union_of R).
  { intros Hu. apply HRC in Hu. revert Hu. compute_done. }
  assert (HA : forall x, x ∈ A <->
            exists a, a ∈ union_of R /\
                      x = if bool_decide (a ∈ P) then ANumber else ANull).
  { intros x. unfold A. rewrite call_used_distributes by done.
    rewrite list_elem_of_In, in_flat_map. split.
    - intros (a & Ha & Hx). exists a. split; [by apply list_elem_of_In |].
      fold P in Hx. destruct (bool_decide (a ∈ P)); apply list_elem_of_In in Hx;
        by apply list_elem_of_singleton in Hx.
    - intros (a & Ha & ->). exists a. split; [by apply list_elem_of_In |].
      fold P. destruct (bool_decide (a ∈ P)); apply list_elem_of_In; by left. }
  split; [| split; [| split]].
  - rewrite HA. split.
    + intros (a & Ha & Hx). exists a. split; [done |].
      destruct (bool_decide_reflect (a ∈ P)); [done | discriminate].
    + intros (a & Ha & Hin). exists a. split; [done |].
      by rewrite bool_decide_eq_true_2.
  - rewrite HA. split.
    + intros (a & Ha & Hx). exists a. split; [done |].
      destruct (bool_decide_reflect (a ∈ P)); [discriminate | done].
    + intros (a & Ha & Hin). exists a. split; [done |].
      by rewrite bool_decide_eq_false_2.
  - intros x Hx. apply HA in Hx as (a & _ & ->).
    destruct (bool_decide _); [by left | by right].
  - intros HU. by apply call_limited_distributes.
Qed.

Lemma store_call_union_argument_witness :
  union_of (POSSIBLE_RESOURCES (Store RESOURCE_ENERGY false_))
    ⊆ union_of ResourceConstant /\
  union_of ResourceConstant ⊆ union_of ResourceConstant /\
  ANumber ∈ call_type (Store RESOURCE_ENERGY false_) StoreBase.getUsedCapacity
              (Some ResourceConstant) /\
  ANull ∈ call_type (Store RESOURCE_ENERGY false_) StoreBase.getUsedCapacity
            (Some ResourceConstant).
Proof.
  assert (H1 : union_of (POSSIBLE_RESOURCES (Store RESOURCE_ENERGY false_))
                 ⊆ union_of ResourceConstant) by compute_done.
  assert (H2 : union_of ResourceConstant ⊆ union_of ResourceConstant) by done.
  split; [exact H1 |]. split; [exact H2 |].
  destruct (store_call_union_argument (Store RESOURCE_ENERGY false_)
              ResourceConstant H1 H2) as (Hn & Hz & _).
  split.
  - apply Hn. exists (AStr "energy"). split; compute_done.
  - apply Hz. exists (AStr "power"). split; compute_done.
Defined.

(** The capacity methods, for any [UNLIMITED_STORE]. *)
Lemma call_capacity_unfold st (R : option ty) :
  let ρ := [("R", from_option union_of [AUndefined] R);
            ("POSSIBLE_RESOURCES", union_of (POSSIBLE_RESOURCES st));
            ("UNLIMITED_STORE", union_of (UNLIMITED_STORE st))] in
  let A := flat_map
             (fun u => if assignable [u] [ATrue] then [ANull]
                       else members (("UNLIMITED_STORE", [u]) :: ρ)
                              (TCond (TVar "R") undefined
                                 (TCond ResourceConstant (TVar "POSSIBLE_RESOURCES")
                                    number null)
                                 (TCond (TVar "R") (TVar "POSSIBLE_RESOURCES")
                                    number null)))
             (union_of (UNLIMITED_STORE st)) in
  call_type st StoreBase.getCapacity R = A /\
  call_type st StoreBase.getFreeCapacity R = A.
Proof. split; reflexivity. Qed.

(** X2.  A resource the store cannot hold.  For a resource constant [k]
    outside the possible resources of a store, the three methods are
    declared to return [null] and nothing else, limited store or not; so
    every snapshot with the declared types answers [null] to
    [getCapacity(k)], [getUsedCapacity(k)] and [getFreeCapacity(k)]. *)
Theorem store_unsupported_resource (st : store_ty) (s : store_snapshot) (k : string) :
  union_of (POSSIBLE_RESOURCES st) ⊆ union_of ResourceConstant ->
  AStr k ∈ union_of ResourceConstant ->
  AStr k ∉ union_of (POSSIBLE_RESOURCES st) ->
  conforms st s ->
  call_type st StoreBase.getUsedCapacity (Some (TStr k)) = [ANull] /\
  (forall x, x ∈ call_type st StoreBase.getCapacity (Some (TStr k)) -> x = ANull) /\
  (forall x, x ∈ call_type st StoreBase.getFreeCapacity (Some (TStr k)) -> x = ANull) /\
  snap_getCapacity s (Some k) = VNull /\
  snap_getUsedCapacity s (Some k) = VNull /\
  snap_getFreeCapacity s (Some k) = VNull.
Proof.
  intros HP Hk Hout Hs.
  pose proof (literal_subseteq _ _ HP ResourceConstant_literal) as HlP.
  assert (Hused : call_type st StoreBase.getUsedCapacity (Some (TStr k)) = [ANull]).
  { rewrite call_used_distributes; [| done | compute_done].
    change (union_of (TStr k)) with [AStr k]. cbn [flat_map].
    by rewrite bool_decide_eq_false_2. }
  assert (Hcap : forall x,
             x ∈ flat_map
                   (fun u => if assignable [u] [ATrue] then [ANull]
                             else members
                                    (("UNLIMITED_STORE", [u])
                                     :: [("R", from_option union_of [AUndefined]
                                                 (Some (TStr k)));
                                         ("POSSIBLE_RESOURCES",
                                          union_of (POSSIBLE_RESOURCES st));
                                         ("UNLIMITED_STORE",
                                          union_of (UNLIMITED_STORE st))])
                                    (TCond (TVar "R") undefined
                                       (TCond ResourceConstant
                                          (TVar "POSSIBLE_RESOURCES") number null)
                                       (TCond (TVar "R") (TVar "POSSIBLE_RESOURCES")
                                          number null)))
                   (union_of (UNLIMITED_STORE st)) ->
             x = ANull).
  { intros x. rewrite list_elem_of_In, in_flat_map. intros (u & _ & Hx).
    apply list_elem_of_In in Hx.
    destruct (assignable [u] [ATrue]); [by apply list_elem_of_singleton in Hx |].
    rewrite by_resource_distributes in Hx.
    - change (env_get (_ :: ("R", ?r) :: _) "R") with r in Hx.
      change (env_get (_ :: _ :: ("POSSIBLE_RESOURCES", ?p) :: _)
                "POSSIBLE_RESOURCES") with p in Hx.
      change (from_option union_of [AUndefined] (Some (TStr k))) with [AStr k] in Hx.
      cbn [flat_map] in Hx.
      rewrite bool_decide_eq_false_2 in Hx by done.
      by apply list_elem_of_singleton in Hx.
    - compute_done.
    - done. }
  destruct (call_capacity_unfold st (Some (TStr k))) as [Ec Ef].
  cbv zeta in Ec, Ef.
  split; [done |]. split; [by rewrite Ec |]. split; [by rewrite Ef |].
  destruct (Hs (Some k) Hk) as (Hc & Hu & Hf).
  change (TStr <$> Some k) with (Some (TStr k)) in Hc, Hu, Hf.
  split; [| split].
  - apply has_type_elem in Hc as (a & Ha & Hv). rewrite Ec in Ha.
    apply Hcap in Ha as ->. by destruct (snap_getCapacity s (Some k)).
  - rewrite Hused in Hu. by apply has_type_null.
  - apply has_type_elem in Hf as (a & Ha & Hv). rewrite Ef in Ha.
    apply Hcap in Ha as ->. by destruct (snap_getFreeCapacity s (Some k)).
Qed.

Lemma spawn_store_conforms : conforms (Store RESOURCE_ENERGY false_) spawn_store.
Proof.
  intros [k |] Hk.
  - change (TStr <$> Some k) with (Some (TStr k)).
    assert (HP : union_of (POSSIBLE_RESOURCES (Store RESOURCE_ENERGY false_))
                   ⊆ union_of ResourceConstant) by compute_done.
    assert (HR : AUndefined ∉ union_of (TStr k)) by compute_done.
    destruct (call_limited_distributes (Store RESOURCE_ENERGY false_) (TStr k)
                HP HR eq_refl) as [-> ->].
    rewrite call_used_distributes by done.
    change (union_of (TStr k)) with [AStr k]. cbn [flat_map].
    change (union_of (POSSIBLE_RESOURCES (Store RESOURCE_ENERGY false_)))
      with [AStr "energy"].
    cbn [spawn_store snap_getCapacity snap_getUsedCapacity snap_getFreeCapacity].
    destruct (decide (k = "energy")) as [-> | Hne]; [done |].
    rewrite (bool_decide_eq_false_2 (k = "energy")) by done.
    rewrite (bool_decide_eq_false_2 (AStr k ∈ [AStr "energy"])); [done |].
    intros H. apply list_elem_of_singleton in H. congruence.
  - done.
Qed.

Lemma store_unsupported_resource_witness :
  union_of (POSSIBLE_RESOURCES (Store RESOURCE_ENERGY false_))
    ⊆ union_of ResourceConstant /\
  AStr "power" ∈ union_of ResourceConstant /\
  (AStr "power" ∉ union_of (POSSIBLE_RESOURCES (Store RESOURCE_ENERGY false_))) /\
  conforms (Store RESOURCE_ENERGY false_) spawn_store /\
  snap_getCapacity spawn_store (Some "power") = VNull /\
  snap_getUsedCapacity spawn_store (Some "power") = VNull /\
  snap_getFreeCapacity spawn_store (Some "power") = VNull.
Proof.
  assert (H1 : union_of (POSSIBLE_RESOURCES (Store RESOURCE_ENERGY false_))
                 ⊆ union_of ResourceConstant) by compute_done.
  assert (H2 : AStr "power" ∈ union_of ResourceConstant) by compute_done.
  assert (H3 : AStr "power" ∉ union_of (POSSIBLE_RESOURCES (Store RESOURCE_ENERGY false_)))
    by compute_done.
  do 3 (split; [done |]). split; [exact spawn_store_conforms |].
  exact (proj2 (proj2 (proj2
           (store_unsupported_resource (Store RESOURCE_ENERGY false_) spawn_store
              "power" H1 H2 H3 spawn_store_conforms)))).
Defined.

(** X3.  The calls without argument.  [getUsedCapacity()] is [number] on a
    store that accepts every resource and [null] on any other store; so
    are [getCapacity()] and [getFreeCapacity()] on a limited store, and on
    an unlimited store these two are [null]. *)
Theorem store_call_no_argument (st : store_ty) :
  call_type st StoreBase.getUsedCapacity None =
    (if general_purpose st then [ANumber] else [ANull]) /\
  (union_of (UNLIMITED_STORE st) = [AFalse] ->
   call_type st StoreBase.getCapacity None =
     (if general_purpose st then [ANumber] else [ANull]) /\
   call_type st StoreBase.getFreeCapacity None =
     (if general_purpose st then [ANumber] else [ANull])) /\
  (union_of (UNLIMITED_STORE st) = [ATrue] ->
   call_type st StoreBase.getCapacity None = [ANull] /\
   call_type st StoreBase.getFreeCapacity None = [ANull]).
Proof.
  split; [| split].
  - rewrite call_used. by rewrite call_no_argument.
  - intros HU. destruct (call_limited st None HU) as [-> ->].
    by rewrite call_no_argument.
  - apply call_unlimited.
Qed.

(** X4.  The keys of a store are the three methods of [StoreBase] and the
    resource constants, each declared once.  For a store whose possible
    resources are resource constants, a key is declared by [Store<P, U>]
    exactly when it is [getCapacity], [getUsedCapacity] or
    [getFreeCapacity], which [StoreBase] declares, or a resource constant,
    which the two mapped types declare; no method name is a resource
    constant; the second mapped type covers the resource constants that
    are not possible resources, and no key is declared by both mapped
    types. *)
Theorem store_keys_are_the_resources (st : store_ty) (k : atom) :
  union_of (POSSIBLE_RESOURCES st) ⊆ union_of ResourceConstant ->
  let P := union_of (POSSIBLE_RESOURCES st) in
  let rest := Exclude (union_of ResourceConstant) P in
  let methods := [AStr "getCapacity"; AStr "getUsedCapacity"; AStr "getFreeCapacity"] in
  (Store_declares st k <-> k ∈ methods \/ k ∈ union_of ResourceConstant) /\
  (is_Some (StoreBase_method k) <-> k ∈ methods) /\
  (is_Some (mapped P number k) \/ is_Some (mapped rest (TNum 0) k)
   <-> k ∈ union_of ResourceConstant) /\
  ~ (k ∈ methods /\ k ∈ union_of ResourceConstant) /\
  (k ∈ rest <-> k ∈ union_of ResourceConstant /\ k ∉ P) /\
  ~ (is_Some (mapped P number k) /\ is_Some (mapped rest (TNum 0) k)).
Proof.
  intros HP P rest methods.
  pose proof (literal_subseteq _ _ HP ResourceConstant_literal) as HlP.
  assert (Hrest : k ∈ rest <-> k ∈ union_of ResourceConstant /\ k ∉ P).
  { unfold rest. rewrite elem_of_Exclude, assignable_literals by done.
    by rewrite bool_decide_eq_false. }
  assert (Hm : is_Some (StoreBase_method k) <-> k ∈ methods).
  { unfold methods. rewrite !elem_of_cons, elem_of_nil.
    destruct k as [| s | | | | | | | |]; cbn [StoreBase_method];
      try (split; [by intros [? ?] | by intros [? | [? | [? | []]]]]).
    repeat case_bool_decide; subst.
    - split; [by left | by eexists].
    - split; [by right; left | by eexists].
    - split; [by right; right; left | by eexists].
    - split; [by intros [? ?] |].
      intros [E | [E | [E | []]]]; by injection E. }
  assert (Hi : is_Some (mapped P number k) \/ is_Some (mapped rest (TNum 0) k)
               <-> k ∈ union_of ResourceConstant).
  { unfold mapped.
    destruct (bool_decide_reflect (k ∈ P)) as [HkP | HkP];
      destruct (bool_decide_reflect (k ∈ rest)) as [Hkr | Hkr].
    + split; [intros _; by apply HP | by left; eexists].
    + split; [intros _; by apply HP | by left; eexists].
    + split; [intros _; by apply Hrest | by right; eexists].
    + split; [by intros [[? ?] | [? ?]] | intros Hk; destruct Hkr; by apply Hrest]. }
  split; [| split; [done | split; [done | split; [| split; [done |]]]]].
  - unfold Store_declares. cbv zeta. fold P. fold rest. by rewrite Hm, Hi.
  - intros [H1 H2]. revert H2. unfold methods in H1.
    apply elem_of_cons in H1 as [-> | H1]; [compute_done |].
    apply elem_of_cons in H1 as [-> | H1]; [compute_done |].
    apply elem_of_cons in H1 as [-> | H1]; [compute_done |].
    by apply elem_of_nil in H1.
  - unfold mapped. intros [H1 H2].
    destruct (bool_decide_reflect (k ∈ P)) as [HkP | HkP]; [| by destruct H1].
    destruct (bool_decide_reflect (k ∈ rest)) as [Hkr | Hkr]; [| by destruct H2].
    apply Hrest in Hkr as [_ Hkr]. done.
Qed.

Lemma store_keys_are_the_resources_witness :
  union_of (POSSIBLE_RESOURCES (Store (RESOURCE_ENERGY ∣ RESOURCE_POWER) false_))
    ⊆ union_of ResourceConstant /\
  Store_declares (Store (RESOURCE_ENERGY ∣ RESOURCE_POWER) false_) (AStr "getCapacity") /\
  Store_declares (Store (RESOURCE_ENERGY ∣ RESOURCE_POWER) false_) (AStr "power") /\
  ~ Store_declares (Store (RESOURCE_ENERGY ∣ RESOURCE_POWER) false_) (AStr "hits").
Proof.
  assert (H1 : union_of (POSSIBLE_RESOURCES (Store (RESOURCE_ENERGY ∣ RESOURCE_POWER) false_))
                 ⊆ union_of ResourceConstant) by compute_done.
  split; [exact H1 |].
  split; [| split].
  - apply (store_keys_are_the_resources _ _ H1). left. compute_done.
  - apply (store_keys_are_the_resources _ _ H1). right. compute_done.
  - intros Hd. apply (store_keys_are_the_resources _ _ H1) in Hd.
    revert Hd. compute_done.
Defined.




(** X6.  The structures with a store.  [AnyStoreStructure] is made of
    concrete structures, and a member of [AnyStructure] is in it exactly
    when its interface declares a [store].  Among the interfaces embedded,
    the stores of [Ruin] and [Tombstone] are unlimited and all the others
    are limited.  The structures whose store accepts every resource are
    the factory, the storage, the terminal and the container. *)
Theorem store_structures_exact :
  union_of AnyStoreStructure ⊆ union_of AnyStructure /\
  Forall (fun a => a ∈ union_of AnyStoreStructure <-> has_store a = true)
         (union_of AnyStructure) /\
  Forall (fun d =>
            Forall (fun st =>
                      (union_of (UNLIMITED_STORE st) = [ATrue] <->
                       i_name d ∈ ["Ruin"; "Tombstone"]) /\
                      (union_of (UNLIMITED_STORE st) = [AFalse] <->
                       i_name d ∉ ["Ruin"; "Tombstone"]))
                   (stores_of d))
         interfaces /\
  omap (fun a => match a with
                 | ARef n => st ← store_of n;
                             if general_purpose st then Some n else None
                 | _ => None
                 end)
       (union_of AnyStoreStructure) =
    ["StructureFactory"; "StructureStorage"; "StructureTerminal"; "StructureContainer"].
Proof.
  split.
  compute_done.
  split.
  compute_done.
  split.
  compute_done.
  reflexivity.
Qed.

(** X7.  The deprecated properties and what they are documented to stand
    for.  Each property documented as "An alias for .store[...]" or "An
    alias for .store.getCapacity(...)" is declared [number], on the line
    the table records, and the store expression of the documentation,
    typed on the [store] of the same interface, is [number] as well (not
    [null], and not the literal [0] that a store gives for a resource it
    cannot hold).  The two mineral aliases of a lab are apart: they are
    keyed by [lab.mineralType], which is declared with the member [null];
    [null] is no key of the store, so [lab.store[lab.mineralType]] has no
    type as a whole, and at every other member [k] of the type of
    [mineralType] both [store[k]] and [store.getCapacity(k)] are
    [number]. *)
Theorem deprecated_aliases_are_numbers :
  Forall (fun e : string * string * Z * alias =>
            let '(n, f, l, a) := e in
            (m_line <$> (d ← find_interface n; find_member d f)) = Some l /\
            member_of n None f = Some (RProp false [ANumber]) /\
            ((n, f) ∉ [("StructureLab", "mineralAmount");
                       ("StructureLab", "mineralCapacity")] ->
             remove_dups <$> alias_type n a = Some [ANumber]))
         deprecated_aliases /\
  (exists (st : store_ty) (K : list atom),
     store_of "StructureLab" = Some st /\
     key_type "StructureLab" (ValueOf "mineralType") = Some K /\
     ANull ∈ K /\
     Store_index st ANull = None /\
     alias_type "StructureLab" (StoreAt (ValueOf "mineralType")) = None /\
     Forall (fun k => k <> ANull ->
                      Store_index st k = Some [ANumber] /\
                      call_type st StoreBase.getCapacity (Some (TAtom k)) = [ANumber])
            K).
Proof.
  split; [compute_done |].
  eexists _, _. split; [reflexivity |]. split; [reflexivity |].
  split; [compute_done |]. split; [reflexivity |]. split; [reflexivity | compute_done].
Qed.

(** ** Structures *)

(** The [owner] of [OwnedStructure<T>] for any type argument: the
    conditional type distributes over the members of [T]. *)
Lemma owner_of_distributes (T : ty) :
  owner_of T =
  Some (flat_map (fun a => if bool_decide (a = AStr "controller")
                           then [ARef "Owner"; AUndefined] else [ARef "Owner"])
                 (union_of T)).
Proof.
  unfold owner_of, member_of.
  change (lookup depth "OwnedStructure" (union_of <$> Some T) "owner")
    with (Some (RProp false
            (members [("T", union_of T)]
               (TCond (TVar "T") STRUCTURE_CONTROLLER
                      (TRef "Owner" ∣ undefined) (TRef "Owner"))))).
  f_equal. rewrite members_cond_var, env_get_here.
  apply flat_map_ext_elem. intros a _. cbv zeta.
  change (members _ STRUCTURE_CONTROLLER) with [AStr "controller"].
  rewrite assignable_literals by (by repeat constructor).
  change (members _ (TRef "Owner" ∣ undefined)) with [ARef "Owner"; AUndefined].
  change (members _ (TRef "Owner")) with [ARef "Owner"].
  apply (f_equal (fun b : bool => if b then _ else _)).
  apply eq_true_iff_eq. by rewrite !bool_decide_eq_true, list_elem_of_singleton.
Qed.

(** X8.  The [owner] of [OwnedStructure<T>] for any type argument.  The
    conditional type distributes over the members of [T]: the declared
    type has no other member than [Owner] and [undefined]; it allows
    [undefined] exactly when the tag of the controller is a member of
    [T], has the member [Owner] exactly when [T] is not empty, and is
    [never] for [T = never]. *)
Theorem owner_of_union (T : ty) :
  exists A : list atom,
    owner_of T = Some A /\
    (forall x, x ∈ A -> x = ARef "Owner" \/ x = AUndefined) /\
    (AUndefined ∈ A <-> AStr "controller" ∈ union_of T) /\
    (ARef "Owner" ∈ A <-> union_of T <> []) /\
    (A = [] <-> union_of T = []).
Proof.
  eexists. split; [apply owner_of_distributes |].
  induction (union_of T) as [| a U IH]; [by repeat split; try inversion 1 |].
  destruct IH as (Hall & Hu & Ho & He).
  cbn [flat_map].
  destruct (bool_decide_reflect (a = AStr "controller")) as [-> | Hne].
  - split; [| split; [| split; [| done]]].
    + intros x. rewrite elem_of_app. intros [Hx | Hx]; [| by apply Hall].
      apply elem_of_cons in Hx as [-> | Hx]; [by left |].
      apply list_elem_of_singleton in Hx as ->. by right.
    + split; intros _; [by left | by right; left].
    + split; intros _; [done | by left].
  - split; [| split; [| split; [| done]]].
    + intros x. rewrite elem_of_app. intros [Hx | Hx]; [| by apply Hall].
      apply list_elem_of_singleton in Hx as ->. by left.
    + cbn [app]. rewrite !elem_of_cons. rewrite Hu. split.
      * intros [? | ?]; [done | by right].
      * intros [? | ?]; [congruence | by right].
    + split; intros _; [done | by left].
Qed.

(** X9.  Concrete structures keep the members of the base.  Every member
    of [AnyStructure] is an object type, and each member of [Structure]
    (those inherited from [RoomObject] included, [prototype] and [id]
    aside) has on it the type it has on [Structure<T>] for [T] its own
    [structureType]: no redeclaration changes a type.  The [id] is
    declared [Id<this>] on [Structure] and on every concrete structure,
    which is a type of its own on each: on no concrete structure is it the
    type it is on [Structure<T>].  The [room] of every concrete structure
    is [Room], whereas the [room] of a [RoomObject], a [Ruin] or a
    [Tombstone] is [Room | undefined]. *)
Theorem structures_keep_base_members :
  length (object_names (union_of AnyStructure)) = length (union_of AnyStructure) /\
  Forall (fun a =>
            Forall (fun f => f ∉ ["prototype"; "id"] -> as_in_Structure a f)
                   (members_of "Structure"))
         (union_of AnyStructure) /\
  Forall (fun n => member_of n None "id" = Some (RProp false [ARef "Id<this>"]))
         ("Structure" :: object_names (union_of AnyStructure)) /\
  Forall (fun a => ~ as_in_Structure a "id") (union_of AnyStructure) /\
  Forall (fun n => member_of n None "room" = Some (RProp false [ARef "Room"]))
         (object_names (union_of AnyStructure)) /\
  Forall (fun n => member_of n None "room" = Some (RProp false [ARef "Room"; AUndefined]))
         ["RoomObject"; "Ruin"; "Tombstone"].
Proof.
  split; [reflexivity |].
  split.
  compute_done.
  split.
  compute_done.
  split.
  compute_done.
  split.
  compute_done.
  compute_done.
Qed.

(** The property of [ConcreteStructureMap] at one key. *)
Lemma ConcreteStructure_at_keys (T : ty) :
  ConcreteStructure T = flat_map (fun k => ConcreteStructure (TAtom k)) (union_of T).
Proof.
  unfold ConcreteStructure. apply flat_map_ext_elem. intros k _.
  change (union_of (TAtom k)) with [k]. cbn [flat_map]. by rewrite app_nil_r.
Qed.

Lemma ConcreteStructure_at_tag :
  Forall (fun k => ConcreteStructure (TAtom k) <> [] /\
                   Forall (fun a => structureType_of a = Some [k])
                          (ConcreteStructure (TAtom k)))
         (union_of StructureConstant).
Proof. compute_done. Qed.

Lemma ConcreteStructure_outside (k : atom) :
  k ∉ union_of StructureConstant -> ConcreteStructure (TAtom k) = [].
Proof.
  intros Hk. unfold ConcreteStructure. change (union_of (TAtom k)) with [k].
  cbn [flat_map]. rewrite app_nil_r. unfold ConcreteStructureMap.
  cbn [flat_map fst snd].
  repeat (case_bool_decide as E;
          [ exfalso; apply Hk; vm_compute in E; injection E as <-; compute_done
          | cbn [app]; clear E ]).
  done.
Qed.

(** X10.  [ConcreteStructure<T>] at a union of tags.  Every member of
    [ConcreteStructure<T>] is an interface whose [structureType] is a
    structure constant of [T]; every structure constant of [T] is the
    [structureType] of some member; a [T] without structure constant gives
    [never]. *)
Theorem concrete_structure_of_union (T : ty) :
  (forall a, a ∈ ConcreteStructure T ->
     exists k, k ∈ union_of T /\ k ∈ union_of StructureConstant /\
               structureType_of a = Some [k]) /\
  (forall k, k ∈ union_of T -> k ∈ union_of StructureConstant ->
     exists a, a ∈ ConcreteStructure T /\ structureType_of a = Some [k]) /\
  ((forall k, k ∈ union_of T -> k ∉ union_of StructureConstant) ->
   ConcreteStructure T = []).
Proof.
  pose proof ConcreteStructure_at_tag as Htag. rewrite Forall_forall in Htag.
  rewrite ConcreteStructure_at_keys.
  split; [| split].
  - intros a. rewrite list_elem_of_In, in_flat_map. intros (k & Hk & Ha).
    apply list_elem_of_In in Hk, Ha. exists k. split; [done |].
    destruct (decide (k ∈ union_of StructureConstant)) as [Hin | Hout].
    + split; [done |]. destruct (Htag k Hin) as [_ Hall].
      rewrite Forall_forall in Hall. by apply Hall.
    + rewrite ConcreteStructure_outside in Ha by done. by apply elem_of_nil in Ha.
  - intros k HkT Hk. destruct (Htag k Hk) as [Hne Hall].
    destruct (ConcreteStructure (TAtom k)) as [| a l] eqn:E; [done |].
    exists a. split.
    + rewrite list_elem_of_In, in_flat_map. exists k.
      split; [by apply list_elem_of_In |]. rewrite E. by left.
    + by apply Forall_cons in Hall as [? _].
  - intros Hout. induction (union_of T) as [| k U IH]; [done |].
    cbn [flat_map]. rewrite ConcreteStructure_outside by (apply Hout; by left).
    apply IH. intros k' Hk'. apply Hout. by right.
Qed.

(** ** Return codes *)

Lemma return_codes_code_like : Forall code_like (union_of ScreepsReturnCode).
Proof. compute_done. Qed.

Lemma code_like_value (a : atom) (v : value) :
  code_like a -> inhabits v a = true -> exists q : Q, v = VNum q /\ (q <= 0)%Q.
Proof.
  destruct a as [z | | | | | | | | |]; try done. intros Hz Hv.
  apply inhabits_num in Hv as (q & -> & Hq). exists q. split; [done |].
  rewrite Hq. change 0%Q with (inject_Z 0). by rewrite <- Zle_Qle.
Qed.

Lemma payload_like_value (a : atom) (v : value) :
  payload_like a -> inhabits v a = true ->
  match v with VNum q => (0 < q)%Q | _ => True end.
Proof.
  destruct a as [z | | | | | | | | |]; try done; destruct v; try done.
  intros Hz Hv. apply (inhabits_num (VNum q)) in Hv as (q' & [= <-] & Hq).
  rewrite Hq. change 0%Q with (inject_Z 0). by rewrite <- Zlt_Qlt.
Qed.

(** X11.  A result is told apart from a return code by its value.  Every
    value of [ScreepsReturnCode] is a number that is zero or negative, and
    is zero exactly when it is [OK].  For every operation documented as
    returning a value or else a return code, a value of the part of the
    declared return type that is no return code ([Exclude<..., 
    ScreepsReturnCode>]) has the declared return type, is never a value of
    [ScreepsReturnCode], and where it is a number it is positive.  There
    are nine such signatures. *)
Theorem value_or_code_is_told_apart :
  (forall v : value,
     has_type v (union_of ScreepsReturnCode) = true ->
     exists q : Q, v = VNum q /\ (q <= 0)%Q /\
                   ((q == 0)%Q <-> has_type v (union_of OK) = true)) /\
  Forall (fun om : string * member =>
            value_or_codes om.2 = true ->
            forall v : value,
              has_type v (Exclude (ret_of om.2) (union_of ScreepsReturnCode)) = true ->
              has_type v (ret_of om.2) = true /\
              has_type v (union_of ScreepsReturnCode) = false /\
              (forall q : Q, v = VNum q -> (0 < q)%Q))
         operations /\
  length (filter (fun om : string * member => value_or_codes om.2 = true) operations) =
    9%nat.
Proof.
  assert (Hcodes : forall v : value,
             has_type v (union_of ScreepsReturnCode) = true ->
             exists q : Q, v = VNum q /\ (q <= 0)%Q).
  { intros v Hv. apply has_type_elem in Hv as (a & Ha & Hv).
    pose proof return_codes_code_like as H. rewrite Forall_forall in H.
    by apply (code_like_value a v); [apply H |]. }
  split; [| split; [| reflexivity]].
  - intros v Hv. destruct (Hcodes v Hv) as (q & -> & Hq). exists q.
    split; [done |]. split; [done |].
    change (has_type (VNum q) (union_of OK)) with (Qeq_bool q (inject_Z 0) || false).
    rewrite orb_false_r. symmetry. apply Qeq_bool_iff.
  - assert (Hp : Forall (fun om : string * member =>
                           value_or_codes om.2 = true ->
                           Forall payload_like
                                  (Exclude (ret_of om.2) (union_of ScreepsReturnCode)))
                        operations) by compute_done.
    apply (Forall_impl _ _ _ Hp). intros om Hom Hvoc v Hv.
    specialize (Hom Hvoc). rewrite Forall_forall in Hom.
    apply has_type_elem in Hv as (a & Ha & Hv).
    pose proof (payload_like_value a v (Hom a Ha) Hv) as Hpos.
    split; [| split].
    + apply has_type_elem. exists a. split; [| done].
      by apply elem_of_Exclude in Ha as [? _].
    + destruct (has_type v (union_of ScreepsReturnCode)) eqn:E; [| done].
      destruct (Hcodes v E) as (q & -> & Hq). exfalso.
      apply (Qlt_irrefl 0). by eapply Qlt_le_trans.
    + by intros q ->.
Qed.

Lemma atom_meet_literals (a b x : atom) :
  literal a -> literal b -> x ∈ atom_meet a b <-> a = b /\ x = a.
Proof.
  intros Ha Hb. unfold atom_meet. rewrite !atom_sub_literal by done.
  destruct (bool_decide_reflect (a = b)) as [-> | Hne].
  - rewrite list_elem_of_singleton. split; [by intros -> | by intros [_ ->]].
  - rewrite bool_decide_eq_false_2 by congruence.
    split; [intros Hx; by apply elem_of_nil in Hx | by intros [? _]].
Qed.

(** X12.  Intersecting [ScreepsReturnCode] with a union of return codes
    gives that union, as [Spawning.cancel] and [Spawning.setDirections]
    declare their results: for [T] within [ScreepsReturnCode], the members
    of [ScreepsReturnCode & T] are the members of [T]. *)
Theorem return_code_intersection (T : ty) :
  union_of T ⊆ union_of ScreepsReturnCode ->
  forall x : atom, x ∈ union_of (ScreepsReturnCode &&& T) <-> x ∈ union_of T.
Proof.
  intros HT x.
  assert (HlS : Forall literal (union_of ScreepsReturnCode)) by (by repeat constructor).
  pose proof (literal_subseteq _ _ HT HlS) as HlT.
  rewrite Forall_forall in HlS, HlT.
  change (union_of (ScreepsReturnCode &&& T))
    with (flat_map (fun a => flat_map (atom_meet a) (union_of T))
                   (union_of ScreepsReturnCode)).
  rewrite list_elem_of_In, in_flat_map. split.
  - intros (a & Ha & Hx). apply in_flat_map in Hx as (b & Hb & Hx).
    apply list_elem_of_In in Ha, Hb, Hx.
    apply atom_meet_literals in Hx as [-> ->]; [done | by apply HlS | by apply HlT].
  - intros Hx. exists x. split; [apply list_elem_of_In; by apply HT |].
    apply in_flat_map. exists x. split; [by apply list_elem_of_In |].
    apply list_elem_of_In. apply atom_meet_literals; [by apply HlT | by apply HlT | done].
Qed.

Lemma return_code_intersection_witness :
  union_of (OK ∣ ERR_NOT_OWNER ∣ ERR_INVALID_ARGS) ⊆ union_of ScreepsReturnCode /\
  (ANum (-10) ∈ union_of (ScreepsReturnCode &&& (OK ∣ ERR_NOT_OWNER ∣ ERR_INVALID_ARGS))) /\
  (ANum (-4) ∉ union_of (ScreepsReturnCode &&& (OK ∣ ERR_NOT_OWNER ∣ ERR_INVALID_ARGS))).
Proof.
  assert (H : union_of (OK ∣ ERR_NOT_OWNER ∣ ERR_INVALID_ARGS)
                ⊆ union_of ScreepsReturnCode) by compute_done.
  split; [exact H |]. split.
  - apply (return_code_intersection _ H). compute_done.
  - intros Hin. apply (return_code_intersection _ H) in Hin. revert Hin. compute_done.
Defined.

(** ** Maps keyed by constants *)

Section objects.

Context {V : Type}.

Lemma own_Some (ps : list (ty * V)) (k : atom) (v : V) :
  own ps k = Some v -> exists key, (key, v) ∈ ps /\ union_of key = [k].
Proof.
  induction ps as [| [key w] ps IH]; [done |]. cbn [own].
  case_bool_decide as E.
  - intros [= ->]. exists key. split; [by left | done].
  - intros H. destruct (IH H) as (key' & Hin & Hk). exists key'.
    split; [by right | done].
Qed.

Lemma get_own (o : object V) (k : atom) (v : V) :
  get o k = Some v ->
  own (props o) k = Some v \/
  (own (props o) k = None /\ exists K, index_signature o = Some (K, v)).
Proof.
  unfold get. destruct (own (props o) k) as [w |]; [by left |].
  destruct (index_signature o) as [[K w] |]; [| done].
  destruct (key_matches _ _); [| done]. intros [= ->]. right. split; [done | by exists K].
Qed.

End objects.

Lemma has_type_subseteq (v : value) (A B : list atom) :
  A ⊆ B -> has_type v A = true -> has_type v B = true.
Proof.
  intros HAB. rewrite !has_type_elem. intros (a & Ha & Hv).
  exists a. split; [by apply HAB | done].
Qed.

(** X13.  [FindTypes] has one property for each find constant, and no
    other.  For a union [K] of find constants, [FindTypes[K]] is not empty
    unless [K] is, and each of its members is a member of the type of the
    index signature of [FindTypes] or an interface that extends one (a
    structure extends [Structure]), as an index signature requires of the
    properties.  The four exits and [FIND_EXIT] give [RoomPosition]. *)
Theorem find_types_cover_the_find_constants :
  NoDup (keys FindTypes) /\
  keys FindTypes ⊆ union_of FindConstant /\
  union_of FindConstant ⊆ keys FindTypes /\
  (forall K : ty,
     union_of K ⊆ union_of FindConstant ->
     (union_of K <> [] -> index_access FindTypes K <> []) /\
     (forall a : atom,
        a ∈ index_access FindTypes K ->
        exists b : atom, b ∈ signature_type FindTypes /\ object_sub a b = true)) /\
  (forall k : atom,
     k ∈ union_of (ExitConstant ∣ FIND_EXIT) ->
     index_access FindTypes (TAtom k) = [ARef "RoomPosition"]).
Proof.
  split; [compute_done |]. split; [compute_done |]. split; [compute_done |].
  split.
  - intros K HK.
    assert (Hall : Forall (fun k =>
                     from_option union_of [] (get FindTypes k) <> [] /\
                     Forall (fun a => existsb (object_sub a) (signature_type FindTypes) = true)
                            (from_option union_of [] (get FindTypes k)))
                     (union_of FindConstant)) by compute_done.
    rewrite Forall_forall in Hall. unfold index_access. split.
    + destruct (union_of K) as [| k U] eqn:E; [done |]. intros _.
      cbn [flat_map]. destruct (Hall k) as [Hne _]; [apply HK; by left |].
      intros Happ. by apply app_eq_nil in Happ as [? _].
    + intros a. rewrite list_elem_of_In, in_flat_map. intros (k & Hk & Ha).
      apply list_elem_of_In in Hk, Ha.
      destruct (Hall k (HK k Hk)) as [_ Hsub]. rewrite Forall_forall in Hsub.
      specialize (Hsub a Ha). apply existsb_exists in Hsub as (b & Hb & Hab).
      exists b. split; [by apply list_elem_of_In | done].
  - assert (Hex : Forall (fun k => index_access FindTypes (TAtom k) = [ARef "RoomPosition"])
                         (union_of (ExitConstant ∣ FIND_EXIT))) by compute_done.
    by rewrite Forall_forall in Hex.
Qed.

Lemma own_Partial (ps : list (ty * ty)) (k : atom) :
  own ((fun p : ty * ty => (p.1, p.2 ∣ undefined)) <$> ps) k =
  (fun v => v ∣ undefined) <$> own ps k.
Proof.
  induction ps as [| [key v] ps IH]; [done |]. cbn [fmap list_fmap own fst snd].
  by case_bool_decide.
Qed.

Lemma own_Pick (ps : list (ty * ty)) (K : list atom) (k : atom) :
  own (filter (fun p : ty * ty => union_of p.1 ⊆ K) ps) k =
  if bool_decide (k ∈ K) then own ps k else None.
Proof.
  induction ps as [| [key v] ps IH]; [by case_bool_decide |].
  rewrite filter_cons. cbn [fst own].
  destruct (decide (union_of key ⊆ K)) as [Hsub | Hsub]; cbn [own];
    destruct (bool_decide_reflect (union_of key = [k])) as [E | E].
  - rewrite bool_decide_eq_true_2; [done |]. apply Hsub. rewrite E. by left.
  - exact IH.
  - rewrite IH. rewrite bool_decide_eq_false_2; [done |]. intros Hk. apply Hsub.
    rewrite E. intros x Hx. by apply list_elem_of_singleton in Hx as ->.
  - exact IH.
Qed.

Lemma own_type (K : ty) (k : atom) :
  own [ (TStr "type", K) ] k = if bool_decide (k = AStr "type") then Some K else None.
Proof.
  cbn [own]. change (union_of (TStr "type")) with [AStr "type"].
  destruct (decide (k = AStr "type")) as [-> | Hne].
  - by rewrite !bool_decide_eq_true_2.
  - rewrite !bool_decide_eq_false_2; [done | done | congruence].
Qed.

(** X14.  [AllLookAtTypes] has one property for each look constant, and
    none is named [type].  So for a union [K] of look constants,
    [LookAtResult<K>] has the property [type] of type [K]; for each [k]
    of [K] the property [k], of type [AllLookAtTypes[k] | undefined]; and
    no property for the other keys.  [LookForAtAreaResult<T, K>] has
    [type] of type [K] and each [k] of [K] of type [T]. *)
Theorem look_results_are_discriminated :
  NoDup (keys AllLookAtTypes) /\
  keys AllLookAtTypes ⊆ union_of LookConstant /\
  union_of LookConstant ⊆ keys AllLookAtTypes /\
  (forall K : ty,
     union_of K ⊆ union_of LookConstant ->
     LookAtResult K (AStr "type") = Some (union_of K) /\
     (forall k : atom,
        k ∈ union_of K ->
        index_access AllLookAtTypes (TAtom k) <> [] /\
        LookAtResult K k = Some (index_access AllLookAtTypes (TAtom k) ++ [AUndefined])) /\
     (forall k : atom,
        k ∉ union_of K -> k <> AStr "type" -> LookAtResult K k = None) /\
     (forall T : ty,
        LookForAtAreaResult T K (AStr "type") = Some (union_of K) /\
        (forall k : atom,
           k ∈ union_of K -> LookForAtAreaResult T K k = Some (union_of T)))).
Proof.
  split; [compute_done |]. split; [compute_done |]. split; [compute_done |].
  intros K HK.
  assert (Htype : AStr "type" ∉ union_of K).
  { intros Hin. apply HK in Hin. revert Hin. compute_done. }
  assert (Hkeys : Forall (fun k => is_Some (own (props AllLookAtTypes) k) /\
                                   index_access AllLookAtTypes (TAtom k) <> [])
                         (union_of LookConstant)) by compute_done.
  rewrite Forall_forall in Hkeys.
  assert (Hpick : forall k,
             get (Pick LookAtTypes (union_of K)) k =
             if bool_decide (k ∈ union_of K)
             then (fun v => v ∣ undefined) <$> own (props AllLookAtTypes) k else None).
  { intros k. unfold get, Pick, LookAtTypes, Partial. cbn [props index_signature].
    rewrite own_Pick, own_Partial.
    destruct (bool_decide (k ∈ union_of K)); [| done].
    by destruct (own (props AllLookAtTypes) k). }
  assert (Hty : forall k,
             get (Obj None [ (TStr "type", K) ]) k =
             if bool_decide (k = AStr "type") then Some K else None).
  { intros k. unfold get. cbn [props index_signature]. rewrite own_type.
    by destruct (bool_decide _). }
  split; [| split; [| split]].
  - unfold LookAtResult. rewrite Hpick, Hty.
    by rewrite bool_decide_eq_false_2, bool_decide_eq_true_2.
  - intros k Hk. destruct (Hkeys k (HK k Hk)) as [[v Hv] Hne]. split; [done |].
    unfold LookAtResult. rewrite Hpick, Hty, Hv.
    rewrite bool_decide_eq_true_2 by done.
    rewrite bool_decide_eq_false_2 by (intros ->; done).
    unfold index_access, get. change (union_of (TAtom k)) with [k].
    cbn [flat_map]. rewrite Hv. cbn [from_option]. by rewrite app_nil_r.
  - intros k Hk Hne. unfold LookAtResult. rewrite Hpick, Hty.
    by rewrite !bool_decide_eq_false_2.
  - intros T. unfold LookForAtAreaResult, mapped. split.
    + rewrite Hty. by rewrite bool_decide_eq_true_2, bool_decide_eq_false_2.
    + intros k Hk. rewrite Hty.
      rewrite bool_decide_eq_false_2 by (intros ->; done).
      by rewrite bool_decide_eq_true_2.
Qed.

(** X15.  [EventItem] has one member for each event constant, each once,
    in the order of the properties of [EventData]; in each member [data]
    is [EventData] at the member's own [event], [objectId] is a [string],
    and [EventData] has a property for that event. *)
Theorem event_items_are_discriminated :
  NoDup (flat_map (fun i => union_of (event i)) EventItem) /\
  flat_map (fun i => union_of (event i)) EventItem ⊆ union_of EventConstant /\
  union_of EventConstant ⊆ flat_map (fun i => union_of (event i)) EventItem /\
  keys EventData = flat_map (fun i => union_of (event i)) EventItem /\
  Forall (fun i => data i = event i /\
                   objectId i = string_ /\
                   Forall (fun k => is_Some (get EventData k)) (union_of (data i)))
         EventItem.
Proof.
  split; [compute_done |]. split; [compute_done |]. split; [compute_done |].
  split; [reflexivity |]. compute_done.
Qed.

(** X16.  The exits are directions.  [ExitConstant] is within
    [DirectionConstant] and within [FindConstant], [FIND_EXIT_TOP] is the
    type [TOP], and so on for the three other sides; so a value of
    [ExitConstant] is a value of [DirectionConstant].  The members of
    [ExitKey] are the exit constants written in decimal.  What
    [GameMap.findExit] and [Room.findExitTo] return when it is no return
    code is [ExitConstant]. *)
Theorem exits_are_directions :
  union_of ExitConstant ⊆ union_of DirectionConstant /\
  union_of ExitConstant ⊆ union_of FindConstant /\
  (union_of FIND_EXIT_TOP = union_of TOP /\
   union_of FIND_EXIT_RIGHT = union_of RIGHT /\
   union_of FIND_EXIT_BOTTOM = union_of BOTTOM /\
   union_of FIND_EXIT_LEFT = union_of LEFT) /\
  (forall v : value,
     has_type v (union_of ExitConstant) = true ->
     has_type v (union_of DirectionConstant) = true) /\
  union_of ExitKey =
    (fun z : Z => AStr (pretty.pretty z)) <$> literals (union_of ExitConstant) /\
  Forall (fun om : string * member =>
            m_name om.2 ∈ ["findExit"; "findExitTo"] ->
            Exclude (ret_of om.2) (union_of ScreepsReturnCode) = union_of ExitConstant)
         operations /\
  is_Some (find_operation "GameMap" "findExit") /\
  is_Some (find_operation "Room" "findExitTo").
Proof.
  assert (H : union_of ExitConstant ⊆ union_of DirectionConstant) by compute_done.
  split; [done |]. split; [compute_done |]. split; [done |].
  split; [intros v; by apply has_type_subseteq |].
  split; [reflexivity |]. split; [compute_done |]. split; compute_done.
Qed.

(** X17.  The terrain masks are the bits 1, 2 and 4.  For each value [z]
    that [RoomTerrain.get] is declared to return, the bit of the wall is
    set in [z] exactly when [z] is [TERRAIN_MASK_WALL], the bit of the
    swamp exactly when [z] is [TERRAIN_MASK_SWAMP], and the bit of the lava
    never.  The two bits together are not a declared result, although the
    documentation calls the result a bitmask.  Every value of the declared
    return type is one of the numbers listed. *)
Theorem terrain_masks_are_single_bits :
  mask <$> [TERRAIN_MASK_WALL; TERRAIN_MASK_SWAMP; TERRAIN_MASK_LAVA] =
    [2 ^ 0; 2 ^ 1; 2 ^ 2] /\
  Forall (fun z =>
            (Z.land z (mask TERRAIN_MASK_WALL) <> 0 <-> z = mask TERRAIN_MASK_WALL) /\
            (Z.land z (mask TERRAIN_MASK_SWAMP) <> 0 <-> z = mask TERRAIN_MASK_SWAMP) /\
            Z.land z (mask TERRAIN_MASK_LAVA) = 0)
         (literals (union_of RoomTerrain.get)) /\
  (Z.lor (mask TERRAIN_MASK_WALL) (mask TERRAIN_MASK_SWAMP)
     ∉ literals (union_of RoomTerrain.get)) /\
  (forall v : value,
     has_type v (union_of RoomTerrain.get) = true ->
     exists (q : Q) (z : Z),
       v = VNum q /\ (q == inject_Z z)%Q /\ z ∈ literals (union_of RoomTerrain.get)).
Proof.
  split; [reflexivity |]. split; [compute_done |]. split; [compute_done |].
  intros v Hv. apply has_type_elem in Hv as (a & Ha & Hv).
  assert (Hl : Forall (fun a => exists z, a = ANum z /\ z ∈ literals (union_of RoomTerrain.get))
                      (union_of RoomTerrain.get)).
  { repeat (constructor; [eexists; split; [reflexivity | compute_done] |]). constructor. }
  rewrite Forall_forall in Hl. destruct (Hl a Ha) as (z & -> & Hz).
  apply inhabits_num in Hv as (q & -> & Hq). by exists q, z.
Qed.

(** ** Tables of game constants *)

(** X18.  [REACTIONS] is symmetric: whenever [REACTIONS[a][b]] is declared
    with the compound [p], [REACTIONS[b][a]] is declared with [p] too.
    Stated for all keys [a] and [b]; under the index signatures a key that
    is not declared gives [string], not a compound. *)
Theorem reactions_are_symmetric (a b : atom) (p : string) :
  reaction a b = Some (TStr p) -> reaction b a = Some (TStr p).
Proof.
  assert (Hall : Forall (fun x : ty * object ty =>
                    index_signature x.2 = None /\
                    Forall (fun q : ty * ty =>
                              Forall (fun a' =>
                                        Forall (fun b' => reaction b' a' = Some q.2)
                                               (union_of q.1))
                                     (union_of x.1))
                           (props x.2))
                   (props REACTIONS)) by compute_done.
  rewrite Forall_forall in Hall.
  unfold reaction at 1. destruct (get REACTIONS a) as [o |] eqn:Ea; [| done].
  cbn [mbind option_bind]. intros Hb.
  apply get_own in Ea as [Ea | [_ (K & Eidx)]].
  - apply own_Some in Ea as (key & Hin & Hkey).
    destruct (Hall _ Hin) as [Hidx Hprops]. cbn [fst snd] in Hidx, Hprops.
    apply get_own in Hb as [Hb | [_ (K & Eidx)]]; [| congruence].
    apply own_Some in Hb as (key' & Hin' & Hkey').
    rewrite Forall_forall in Hprops. specialize (Hprops _ Hin'). cbn [fst snd] in Hprops.
    rewrite Hkey, Hkey' in Hprops.
    by apply Forall_cons in Hprops as [Hprops%Forall_cons _]; destruct Hprops.
  - injection Eidx as _ <-. unfold get in Hb. cbn [props own index_signature] in Hb.
    by destruct (key_matches _ _).
Qed.

Lemma reactions_are_symmetric_witness :
  reaction (AStr "ZK") (AStr "UL") = Some (TStr "G") /\
  reaction (AStr "UL") (AStr "ZK") = Some (TStr "G").
Proof.
  assert (H : reaction (AStr "ZK") (AStr "UL") = Some (TStr "G")) by reflexivity.
  split; [exact H |]. exact (reactions_are_symmetric _ _ _ H).
Defined.

(** X19.  What the reactions make.  The compounds produced by the declared
    entries of [REACTIONS] are the members of [MineralCompoundConstant],
    all of them, and they are the keys of [REACTION_TIME], each once.
    Every reagent is a mineral or a compound.  Two entries that produce
    the same compound have the same two reagents, in the same or in the
    opposite order.  The store of a lab can hold every reagent and every
    product. *)
Theorem reactions_make_the_compounds :
  products ⊆ union_of MineralCompoundConstant /\
  union_of MineralCompoundConstant ⊆ products /\
  NoDup (keys REACTION_TIME) /\
  keys REACTION_TIME ⊆ products /\
  products ⊆ keys REACTION_TIME /\
  Forall (fun e : atom * atom * ty =>
            e.1.1 ∈ union_of (MineralConstant ∣ MineralCompoundConstant) /\
            e.1.2 ∈ union_of (MineralConstant ∣ MineralCompoundConstant))
         (entries REACTIONS) /\
  Forall (fun e1 : atom * atom * ty =>
            Forall (fun e2 : atom * atom * ty =>
                      e1.2 = e2.2 ->
                      e1.1 = e2.1 \/ e1.1 = (e2.1.2, e2.1.1))
                   (entries REACTIONS))
         (entries REACTIONS) /\
  (exists st : store_ty,
     store_of "StructureLab" = Some st /\
     Forall (fun e : atom * atom * ty =>
               [e.1.1; e.1.2] ++ union_of e.2 ⊆ union_of (POSSIBLE_RESOURCES st))
            (entries REACTIONS)).
Proof.
  split; [compute_done |]. split; [compute_done |]. split; [compute_done |].
  split; [compute_done |]. split; [compute_done |]. split; [compute_done |].
  split; [compute_done |].
  eexists. split; [reflexivity |]. compute_done.
Qed.

(** X20.  [BOOSTS] and [REACTIONS].  Every key of [BOOSTS] is a body part.
    The compounds of [BOOSTS] are the members of [MineralBoostConstant],
    each under one body part only.  Whenever [REACTIONS] makes a compound
    [c'] from a boost [c] and hydroxide, or from [c] and the catalyst,
    [c'] boosts the same body part in the same actions as [c] does, and
    in each action more strongly (its factor is further from 1).  Twenty
    of the thirty boosts have such a stronger form. *)
Theorem boosts_follow_the_reactions :
  keys BOOSTS ⊆ union_of BodyPartConstant /\
  NoDup ((fun e : atom * atom * object numeric => e.1.2) <$> entries BOOSTS) /\
  (fun e : atom * atom * object numeric => e.1.2) <$> entries BOOSTS
    ⊆ union_of MineralBoostConstant /\
  union_of MineralBoostConstant
    ⊆ (fun e : atom * atom * object numeric => e.1.2) <$> entries BOOSTS /\
  Forall (fun e : atom * atom * object numeric =>
            Forall (fun c =>
                      (keys <$> (o ← get BOOSTS e.1.1; get o c)) = Some (keys e.2) /\
                      Forall (fun action =>
                                stronger (boost_factor e.1.1 e.1.2 action)
                                         (boost_factor e.1.1 c action) = true)
                             (keys e.2))
                   (upgrade e.1.2))
         (entries BOOSTS) /\
  length (filter (fun e : atom * atom * object numeric => upgrade e.1.2 <> [])
                 (entries BOOSTS)) = 20%nat.
Proof.
  split; [compute_done |]. split; [compute_done |]. split; [compute_done |].
  split; [compute_done |]. split; [compute_done |]. reflexivity.
Qed.

(** X21.  [BodyPartDefinition<T>] distributes over the body parts of [T],
    and gives each body part one object type, of which [type] is the body
    part and [hits] a [number].  For every body part but [claim], [boost]
    is one of the compounds [BOOSTS] declares for the part, which are
    boost minerals and resource constants.  For [claim], which [BOOSTS]
    does not declare, the index signature makes [boost] a [string |
    number]. *)
Theorem body_part_boosts :
  NoDup (type <$> BodyPartDefinition BodyPartConstant) /\
  Forall (fun t =>
            Forall (fun d =>
                      type d = [t] /\
                      hits d = [ANumber] /\
                      (t <> AStr "claim" ->
                       boost d <> [] /\
                       boost d ⊆ union_of MineralBoostConstant /\
                       boost d ⊆ union_of ResourceConstant /\
                       boost d = (fun e : atom * atom * object numeric => e.1.2)
                                   <$> filter (fun e : atom * atom * object numeric =>
                                                 e.1.1 = t)
                                              (entries BOOSTS)) /\
                      (t = AStr "claim" -> boost d = [AString; ANumber]))
                   (BodyPartDefinition (TAtom t)))
         (union_of BodyPartConstant) /\
  Forall (fun t => length (BodyPartDefinition (TAtom t)) = 1%nat)
         (union_of BodyPartConstant) /\
  (forall T : ty,
     BodyPartDefinition T =
     flat_map (fun t => BodyPartDefinition (TAtom t)) (union_of T)).
Proof.
  split; [compute_done |]. split; [compute_done |]. split; [compute_done |].
  intros T. unfold BodyPartDefinition. induction (union_of T) as [| t U IH]; [done |].
  cbn [fmap list_fmap flat_map]. change (union_of (TAtom t)) with [t].
  cbn [fmap list_fmap app]. by f_equal.
Qed.

(** X22.  [POWER_INFO] has one entry for each power constant.  Every entry
    has the fields the index signature requires, with types assignable to
    those of the index signature.  In every entry [level] is a tuple of
    five increasing levels between 0 and [POWER_CREEP_MAX_LEVEL], and every
    other field that is a tuple ([effect], [ops], [duration]) has five
    components as well, one for each level of the power. *)
Theorem power_info_is_per_level :
  NoDup (keys POWER_INFO) /\
  keys POWER_INFO ⊆ union_of PowerConstant /\
  union_of PowerConstant ⊆ keys POWER_INFO /\
  (exists sig : list pfield,
     index_signature POWER_INFO = Some (number, sig) /\
     Forall (fun p : ty * list pfield => entry_sub p.2 sig = true) (props POWER_INFO)) /\
  Forall (fun p : ty * list pfield =>
            length (level_of p.2) = 5%nat /\
            increasing (level_of p.2) = true /\
            Forall (fun q => Qle_bool 0 q && Qle_bool q (inject_Z POWER_CREEP_MAX_LEVEL) = true)
                   (level_of p.2) /\
            Forall (fun t : string * list Q => length t.2 = length (level_of p.2))
                   (tuples p.2))
         (props POWER_INFO).
Proof.
  split; [compute_done |]. split; [compute_done |]. split; [compute_done |].
  split; [eexists; split; [reflexivity | compute_done] |].
  compute_done.
Qed.
